(** * The protocol engine of the UHF RFID reader driver (src/rfid/reader.py)

    A shallow embedding of [Reader] and of the three transports of
    src/rfid/transport.py, with the properties of the engine that the
    specification states about them.

    Bytes are integers ([Z], a received byte lies in 0..255), byte strings are
    lists.  Python exceptions are explicit: every operation returns a
    [result] together with the reader it leaves behind, so that what was
    written before an exception stays written.  Generators are explicit
    machines: a program point at which the generator is suspended, and a
    function that resumes it. *)

From Stdlib Require Import ZArith List Bool Lia.
From Stdlib Require String.
Import ListNotations.
Open Scope Z_scope.

(** ** Byte strings the way Python handles them *)

Definition bytes := list Z.

Definition len (b : bytes) : Z := Z.of_nat (length b).

(** A slice bound: negative bounds count from the end, and bounds are clamped
    to the string. *)
Definition norm_index (n i : Z) : Z :=
  if i <? 0 then Z.max 0 (i + n) else Z.min i n.

(** [b[lo:hi]] *)
Definition py_slice (b : bytes) (lo hi : Z) : bytes :=
  let lo' := norm_index (len b) lo in
  let hi' := norm_index (len b) hi in
  firstn (Z.to_nat (hi' - lo')) (skipn (Z.to_nat lo') b).

(** [b[i]], [None] standing for IndexError. *)
Definition py_index (b : bytes) (i : Z) : option Z :=
  let i' := if i <? 0 then i + len b else i in
  if i' <? 0 then None else nth_error b (Z.to_nat i').

(** [int.from_bytes(b, "big")] *)
Definition int_from_bytes_big (b : bytes) : Z :=
  fold_left (fun acc x => acc * 256 + x) b 0.

(** [v.to_bytes(n, "big")]; [None] standing for OverflowError. *)
Fixpoint be_digits (n : nat) (v : Z) : bytes :=
  match n with
  | O => []
  | S n' => be_digits n' (v / 256) ++ [v mod 256]
  end.

Definition to_bytes_big (n : nat) (v : Z) : option bytes :=
  if (0 <=? v) && (v <? 256 ^ Z.of_nat n) then Some (be_digits n v) else None.

Definition is_byte (v : Z) : bool := (0 <=? v) && (v <? 256).

(** ** Exceptions and results *)

Inductive exn : Type :=
| USBError | TimeoutError | ValueError | IndexError | AssertionError
| OverflowError
| ConstructorError   (* raised inside a constructor of rfid.response *)
| SerialException    (* raised by [serial.write] *)
| OSError.           (* raised by [socket.sendall] *)

Inductive result (A : Type) : Type :=
| Ok (a : A)
| Raise (e : exn).
Arguments Ok {A} a.
Arguments Raise {A} e.

(** ** Transports (src/rfid/transport.py)

    What the device sends is a script: a list of bursts of bytes and of
    silences that last longer than the read timeout.  A USB burst is one bulk
    packet.  On a serial line and on a socket a burst that has arrived waits
    in the input buffer [inbuf] until it is read (or flushed).  A script that
    has run out is a device that stays silent.  [log] records, in order, the
    calls of [write_bytes] and of [clear_buffer].

    What a write meets is a script too: a call of [write_bytes] returns, or
    raises ([sendall] and [serial.write] raise on an error or on a write
    timeout, [UsbTransport.write_bytes] raises USBError and asserts that the
    endpoint took every byte).  [tx] lists the outcomes of the calls to come;
    when it has run out, every write is taken.  A call that raises is
    recorded in [log] like one that returns. *)

Inductive ConnectionType : Type := SERIAL | USB | TCP_IP.

Inductive RxEvent : Type :=
| Data (b : bytes)
| Silence.

Inductive IoOp : Type :=
| Written (b : bytes)
| Cleared.

Inductive TxEvent : Type :=
| Sent
| Refused (e : exn).

Record Transport : Type := mkLine {
  connection_type : ConnectionType;
  inbuf : bytes;
  rx : list RxEvent;
  log : list IoOp;
  tx : list TxEvent
}.

(** A transport that takes every write. *)
Abbreviation mkTransport k b s l := (mkLine k b s l []).

(** [serial.read(n)]: blocks until [n] bytes are there or the timeout
    expires, and then returns what it has. *)
Fixpoint serial_read (n : nat) (buf : bytes) (script : list RxEvent)
  : bytes * bytes * list RxEvent :=
  if (n <=? length buf)%nat then (firstn n buf, skipn n buf, script)
  else match script with
       | Data b :: rest => serial_read n (buf ++ b) rest
       | Silence :: rest => (buf, [], rest)
       | [] => (buf, [], [])
       end.

(** [socket.recv(n)]: returns as soon as some bytes are there, at most [n];
    raises on a timeout. *)
Definition tcp_recv (n : nat) (buf : bytes) (script : list RxEvent)
  : result bytes * bytes * list RxEvent :=
  match buf with
  | _ :: _ => (Ok (firstn n buf), skipn n buf, script)
  | [] => match script with
          | Data b :: rest => (Ok (firstn n b), skipn n b, rest)
          | Silence :: rest => (Raise TimeoutError, [], rest)
          | [] => (Raise TimeoutError, [], [])
          end
  end.

(** [ep_in.read(max_packet_size)]: one bulk packet, or USBError on a
    timeout. *)
Definition usb_read (script : list RxEvent) : result bytes * list RxEvent :=
  match script with
  | Data b :: rest => (Ok b, rest)
  | Silence :: rest => (Raise USBError, rest)
  | [] => (Raise USBError, [])
  end.

(** [Transport.read_bytes]; the USB variant takes no length. *)
Definition read_bytes (length : Z) (t : Transport) : result bytes * Transport :=
  match connection_type t with
  | USB =>
      let '(r, script) := usb_read (rx t) in
      (r, mkLine USB (inbuf t) script (log t) (tx t))
  | SERIAL =>
      let '(b, buf, script) := serial_read (Z.to_nat length) (inbuf t) (rx t) in
      (Ok b, mkLine SERIAL buf script (log t) (tx t))
  | TCP_IP =>
      let '(r, buf, script) := tcp_recv (Z.to_nat length) (inbuf t) (rx t) in
      (r, mkLine TCP_IP buf script (log t) (tx t))
  end.

(** What the next call of [write_bytes] meets. *)
Definition write_outcome (t : Transport) : result unit :=
  match tx t with
  | Refused e :: _ => Raise e
  | _ => Ok tt
  end.

(** [Transport.write_bytes] *)
Definition write_bytes (b : bytes) (t : Transport) : result unit * Transport :=
  (write_outcome t,
   mkLine (connection_type t) (inbuf t) (rx t) (log t ++ [Written b])
     (tl (tx t))).

(** [clear_buffer] is [pass] for USB and TCP; the serial one resets the input
    buffer. *)
Definition clear_buffer (t : Transport) : Transport :=
  match connection_type t with
  | SERIAL => mkLine SERIAL [] (rx t) (log t ++ [Cleared]) (tx t)
  | k => mkLine k (inbuf t) (rx t) (log t ++ [Cleared]) (tx t)
  end.

(** ** The reader and its monad *)

Record Reader : Type := mkReader {
  transport : Transport;
  is_inventory : bool
}.

Definition M (A : Type) : Type := Reader -> result A * Reader.

Definition ret {A} (a : A) : M A := fun r => (Ok a, r).
Definition raise {A} (e : exn) : M A := fun r => (Raise e, r).
Definition bind {A B} (m : M A) (k : A -> M B) : M B :=
  fun r => match m r with
           | (Ok a, r') => k a r'
           | (Raise e, r') => (Raise e, r')
           end.

Notation "x <- m ;; k" := (bind m (fun x => k))
  (at level 61, m at next level, right associativity).
Notation "m ;;; k" := (bind m (fun _ => k))
  (at level 61, right associativity).

(** [try: m except (es): h] *)
Definition try_except {A} (m : M A) (caught : exn -> bool) (h : M A) : M A :=
  fun r => match m r with
           | (Raise e, r') => if caught e then h r' else (Raise e, r')
           | ok => ok
           end.

Definition usb_or_timeout (e : exn) : bool :=
  match e with USBError | TimeoutError => true | _ => false end.

Definition assert (c : bool) : M unit :=
  if c then ret tt else raise AssertionError.

Definition index (b : bytes) (i : Z) : M Z :=
  match py_index b i with Some v => ret v | None => raise IndexError end.

Definition set_is_inventory (v : bool) : M unit :=
  fun r => (Ok tt, mkReader (transport r) v).

Definition transport_read_bytes (length : Z) : M bytes :=
  fun r => let '(res, t) := read_bytes length (transport r) in
           (res, mkReader t (is_inventory r)).

Definition transport_write_bytes (b : bytes) : M unit :=
  fun r => let '(res, t) := write_bytes b (transport r) in
           (res, mkReader t (is_inventory r)).

Definition transport_clear_buffer : M unit :=
  fun r => (Ok tt, mkReader (clear_buffer (transport r)) (is_inventory r)).

(** ** What reader.py imports from modules that are not part of the sources

    rfid.command, rfid.response, rfid.status and rfid.reader_settings are
    imported by reader.py; the engine is stated over any contents of them. *)

(** Modelled from the spec: the enumeration [WorkMode] of
    rfid.reader_settings, with the members the specification names; the
    engine only compares a work mode with ANSWER_MODE. *)
Inductive WorkMode : Type := ANSWER_MODE | ACTIVE_MODE | TRIGGER_MODE.

Inductive response_class : Type :=
| ClsResponse | ClsReaderSettings | ClsReadMemory | ClsWriteMemory
| ClsLockMemory | ClsKillTag | ClsInventory.

(** Modelled from the spec: the enumeration [StopAfter] of
    rfid.reader_settings. *)
Inductive StopAfter : Type := TIME | NUMBER.

Record AnswerModeInventoryParameter : Type := mkAnswerModeInventoryParameter {
  stop_after : StopAfter;
  value : Z
}.

(** The constants, enumerations and constructors of the absent modules, as
    parameters of the engine. *)
Class Catalog : Type := {
  HEADER : Z;
  (** [CommandRequest(v)] succeeds *)
  is_CommandRequest : Z -> bool;
  SET_POWER : Z;
  GET_ALL_PARAM : Z;
  SELECT_MASK : Z;
  READ_ISO_TAG : Z;
  WRITE_ISO_TAG : Z;
  LOCK_ISO_TAG : Z;
  KILL_ISO_TAG : Z;
  INVENTORY_ISO_CONTINUE : Z;
  INVENTORY_STOP : Z;
  (** [InventoryStatus(v)] succeeds *)
  is_InventoryStatus : Z -> bool;
  InventoryStatus_SUCCESS : Z;
  InventoryStatus_NO_COUNT_LABEL : Z;
  Status_NO_COUNT_LABEL : Z;
  (** [stop_after.value] *)
  StopAfter_value : StopAfter -> Z;
  (** [Command(opcode, data=data).serialize()] *)
  serialize : Z -> bytes -> bytes;
  (** the constructor of a response class on the raw bytes: the [status]
      attribute of the object, or the exception it raises *)
  response_init : response_class -> option bytes -> result Z
}.

(** A typed response, as far as the engine looks at it. *)
Record Response : Type := mkResponse {
  cls : response_class;
  raw : option bytes;
  status : Z
}.

Section Engine.

Context {C : Catalog}.

Definition construct (k : response_class) (raw_response : option bytes) : M Response :=
  match response_init k raw_response with
  | Ok s => ret (mkResponse k raw_response s)
  | Raise e => raise e
  end.

(** [CommandRequest(v)]: the member with value [v], or ValueError. *)
Definition CommandRequest (v : Z) : option Z :=
  if is_CommandRequest v then Some v else None.

Definition InventoryStatus (v : Z) : M Z :=
  if is_InventoryStatus v then ret v else raise ValueError.

(** *** [Reader.__send_request] *)
Definition send_request (opcode : Z) (data : bytes) (clear : bool) : M unit :=
  let serialized := serialize opcode data in
  (if clear then transport_clear_buffer else ret tt) ;;;
  transport_write_bytes serialized.

(** *** [Reader.__receive_response] *)

(** [while len(raw_resp) < all_len: raw_resp += self.transport.read_bytes()],
    unfolded along the script: each unfolding is one [read_bytes()]. *)
Fixpoint usb_read_until (all_len : Z) (raw_resp : bytes) (script : list RxEvent)
  : result bytes * list RxEvent :=
  if len raw_resp <? all_len then
    match script with
    | Data b :: rest => usb_read_until all_len (raw_resp ++ b) rest
    | Silence :: rest => (Raise USBError, rest)
    | [] => (Raise USBError, [])
    end
  else (Ok raw_resp, script).

Definition usb_loop (all_len : Z) (raw_resp : bytes) : M bytes :=
  fun r =>
    let t := transport r in
    let '(res, script) := usb_read_until all_len raw_resp (rx t) in
    (res, mkReader (mkLine (connection_type t) (inbuf t) script (log t)
                      (tx t))
                   (is_inventory r)).

(** The inner function [__receive]. *)
Definition receive (verify_header loop_usb : bool) : M (option bytes) :=
  fun r =>
    match connection_type (transport r) with
    | USB =>
        (raw_resp <- transport_read_bytes 0 ;;
         if loop_usb then
           length <- index raw_resp 4 ;;
           let all_len := 4 + length + 2 in
           raw_resp' <- usb_loop all_len raw_resp ;;
           ret (Some raw_resp')
         else ret (Some raw_resp)) r
    | SERIAL | TCP_IP =>
        (response_header_section <- transport_read_bytes 5 ;;
         if (len response_header_section <=? 0)
            || (negb verify_header
                && negb (nth 0 response_header_section 0 =? HEADER))
         then transport_clear_buffer ;;; ret None
         else
           assert (len response_header_section =? 5) ;;;
           body_length <- index response_header_section (-1) ;;
           response_body_section <- transport_read_bytes (body_length + 2) ;;
           ret (Some (response_header_section ++ response_body_section))) r
    end.

(** One turn of [for i in range(20)]: the bytes received, and whether
    [command_response == command_request] breaks out of the loop; [None] when
    [__receive] returned [None]. *)
Definition attempt (command_request : Z) (verify_header loop_usb : bool)
  : M (option (bytes * bool)) :=
  received <- receive verify_header loop_usb ;;
  match received with
  | None => ret None
  | Some raw_response =>
      (if (0 <? len raw_response) && negb (nth 0 raw_response 0 =? HEADER)
       then transport_clear_buffer else ret tt) ;;;
      let command_response :=
        CommandRequest (int_from_bytes_big (py_slice raw_response 2 4)) in
      ret (Some (raw_response,
                 match command_response with
                 | Some c => c =? command_request
                 | None => false
                 end))
  end.

(** [for i in range(20)]: [attempts] turns are left, [raw_response] is the
    value of the variable before them. *)
Fixpoint receive_loop (attempts : nat) (command_request : Z)
    (verify_header loop_usb : bool) (raw_response : option bytes)
  : M (option bytes) :=
  match attempts with
  | O => ret raw_response
  | S attempts' =>
      outcome <- attempt command_request verify_header loop_usb ;;
      match outcome with
      | None => ret None
      | Some (raw_response', true) => ret (Some raw_response')
      | Some (raw_response', false) =>
          receive_loop attempts' command_request verify_header loop_usb
            (Some raw_response')
      end
  end.

Definition receive_response (command_request : Z)
    (verify_header loop_usb : bool) : M (option bytes) :=
  receive_loop 20 command_request verify_header loop_usb None.

(** [bytearray([...])] and [data.extend([...])] on integers: ValueError unless
    every one is a byte. *)
Definition bytearray (l : list Z) : M bytes :=
  if forallb is_byte l then ret l else raise ValueError.

Definition to_bytes (n : nat) (v : Z) : M bytes :=
  match to_bytes_big n v with Some b => ret b | None => raise OverflowError end.

(** *** One-shot operations *)

Definition set_power (power reserve : Z) : M Response :=
  assert (((0 <=? power) && (power <=? 33))
          && ((0 <=? reserve) && (reserve <=? 1))) ;;;
  let cmd_request := SET_POWER in
  data <- bytearray [power; reserve] ;;
  send_request cmd_request data true ;;;
  raw_response <- receive_response cmd_request true true ;;
  construct ClsResponse raw_response.

Definition get_reader_settings : M Response :=
  let cmd_request := GET_ALL_PARAM in
  send_request cmd_request [] true ;;;
  raw_response <- receive_response cmd_request true true ;;
  construct ClsReaderSettings raw_response.

(** The payload [select_mask] builds, before it is sent. *)
Definition select_mask_data (mask : bytes) (start_address : Z) : M bytes :=
  let start_address := start_address * 8 in
  start_address <- to_bytes 2 start_address ;;
  let data := start_address in
  let length := len mask * 8 in
  ext <- bytearray [length] ;;
  let data := data ++ ext in
  let mask := if negb (len mask mod 2 =? 0) then mask ++ [0] else mask in
  let data := data ++ mask in
  ret data.

Definition select_mask (mask : bytes) (start_address : Z) : M Response :=
  data <- select_mask_data mask start_address ;;
  let cmd_request := SELECT_MASK in
  send_request cmd_request data true ;;;
  raw_response <- receive_response cmd_request true true ;;
  construct ClsResponse raw_response.

(** *** [stop_inventory] *)

Definition is_answer_mode (w : WorkMode) : bool :=
  match w with ANSWER_MODE => true | _ => false end.

Definition stop_inventory (work_mode : WorkMode) : M unit :=
  let cmd_request := INVENTORY_STOP in
  (if is_answer_mode work_mode then
     (fun r => (if is_inventory r
                then send_request cmd_request [] false
                else ret tt) r) ;;;
     try_except (receive_response cmd_request true true ;;; ret tt)
       usb_or_timeout (ret tt)
   else ret tt) ;;;
  set_is_inventory false.

(** *** Generators

    A generator function runs nothing when it is called.  The first [next]
    runs [prologue] and enters the loop [while self.is_inventory]; [body] is
    one turn of the loop, which either yields or goes round again
    ([continue]); after a yield the generator is suspended, and remembers
    whether the test that follows the yield ([status == NO_COUNT_LABEL])
    breaks out of the loop.  Leaving the loop runs
    [self.is_inventory = False] and ends the generator. *)

Inductive flow : Type :=
| Continue
| Yield (item : option Response) (break_next : bool).

Record generator : Type := mkGenerator {
  prologue : M unit;
  body : M flow
}.

Inductive pc : Type :=
| Fresh
| Suspended (break_next : bool)
| Finished.

Inductive gen_event : Type :=
| Yielded (item : option Response)
| StopIteration
| Raised (e : exn).

Definition leave_loop (r : Reader) : gen_event * pc * Reader :=
  (StopIteration, Finished, mkReader (transport r) false).

(** The loop, for at most [fuel] turns; [None] when that many turns went by
    without a yield and without an end. *)
Fixpoint loop (fuel : nat) (body : M flow) (r : Reader)
  : option (gen_event * pc * Reader) :=
  match fuel with
  | O => None
  | S fuel' =>
      if is_inventory r then
        match body r with
        | (Ok Continue, r') => loop fuel' body r'
        | (Ok (Yield item break_next), r') =>
            Some (Yielded item, Suspended break_next, r')
        | (Raise e, r') => Some (Raised e, Finished, r')
        end
      else Some (leave_loop r)
  end.

(** [next(g)] on a generator suspended at [p]. *)
Definition next (fuel : nat) (g : generator) (p : pc) (r : Reader)
  : option (gen_event * pc * Reader) :=
  match p with
  | Fresh =>
      match prologue g r with
      | (Ok _, r') => loop fuel (body g) r'
      | (Raise e, r') => Some (Raised e, Finished, r')
      end
  | Suspended true => Some (leave_loop r)
  | Suspended false => loop fuel (body g) r
  | Finished => Some (StopIteration, Finished, r)
  end.

(** [for item in g: ...] with a consumer that only collects: the items, how
    the generator ended, and the reader it leaves. *)
Fixpoint collect (fuel : nat) (g : generator) (p : pc) (r : Reader)
  : option (list (option Response) * gen_event * Reader) :=
  match fuel with
  | O => None
  | S fuel' =>
      match next (S fuel') g p r with
      | None => None
      | Some (Yielded item, p', r') =>
          match collect fuel' g p' r' with
          | Some (items, e, r'') => Some (item :: items, e, r'')
          | None => None
          end
      | Some (e, _, r') => Some ([], e, r')
      end
  end.

(** *** [read_memory], [write_memory], [lock_memory], [kill_tag] *)

Definition yield_response (k : response_class) (raw_response : option bytes)
  : M flow :=
  response <- construct k raw_response ;;
  ret (Yield (Some response) (status response =? Status_NO_COUNT_LABEL)).

Definition read_memory (memory_bank start_address length : Z)
    (access_password : bytes) : generator :=
  let cmd_request := READ_ISO_TAG in
  {| prologue :=
       assert (((0 <=? start_address) && (start_address <=? 65535))
               && ((0 <=? length) && (length <=? 255))) ;;;
       set_is_inventory true ;;;
       bank <- bytearray [memory_bank] ;;
       address <- to_bytes 2 start_address ;;
       count <- bytearray [length] ;;
       let data := [0] ++ access_password ++ bank ++ address ++ count in
       send_request cmd_request data true;
     body :=
       raw_response <- receive_response cmd_request true true ;;
       match raw_response with
       | None => ret (Yield None false)
       | Some _ => yield_response ClsReadMemory raw_response
       end |}.

Definition write_memory (memory_bank : Z) (data : bytes)
    (start_address length : Z) (access_password : bytes) : generator :=
  let cmd_request := WRITE_ISO_TAG in
  {| prologue :=
       assert (0 <? len data) ;;;
       let length := if length =? 0 then len data else length in
       assert (((0 <=? start_address) && (start_address <=? 65535))
               && ((0 <? length) && (length <=? 255))) ;;;
       set_is_inventory true ;;;
       bank <- bytearray [memory_bank] ;;
       address <- to_bytes 2 start_address ;;
       count <- bytearray [length] ;;
       let cmd_data :=
         [0] ++ access_password ++ bank ++ address ++ count ++ data in
       send_request cmd_request cmd_data true;
     body :=
       raw_response <- receive_response cmd_request true true ;;
       match raw_response with
       | None => ret Continue
       | Some _ => yield_response ClsWriteMemory raw_response
       end |}.

Definition lock_memory (lock_memory_bank lock_action : Z)
    (access_password : bytes) : generator :=
  let cmd_request := LOCK_ISO_TAG in
  {| prologue :=
       bank <- bytearray [lock_memory_bank] ;;
       action <- bytearray [lock_action] ;;
       let cmd_data := access_password ++ bank ++ action in
       set_is_inventory true ;;;
       send_request cmd_request cmd_data true;
     body :=
       raw_response <- receive_response cmd_request true true ;;
       match raw_response with
       | None => ret Continue
       | Some _ => yield_response ClsLockMemory raw_response
       end |}.

Definition kill_tag (kill_password : bytes) : generator :=
  let cmd_request := KILL_ISO_TAG in
  {| prologue :=
       set_is_inventory true ;;;
       let cmd_data := kill_password in
       send_request cmd_request cmd_data true;
     body :=
       raw_response <- receive_response cmd_request true true ;;
       match raw_response with
       | None => ret Continue
       | Some _ => yield_response ClsKillTag raw_response
       end |}.

(** *** [start_inventory] *)

Definition is_usb (r : Reader) : bool :=
  match connection_type (transport r) with USB => true | _ => false end.

(** What follows the receive in one turn of the loop, on the bytes
    [response] it returned.  The local [response] is reset to [[]] on every
    path that goes round again; both arms of the test on it make the same
    call, so it is not kept. *)
Definition inventory_frame (response : bytes) : M flow :=
  if len response <=? 0 then ret (Yield None false)
  else if negb (nth 0 response 0 =? HEADER) then ret Continue
  else
    let header_section := py_slice response 0 5 in
    length <- index response 4 ;;
    match CommandRequest (int_from_bytes_big (py_slice header_section 2 4)) with
    | None => raise ValueError
    | Some command_request =>
        if command_request =? INVENTORY_STOP then ret Continue
        else
          let body_n_checksum_section :=
            py_slice response 5 (4 + length + 2 + 1) in
          status_byte <- index body_n_checksum_section 0 ;;
          status <- InventoryStatus status_byte ;;
          let body_section := py_slice body_n_checksum_section 1 (-2) in
          if negb (len body_n_checksum_section - 2 =? length) then ret Continue
          else
            usb <- (fun r => (Ok (is_usb r), r)) ;;
            short_tag <-
              (if usb && (status =? InventoryStatus_SUCCESS) then
                 tag_length <- index body_section 4 ;;
                 let tag_data := py_slice body_section 0 tag_length in
                 ret (negb (len tag_data =? tag_length))
               else ret false) ;;
            if short_tag then ret Continue
            else
              let frame := header_section ++ body_n_checksum_section in
              response_inventory <- construct ClsInventory (Some frame) ;;
              ret (Yield (Some response_inventory)
                     (status =? InventoryStatus_NO_COUNT_LABEL))
    end.

Definition inventory_body : M flow :=
  let cmd_request := INVENTORY_ISO_CONTINUE in
  received <-
    try_except
      (response <- receive_response cmd_request false false ;;
       ret (Some response))
      usb_or_timeout (ret None) ;;
  match received with
  | None => ret (Yield None false)          (* except (USBError, TimeoutError) *)
  | Some None => ret (Yield None false)     (* response is None *)
  | Some (Some response) => inventory_frame response
  end.

Definition start_inventory (work_mode : WorkMode)
    (answer_mode_inventory_parameter : option AnswerModeInventoryParameter)
  : generator :=
  let cmd_request := INVENTORY_ISO_CONTINUE in
  {| prologue :=
       set_is_inventory true ;;;
       match work_mode, answer_mode_inventory_parameter with
       | ANSWER_MODE, None => raise ValueError
       | ANSWER_MODE, Some p =>
           data <- bytearray [StopAfter_value (stop_after p)] ;;
           count <- to_bytes 4 (value p) ;;
           send_request cmd_request (data ++ count) true
       | _, _ => ret tt
       end;
     body := inventory_body |}.

(** *** The five streaming operations, as calls *)

Inductive streaming_call : Type :=
| CallStartInventory (work_mode : WorkMode)
    (answer_mode_inventory_parameter : option AnswerModeInventoryParameter)
| CallReadMemory (memory_bank start_address length : Z) (access_password : bytes)
| CallWriteMemory (memory_bank : Z) (data : bytes) (start_address length : Z)
    (access_password : bytes)
| CallLockMemory (lock_memory_bank lock_action : Z) (access_password : bytes)
| CallKillTag (kill_password : bytes).

Definition generator_of (c : streaming_call) : generator :=
  match c with
  | CallStartInventory w p => start_inventory w p
  | CallReadMemory m a l pw => read_memory m a l pw
  | CallWriteMemory m d a l pw => write_memory m d a l pw
  | CallLockMemory m a pw => lock_memory m a pw
  | CallKillTag pw => kill_tag pw
  end.

(** The arguments the operation gives to [__receive_response], and the class
    it wraps the frame in. *)
Definition request_of (c : streaming_call) : Z :=
  match c with
  | CallStartInventory _ _ => INVENTORY_ISO_CONTINUE
  | CallReadMemory _ _ _ _ => READ_ISO_TAG
  | CallWriteMemory _ _ _ _ _ => WRITE_ISO_TAG
  | CallLockMemory _ _ _ => LOCK_ISO_TAG
  | CallKillTag _ => KILL_ISO_TAG
  end.

Definition is_inventory_call (c : streaming_call) : bool :=
  match c with CallStartInventory _ _ => true | _ => false end.

Definition verify_header_of (c : streaming_call) : bool :=
  negb (is_inventory_call c).

Definition loop_usb_of (c : streaming_call) : bool :=
  negb (is_inventory_call c).

Definition class_of (c : streaming_call) : response_class :=
  match c with
  | CallStartInventory _ _ => ClsInventory
  | CallReadMemory _ _ _ _ => ClsReadMemory
  | CallWriteMemory _ _ _ _ _ => ClsWriteMemory
  | CallLockMemory _ _ _ => ClsLockMemory
  | CallKillTag _ => ClsKillTag
  end.

(** *** Frames *)

(** [HEADER | ADDRESS | OPCODE(2) | LENGTH | PAYLOAD(LENGTH) | CHECKSUM(2)],
    and nothing after it. *)
Definition complete_frame (f : bytes) : bool :=
  match nth_error f 4 with
  | Some l => (0 <=? l) && (len f =? 5 + l + 2)
  | None => false
  end.

Definition frame_opcode (f : bytes) : Z :=
  int_from_bytes_big (py_slice f 2 4).

(** The opcode of [f] is a member of [CommandRequest] and is [request]. *)
Definition answers (request : Z) (f : bytes) : bool :=
  is_CommandRequest (frame_opcode f) && (frame_opcode f =? request).

(** A frame as the device sends it: complete, and starting with HEADER. *)
Definition framed (f : bytes) : bool :=
  complete_frame f && (nth 0 f 0 =? HEADER).

(** A frame that is whole, starts with HEADER and has another opcode than
    the one waited for. *)
Definition stray (request : Z) (f : bytes) : bool :=
  framed f && negb (answers request f).

Definition framed_event (e : RxEvent) : bool :=
  match e with
  | Data f => framed f
  | Silence => true
  end.

(** The bytes [response] start with a whole frame that has a status byte. *)
Definition holds_frame (response : bytes) : bool :=
  let length := nth 4 response 0 in
  (1 <=? length) && (5 + length + 2 <=? len response).

(** [header_section + body_n_checksum_section] of [start_inventory]. *)
Definition first_frame (response : bytes) : bytes :=
  py_slice response 0 5
    ++ py_slice response 5 (4 + nth 4 response 0 + 2 + 1).

(** The tag data announced at [body_section[4]] is there. *)
Definition tag_fits (response : bytes) : bool :=
  let body_n_checksum_section :=
    py_slice response 5 (4 + nth 4 response 0 + 2 + 1) in
  let body_section := py_slice body_n_checksum_section 1 (-2) in
  match py_index body_section 4 with
  | Some tag_length => len (py_slice body_section 0 tag_length) =? tag_length
  | None => false
  end.

(** A frame that the inventory loop accepts: header, a known opcode other
    than INVENTORY_STOP, a known status and, over USB with status SUCCESS,
    the tag data. *)
Definition inventory_frame_ok (usb : bool) (response : bytes) : bool :=
  (nth 0 response 0 =? HEADER)
  && holds_frame response
  && is_CommandRequest (frame_opcode response)
  && negb (frame_opcode response =? INVENTORY_STOP)
  && is_InventoryStatus (nth 5 response 0)
  && (if usb && (nth 5 response 0 =? InventoryStatus_SUCCESS)
      then tag_fits response else true).

(** The frame [response] that a streaming call received ends the stream: its
    status, as the operation reads it, is NO_COUNT_LABEL; [s] is the status
    attribute of the typed response. *)
Definition terminator_received (c : streaming_call) (usb : bool)
    (response : bytes) (s : Z) : Prop :=
  if is_inventory_call c then
    inventory_frame_ok usb response = true
    /\ nth 5 response 0 = InventoryStatus_NO_COUNT_LABEL
    /\ response_init ClsInventory (Some (first_frame response)) = Ok s
  else
    response_init (class_of c) (Some response) = Ok s
    /\ s = Status_NO_COUNT_LABEL.

(** The typed response the call yields for [response]. *)
Definition item_of (c : streaming_call) (response : bytes) (s : Z) : Response :=
  if is_inventory_call c
  then mkResponse ClsInventory (Some (first_frame response)) s
  else mkResponse (class_of c) (Some response) s.

Definition usb_kind (k : ConnectionType) : bool :=
  match k with USB => true | _ => false end.

(** [f] is a reply to the inventory command that the loop accepts on a
    transport of kind [k]; [st] is its status byte and [s] the status
    attribute of the typed response made of it. *)
Definition inventory_reply (k : ConnectionType) (f : bytes) (st s : Z) : Prop :=
  framed f = true
  /\ answers INVENTORY_ISO_CONTINUE f = true
  /\ inventory_frame_ok (usb_kind k) f = true
  /\ nth 5 f 0 = st
  /\ response_init ClsInventory (Some f) = Ok s.

(** A reader on a transport of kind [k] with an empty input buffer, that
    takes every write. *)
Definition reader_at (k : ConnectionType) (script : list RxEvent)
    (l : list IoOp) (busy : bool) : Reader :=
  mkReader (mkTransport k [] script l) busy.

End Engine.

(** ** The other operations of [Reader] *)

(** The members of [CommandRequest] and [CommandOption] (rfid.command) that
    the remaining operations name, and the constructors of the response
    classes they return (rfid.response), as parameters like [Catalog]. *)
Inductive reply_class : Type :=
| ClsDeviceInfo | ClsGetRfidProtocol | ClsNetworkSettings
| ClsRemoteNetworkSettings | ClsCurrentTemperature | ClsGetAntennaPower
| ClsOutputControl | ClsMaskInventoryPermission | ClsInventoryRange.

Class Commands : Type := {
  MODULE_INIT : Z;
  REBOOT : Z;
  GET_DEVICE_INFO : Z;
  RELEASE_CLOSE_RELAY : Z;
  SET_GET_RFID_PROTOCOL : Z;
  SET_ALL_PARAM : Z;
  SET_GET_NETWORK : Z;
  SET_GET_REMOTE_NETWORK : Z;
  SET_MAX_TEMPERATURE : Z;
  GET_CURRENT_TEMPERATURE : Z;
  SET_GET_ANTENNA_POWER : Z;
  SET_GET_OUTPUT_PARAMETERS : Z;
  SET_GET_PERMISSION : Z;
  INVENTORY_RANGE : Z;
  (** [CommandOption.GET.value], [CommandOption.SET.value] *)
  CommandOption_GET : Z;
  CommandOption_SET : Z;
  (** the constructor of a response class of [reply_class]: the [status]
      attribute of the object, or the exception it raises *)
  reply_init : reply_class -> option bytes -> result Z
}.

Record Reply : Type := mkReply {
  reply_cls : reply_class;
  reply_raw : option bytes;
  reply_status : Z
}.

Section Operations.

Context {C : Catalog} {O : Commands}.

Definition construct_reply (k : reply_class) (raw_response : option bytes)
  : M Reply :=
  match reply_init k raw_response with
  | Ok s => ret (mkReply k raw_response s)
  | Raise e => raise e
  end.

(** The three lines every one-shot operation ends with:
    [self.__send_request(command)], then
    [self.__receive_response(cmd_request)], wrapped by [wrap]. *)
Definition exchange {A} (cmd_request : Z) (data : bytes)
    (wrap : option bytes -> M A) : M A :=
  send_request cmd_request data true ;;;
  raw_response <- receive_response cmd_request true true ;;
  wrap raw_response.

(** [init]: [None] instead of a response when nothing came. *)
Definition init : M (option Response) :=
  let cmd_request := MODULE_INIT in
  exchange cmd_request []
    (fun raw_response =>
       match raw_response with
       | None => ret None
       | Some b =>
           if len b <=? 0 then ret None
           else response <- construct ClsResponse raw_response ;;
                ret (Some response)
       end).

Definition reset_factory : M Response :=
  exchange REBOOT [] (construct ClsResponse).

Definition get_device_info : M Reply :=
  exchange GET_DEVICE_INFO [] (construct_reply ClsDeviceInfo).

(** [type(release) is bool] holds by the type of [release]. *)
Definition set_relay (release : bool) (valid_time : Z) : M Response :=
  assert ((0 <=? valid_time) && (valid_time <=? 255)) ;;;
  let release_value := if release then 1 else 2 in
  data <- bytearray [release_value; valid_time] ;;
  exchange RELEASE_CLOSE_RELAY data (construct ClsResponse).

Definition get_rfid_protocol : M Reply :=
  data <- bytearray [CommandOption_GET; 0] ;;
  exchange SET_GET_RFID_PROTOCOL data (construct_reply ClsGetRfidProtocol).

(** [rfid_protocol] is [rfid_protocol.value]. *)
Definition set_rfid_protocol (rfid_protocol : Z) : M Response :=
  data <- bytearray [CommandOption_SET; rfid_protocol] ;;
  exchange SET_GET_RFID_PROTOCOL data (construct ClsResponse).

(** [command_data] is [reader_settings.to_command_data()]; likewise in the
    other setters of structured settings. *)
Definition set_reader_settings (command_data : bytes) : M Response :=
  exchange SET_ALL_PARAM command_data (construct ClsResponse).

Definition get_network_settings : M Reply :=
  data <- bytearray [CommandOption_GET] ;;
  exchange SET_GET_NETWORK data (construct_reply ClsNetworkSettings).

Definition set_network_settings (command_data : bytes) : M Response :=
  data <- bytearray [CommandOption_SET] ;;
  let data := data ++ command_data in
  exchange SET_GET_NETWORK data (construct ClsResponse).

Definition get_remote_network_settings : M Reply :=
  data <- bytearray [CommandOption_GET] ;;
  exchange SET_GET_REMOTE_NETWORK data
    (construct_reply ClsRemoteNetworkSettings).

Definition set_remote_network_settings (command_data : bytes) : M Response :=
  data <- bytearray [CommandOption_SET] ;;
  let data := data ++ command_data in
  exchange SET_GET_REMOTE_NETWORK data (construct ClsResponse).

Definition set_max_temperature (max_temperature : Z) : M Response :=
  data <- bytearray [max_temperature] ;;
  exchange SET_MAX_TEMPERATURE data (construct ClsResponse).

Definition get_current_temperature : M Reply :=
  exchange GET_CURRENT_TEMPERATURE []
    (construct_reply ClsCurrentTemperature).

Definition get_antenna_power : M Reply :=
  data <- bytearray [CommandOption_GET] ;;
  exchange SET_GET_ANTENNA_POWER data (construct_reply ClsGetAntennaPower).

Definition set_antenna_power (enable : bool)
    (antenna_1_power antenna_2_power antenna_3_power antenna_4_power
     antenna_5_power antenna_6_power antenna_7_power antenna_8_power : Z)
  : M Response :=
  data <- bytearray [CommandOption_SET; if enable then 1 else 0;
                     antenna_1_power; antenna_2_power; antenna_3_power;
                     antenna_4_power; antenna_5_power; antenna_6_power;
                     antenna_7_power; antenna_8_power] ;;
  exchange SET_GET_ANTENNA_POWER data (construct ClsResponse).

Definition get_output_control : M Reply :=
  data <- bytearray [CommandOption_GET] ;;
  exchange SET_GET_OUTPUT_PARAMETERS data (construct_reply ClsOutputControl).

Definition set_output_control (command_data : bytes) : M Response :=
  data <- bytearray [CommandOption_SET] ;;
  let data := data ++ command_data in
  exchange SET_GET_OUTPUT_PARAMETERS data (construct ClsResponse).

Definition get_mask_inventory_permission : M Reply :=
  data <- bytearray [CommandOption_GET] ;;
  exchange SET_GET_PERMISSION data
    (construct_reply ClsMaskInventoryPermission).

(** After the reply to the setting, an inventory of two cycles is started
    and stopped at once ([sleep(0.2)] lies between the two writes; time is
    not modelled). *)
Definition set_mask_inventory_permission (command_data : bytes) : M Response :=
  data <- bytearray [CommandOption_SET] ;;
  let data := data ++ command_data in
  response <- exchange SET_GET_PERMISSION data (construct ClsResponse) ;;
  data <- bytearray [StopAfter_value NUMBER] ;;
  count <- to_bytes 4 2 ;;
  let data := data ++ count in
  send_request INVENTORY_ISO_CONTINUE data true ;;;
  send_request INVENTORY_STOP [] false ;;;
  ret response.

Definition get_inventory_range : M Reply :=
  data <- bytearray [CommandOption_GET] ;;
  exchange INVENTORY_RANGE data (construct_reply ClsInventoryRange).

Definition set_inventory_range (start_address length : Z) : M Response :=
  assert ((0 <=? start_address) && (start_address <=? 255)) ;;;
  assert ((0 <=? length) && (length <=? 255)) ;;;
  data <- bytearray [CommandOption_SET] ;;
  ext <- bytearray [start_address; length] ;;
  let data := data ++ ext in
  reserve <- bytearray [0; 0] ;;
  let data := data ++ reserve in
  exchange INVENTORY_RANGE data (construct ClsResponse).

(** The first [n] items a consumer gets from a generator, fewer when the
    generator ends, raises or does not get to a yield within [fuel] turns. *)
Fixpoint first_items (n fuel : nat) (g : generator) (p : pc) (r : Reader)
  : list (option Response) :=
  match n with
  | 0%nat => []
  | S n' =>
      match next fuel g p r with
      | Some (Yielded item, p', r') => item :: first_items n' fuel g p' r'
      | _ => []
      end
  end.

(** The exception of a read that times out on a transport that raises. *)
Definition timeout_error (k : ConnectionType) : exn :=
  match k with TCP_IP => TimeoutError | _ => USBError end.

(** *** The one-shot operations, as calls *)

Inductive one_shot_call : Type :=
| CallInit
| CallResetFactory
| CallGetDeviceInfo
| CallSetPower (power reserve : Z)
| CallSetRelay (release : bool) (valid_time : Z)
| CallGetRfidProtocol
| CallSetRfidProtocol (rfid_protocol : Z)
| CallGetReaderSettings
| CallSetReaderSettings (command_data : bytes)
| CallGetNetworkSettings
| CallSetNetworkSettings (command_data : bytes)
| CallGetRemoteNetworkSettings
| CallSetRemoteNetworkSettings (command_data : bytes)
| CallSetMaxTemperature (max_temperature : Z)
| CallGetCurrentTemperature
| CallGetAntennaPower
| CallSetAntennaPower (enable : bool) (p1 p2 p3 p4 p5 p6 p7 p8 : Z)
| CallSelectMask (mask : bytes) (start_address : Z)
| CallGetOutputControl
| CallSetOutputControl (command_data : bytes)
| CallGetMaskInventoryPermission
| CallGetInventoryRange
| CallSetInventoryRange (start_address length : Z).

Definition command_of (c : one_shot_call) : Z :=
  match c with
  | CallInit => MODULE_INIT
  | CallResetFactory => REBOOT
  | CallGetDeviceInfo => GET_DEVICE_INFO
  | CallSetPower _ _ => SET_POWER
  | CallSetRelay _ _ => RELEASE_CLOSE_RELAY
  | CallGetRfidProtocol | CallSetRfidProtocol _ => SET_GET_RFID_PROTOCOL
  | CallGetReaderSettings => GET_ALL_PARAM
  | CallSetReaderSettings _ => SET_ALL_PARAM
  | CallGetNetworkSettings | CallSetNetworkSettings _ => SET_GET_NETWORK
  | CallGetRemoteNetworkSettings | CallSetRemoteNetworkSettings _ =>
      SET_GET_REMOTE_NETWORK
  | CallSetMaxTemperature _ => SET_MAX_TEMPERATURE
  | CallGetCurrentTemperature => GET_CURRENT_TEMPERATURE
  | CallGetAntennaPower | CallSetAntennaPower _ _ _ _ _ _ _ _ _ =>
      SET_GET_ANTENNA_POWER
  | CallSelectMask _ _ => SELECT_MASK
  | CallGetOutputControl | CallSetOutputControl _ => SET_GET_OUTPUT_PARAMETERS
  | CallGetMaskInventoryPermission => SET_GET_PERMISSION
  | CallGetInventoryRange | CallSetInventoryRange _ _ => INVENTORY_RANGE
  end.

Definition discard {A} (m : M A) : M unit := m ;;; ret tt.

(** Running the call, whatever it returns. *)
Definition perform (c : one_shot_call) : M unit :=
  match c with
  | CallInit => discard init
  | CallResetFactory => discard reset_factory
  | CallGetDeviceInfo => discard get_device_info
  | CallSetPower p v => discard (set_power p v)
  | CallSetRelay b v => discard (set_relay b v)
  | CallGetRfidProtocol => discard get_rfid_protocol
  | CallSetRfidProtocol v => discard (set_rfid_protocol v)
  | CallGetReaderSettings => discard get_reader_settings
  | CallSetReaderSettings d => discard (set_reader_settings d)
  | CallGetNetworkSettings => discard get_network_settings
  | CallSetNetworkSettings d => discard (set_network_settings d)
  | CallGetRemoteNetworkSettings => discard get_remote_network_settings
  | CallSetRemoteNetworkSettings d => discard (set_remote_network_settings d)
  | CallSetMaxTemperature v => discard (set_max_temperature v)
  | CallGetCurrentTemperature => discard get_current_temperature
  | CallGetAntennaPower => discard get_antenna_power
  | CallSetAntennaPower e p1 p2 p3 p4 p5 p6 p7 p8 =>
      discard (set_antenna_power e p1 p2 p3 p4 p5 p6 p7 p8)
  | CallSelectMask m a => discard (select_mask m a)
  | CallGetOutputControl => discard get_output_control
  | CallSetOutputControl d => discard (set_output_control d)
  | CallGetMaskInventoryPermission => discard get_mask_inventory_permission
  | CallGetInventoryRange => discard get_inventory_range
  | CallSetInventoryRange a l => discard (set_inventory_range a l)
  end.

End Operations.

(** [r'] is [r] after reads and flushes only: the same flag, the same kind of
    transport, and nothing written. *)
Definition reads_only (r r' : Reader) : Prop :=
  is_inventory r' = is_inventory r
  /\ connection_type (transport r') = connection_type (transport r)
  /\ exists n, log (transport r') = log (transport r) ++ repeat Cleared n.

Definition quiet {A} (m : M A) : Prop := forall r, reads_only r (snd (m r)).

(** [m] leaves the reader as it is. *)
Definition pure {A} (m : M A) : Prop := forall r, snd (m r) = r.

(** The reader after [__send_request(command)] on [r], [frame] being
    [command.serialize()]: flushed, and [write_bytes(frame)] called. *)
Definition sent (frame : bytes) (r : Reader) : Reader :=
  mkReader (snd (write_bytes frame (clear_buffer (transport r))))
    (is_inventory r).

(** What [m] does to the reader is the exchange of one command [opcode]:
    either it raises with the reader as it was; or it flushes and calls
    [write_bytes] with one frame of that command, and then, when that write
    raises, ends at once with its exception, and when it returns, only
    reads and flushes. *)
Definition one_command {C : Catalog} (opcode : Z) {A} (m : M A) : Prop :=
  forall r,
    (snd (m r) = r /\ exists e, fst (m r) = Raise e)
    \/ (exists data,
          let r1 := sent (serialize opcode data) r in
          match write_outcome (transport r) with
          | Raise e => m r = (Raise e, r1)
          | Ok _ => reads_only r1 (snd (m r))
          end).

(** A reader on a transport of kind [k] with an empty input buffer, whose
    writes meet [w]. *)
Definition reader_on (k : ConnectionType) (script : list RxEvent)
    (l : list IoOp) (w : list TxEvent) (busy : bool) : Reader :=
  mkReader (mkLine k [] script l w) busy.

(** The outcome of a one-shot operation against a silent reader on USB or
    TCP: an error on its arguments with the reader as it was, or the
    exception of the write of its command, or, that write taken, the timeout
    of the read after it. *)
Definition times_out {C : Catalog} (k : ConnectionType)
    (script : list RxEvent) (l : list IoOp) (w : list TxEvent) (busy : bool)
    (opcode : Z) {A} (m : M A) : Prop :=
  let r := reader_on k script l w busy in
  (exists e, m r = (Raise e, r))
  \/ (exists data,
         let l' := l ++ [Cleared; Written (serialize opcode data)] in
         match write_outcome (transport r) with
         | Raise e => m r = (Raise e, reader_on k script l' (tl w) busy)
         | Ok _ =>
             m r = (Raise (timeout_error k),
                    reader_on k (tl script) l' (tl w) busy)
         end).

(** The outcome [out] of one turn of a streaming loop, run on a script that
    has the events [pre] before the terminator frame [t]: either the turn
    yields and will break out of the loop, or it has consumed events of
    [pre] only, and at least one. *)
Definition progress {C : Catalog} (k : ConnectionType) (t : bytes)
    (post : list RxEvent)
    (busy : bool) (pre : list RxEvent) (out : result flow * Reader) : Prop :=
  (exists item r', out = (Ok (Yield item true), r'))
  \/ (exists res pre' l',
        out = (res, reader_at k (pre' ++ Data t :: post) l' busy)
        /\ (length pre' < length pre)%nat
        /\ forallb framed_event pre' = true).

(** ** A concrete catalog, for running the engine on concrete inputs *)

Definition sample_opcodes : list Z :=
  [1; 2; 3; 4; 5; 6; 7; 8; 80; 82; 83; 89; 95; 99; 100;
   112; 113; 114; 115; 116; 117; 118; 119].

Definition sample_checksum (b : bytes) : bytes :=
  let s := fold_left Z.add b 0 mod 65536 in [s / 256; s mod 256].

Definition sample_serialize (opcode : Z) (data : bytes) : bytes :=
  let head := [207; 0; opcode / 256; opcode mod 256; len data] ++ data in
  head ++ sample_checksum head.

(** Modelled from the spec: the contents of rfid.command, rfid.response and
    rfid.status, which reader.py imports and the sources do not contain.  The
    frame layout [HEADER | ADDRESS | OPCODE(2) | LENGTH | PAYLOAD | CHECKSUM(2)]
    and the status in the first payload byte are the specification's; the
    numeric values and the checksum are placeholders, and no theorem below
    depends on them. *)
#[export] Instance sample_catalog : Catalog := {|
  HEADER := 207;
  is_CommandRequest := fun v => existsb (Z.eqb v) sample_opcodes;
  SET_POWER := 83;
  GET_ALL_PARAM := 114;
  SELECT_MASK := 7;
  READ_ISO_TAG := 3;
  WRITE_ISO_TAG := 4;
  LOCK_ISO_TAG := 5;
  KILL_ISO_TAG := 6;
  INVENTORY_ISO_CONTINUE := 1;
  INVENTORY_STOP := 2;
  is_InventoryStatus := fun v => existsb (Z.eqb v) [0; 1; 18];
  InventoryStatus_SUCCESS := 0;
  InventoryStatus_NO_COUNT_LABEL := 18;
  Status_NO_COUNT_LABEL := 18;
  StopAfter_value := fun s => match s with TIME => 0 | NUMBER => 1 end;
  serialize := sample_serialize;
  response_init := fun _ raw_response =>
    match raw_response with
    | Some b => match nth_error b 5 with
                | Some s => Ok s
                | None => Raise ConstructorError
                end
    | None => Raise ConstructorError
    end
|}.

(** A frame with the sample header and checksum. *)
Definition sample_frame (opcode : Z) (payload : bytes) : bytes :=
  sample_serialize opcode payload.

(** An inventory reply with status SUCCESS: two RSSI bytes, antenna, channel,
    the length of the EPC and the EPC. *)
Definition sample_tag (epc : bytes) : bytes :=
  sample_frame 1 ([0; 180; 60; 1; 0; len epc] ++ epc).

Definition sample_tag_1 : bytes := sample_tag [170; 187; 204; 221].
Definition sample_tag_2 : bytes := sample_tag [17; 34; 51; 68].

(** A reply with status NO_COUNT_LABEL to the command [opcode]. *)
Definition sample_end (opcode : Z) : bytes := sample_frame opcode [18].

Definition sample_parameter : AnswerModeInventoryParameter :=
  mkAnswerModeInventoryParameter NUMBER 2.

(** A reply of 65 bytes to GET_ALL_PARAM: LENGTH is 58. *)
Definition sample_settings : bytes := sample_frame 114 (repeat 0 58%nat).

(** Modelled from the spec: the remaining contents of rfid.command and
    rfid.response, as for [sample_catalog]; GET is 1 and SET is 2 as the
    specification gives them, the opcodes are placeholders. *)
#[export] Instance sample_commands : Commands := {|
  MODULE_INIT := 80;
  REBOOT := 82;
  GET_DEVICE_INFO := 112;
  RELEASE_CLOSE_RELAY := 119;
  SET_GET_RFID_PROTOCOL := 89;
  SET_ALL_PARAM := 113;
  SET_GET_NETWORK := 95;
  SET_GET_REMOTE_NETWORK := 100;
  SET_MAX_TEMPERATURE := 115;
  GET_CURRENT_TEMPERATURE := 116;
  SET_GET_ANTENNA_POWER := 99;
  SET_GET_OUTPUT_PARAMETERS := 118;
  SET_GET_PERMISSION := 117;
  INVENTORY_RANGE := 8;
  CommandOption_GET := 1;
  CommandOption_SET := 2;
  reply_init := fun _ raw_response =>
    match raw_response with
    | Some b => match nth_error b 5 with
                | Some s => Ok s
                | None => Raise ConstructorError
                end
    | None => Raise ConstructorError
    end
|}.

(** ** Names and endpoints (src/rfid/transport.py) *)

Module Endpoint.

Import String.
#[local] Open Scope string_scope.

(** [ConnectionType.X.value] *)
Definition value_of (c : ConnectionType) : nat :=
  match c with SERIAL => 0 | USB => 1 | TCP_IP => 2 end.

Definition DISPLAY_STRINGS : list string := ["Serial"; "USB"; "TCP/IP"].

(** [ConnectionType.__str__]; [None] would be IndexError. *)
Definition str (c : ConnectionType) : option string :=
  nth_error DISPLAY_STRINGS (value_of c).

(** [for connection_type in ConnectionType], in the order of the class. *)
Definition members : list ConnectionType := [SERIAL; USB; TCP_IP].

(** [ConnectionType.from_str]: the first member whose string is [value];
    falling off the loop returns [None]. *)
Definition from_str (value : string) : option ConnectionType :=
  find (fun connection_type =>
          match str connection_type with
          | Some s => String.eqb s value
          | None => false
          end) members.

(** A socket of [TcpTransport], as far as the calls on it go. *)
Inductive SocketCall : Type :=
| SockTimeout (timeout : Z)
| SockConnect (ip_address : string) (port : Z)
| SockClose.

(** [TcpTransport]: [socket] is [None] until [connect]; [calls] records the
    calls on sockets, in order. *)
Record TcpTransport : Type := mkTcpTransport {
  ip_address : string;
  port : Z;
  timeout : Z;
  socket : bool;
  calls : list SocketCall
}.

(** [TcpTransport.__init__] *)
Definition tcp_new (ip : string) (p : Z) (t : Z) : TcpTransport :=
  mkTcpTransport ip p t false [].

(** [TcpTransport.connect] *)
Definition tcp_connect (t : TcpTransport) : TcpTransport :=
  mkTcpTransport (ip_address t) (port t) (timeout t) true
    (calls t ++ [SockTimeout (timeout t);
                 SockConnect (ip_address t) (port t)]).

(** [x if x else y] on an optional string and on an optional number. *)
Definition or_else_string (x : option string) (y : string) : string :=
  match x with
  | Some s => if String.eqb s "" then y else s
  | None => y
  end.

Definition or_else_number (x : option Z) (y : Z) : Z :=
  match x with
  | Some n => if Z.eqb n 0 then y else n
  | None => y
  end.

(** [TcpTransport.reconnect]; [None] is the AttributeError of
    [self.socket.close()] on a transport that was never connected. *)
Definition tcp_reconnect (ip : option string) (p : option Z) (tm : option Z)
    (t : TcpTransport) : option TcpTransport :=
  if socket t then
    let closed := mkTcpTransport (ip_address t) (port t) (timeout t) true
                    (calls t ++ [SockClose]) in
    let renamed := mkTcpTransport (or_else_string ip (ip_address closed))
                     (port closed) (timeout closed) true (calls closed) in
    let retimed := mkTcpTransport (ip_address renamed) (port renamed)
                     (or_else_number tm (timeout renamed)) true
                     (calls renamed) in
    Some (tcp_connect retimed)
  else None.

End Endpoint.

(** * Properties *)

(** ** Byte strings *)

Lemma len_nonneg (b : bytes) : 0 <= len b.
Proof. unfold len. lia. Qed.

Lemma py_slice_nonneg (b : bytes) (lo hi : Z) :
  0 <= lo -> 0 <= hi ->
  py_slice b lo hi = firstn (Z.to_nat (hi - lo)) (skipn (Z.to_nat lo) b).
Proof.
  intros Hlo Hhi. unfold py_slice, norm_index, len.
  destruct (Z.ltb_spec lo 0) as [?|_]; [lia|].
  destruct (Z.ltb_spec hi 0) as [?|_]; [lia|].
  destruct (Z_le_gt_dec lo (Z.of_nat (length b))) as [Hle|Hgt].
  - rewrite (Z.min_l lo) by lia.
    destruct (Z_le_gt_dec hi (Z.of_nat (length b))) as [Hle'|Hgt'].
    + rewrite (Z.min_l hi) by lia. reflexivity.
    + rewrite (Z.min_r hi) by lia.
      rewrite !firstn_all2; [reflexivity | |]; rewrite length_skipn; lia.
  - rewrite (Z.min_r lo) by lia.
    rewrite (skipn_all2 (n := Z.to_nat lo)) by lia.
    rewrite Nat2Z.id, skipn_all. now rewrite !firstn_nil.
Qed.

Lemma complete_frame_inv (f : bytes) :
  complete_frame f = true ->
  exists h a o1 o2 l body,
    f = h :: a :: o1 :: o2 :: l :: body
    /\ 0 <= l /\ length body = Z.to_nat (l + 2).
Proof.
  unfold complete_frame.
  destruct f as [|h [|a [|o1 [|o2 [|l body]]]]]; cbn [nth_error];
    try discriminate.
  intros H. apply andb_true_iff in H. destruct H as [H1 H2].
  apply Z.leb_le in H1. apply Z.eqb_eq in H2.
  exists h, a, o1, o2, l, body. repeat split; auto.
  unfold len in H2. simpl length in H2. lia.
Qed.

Lemma frame_opcode_cons (h a o1 o2 : Z) (tl : bytes) :
  frame_opcode (h :: a :: o1 :: o2 :: tl) = o1 * 256 + o2.
Proof.
  unfold frame_opcode. rewrite py_slice_nonneg by lia.
  change (Z.to_nat (4 - 2)) with 2%nat. change (Z.to_nat 2) with 2%nat.
  cbn [skipn firstn]. unfold int_from_bytes_big. cbn [fold_left]. lia.
Qed.

Lemma frame_opcode_app (f extra : bytes) :
  (4 <= length f)%nat -> frame_opcode (f ++ extra) = frame_opcode f.
Proof.
  intros H. destruct f as [|h [|a [|o1 [|o2 tl]]]]; simpl in H; try lia.
  simpl app. now rewrite !frame_opcode_cons.
Qed.

(** ** The transports under [__receive] *)

Section Receive.

Context {C : Catalog}.

Lemma serial_read_enough (n : nat) (b : bytes) (script : list RxEvent) :
  (n <= length b)%nat ->
  serial_read n b script = (firstn n b, skipn n b, script).
Proof.
  intros H. apply Nat.leb_le in H.
  destruct script as [|[?|] ?]; simpl; rewrite H; reflexivity.
Qed.

Lemma serial_read_exact (b : bytes) (script : list RxEvent) :
  serial_read (length b) b script = (b, [], script).
Proof.
  rewrite serial_read_enough by lia. now rewrite firstn_all, skipn_all.
Qed.

(** The two-stage read of a serial line or a socket, on a whole frame. *)
Lemma read_header (k : ConnectionType) (h a o1 o2 n : Z) (body : bytes)
    (rest : list RxEvent) (l : list IoOp) (busy : bool) :
  k <> USB ->
  transport_read_bytes 5
    (reader_at k (Data (h :: a :: o1 :: o2 :: n :: body) :: rest) l busy)
  = (Ok [h; a; o1; o2; n], mkReader (mkTransport k body rest l) busy).
Proof.
  intros Hk. unfold transport_read_bytes, reader_at, read_bytes.
  destruct k; [ | congruence | ]; cbn [transport connection_type inbuf rx log
                                      is_inventory].
  - change (Z.to_nat 5) with 5%nat. cbn [serial_read Nat.leb length app].
    rewrite serial_read_enough by (simpl; lia). reflexivity.
  - reflexivity.
Qed.

Lemma read_body (k : ConnectionType) (n : Z) (body : bytes)
    (rest : list RxEvent) (l : list IoOp) (busy : bool) :
  k <> USB -> 0 <= n -> length body = Z.to_nat (n + 2) ->
  transport_read_bytes (n + 2) (mkReader (mkTransport k body rest l) busy)
  = (Ok body, reader_at k rest l busy).
Proof.
  intros Hk Hn Hb. unfold transport_read_bytes, reader_at, read_bytes.
  destruct k; [ | congruence | ]; cbn [transport connection_type inbuf rx log
                                      is_inventory]; rewrite <- Hb.
  - now rewrite serial_read_exact.
  - unfold tcp_recv. destruct body as [|b0 body']; [simpl in Hb; lia|].
    now rewrite firstn_all, skipn_all.
Qed.

Lemma read_packet (p : bytes) (rest : list RxEvent) (l : list IoOp)
    (busy : bool) (n : Z) :
  transport_read_bytes n (reader_at USB (Data p :: rest) l busy)
  = (Ok p, reader_at USB rest l busy).
Proof. reflexivity. Qed.

(** [usb_loop] is the while loop of [__receive]: it tests the length and,
    while the bytes are too few, reads one more packet and appends it. *)
Lemma usb_loop_unfold (all_len : Z) (raw_resp : bytes) (r : Reader) :
  connection_type (transport r) = USB ->
  usb_loop all_len raw_resp r
  = (if len raw_resp <? all_len
     then more <- transport_read_bytes 0 ;;
          usb_loop all_len (raw_resp ++ more)
     else ret raw_resp) r.
Proof.
  destruct r as [[k b script l] busy]. cbn [transport connection_type].
  intros ->. unfold usb_loop, bind, transport_read_bytes, read_bytes.
  cbn [transport connection_type inbuf rx log is_inventory].
  destruct script as [|[p|] rest]; cbn [usb_read_until usb_read];
    destruct (len raw_resp <? all_len); reflexivity.
Qed.

(** A whole frame at the head of the script is what [__receive] returns, on
    every transport, and nothing but the frame is consumed. *)
Lemma receive_data (k : ConnectionType) (f : bytes) (rest : list RxEvent)
    (l : list IoOp) (busy verify_header loop_usb : bool) :
  complete_frame f = true ->
  verify_header = true \/ nth 0 f 0 = HEADER ->
  receive verify_header loop_usb (reader_at k (Data f :: rest) l busy)
  = (Ok (Some f), reader_at k rest l busy).
Proof.
  intros Hf Hh.
  destruct (complete_frame_inv f Hf) as (h & a & o1 & o2 & n & body & -> & Hn & Hb).
  assert (Hhdr : negb verify_header && negb (h =? HEADER) = false).
  { destruct Hh as [->|Hh]; [reflexivity|]. simpl in Hh. subst h.
    rewrite Z.eqb_refl. now rewrite andb_false_r. }
  assert (Hsock : forall k, k <> USB ->
    (response_header_section <- transport_read_bytes 5 ;;
     if (len response_header_section <=? 0)
        || (negb verify_header
            && negb (nth 0 response_header_section 0 =? HEADER))
     then transport_clear_buffer ;;; ret None
     else
       assert (len response_header_section =? 5) ;;;
       body_length <- index response_header_section (-1) ;;
       response_body_section <- transport_read_bytes (body_length + 2) ;;
       ret (Some (response_header_section ++ response_body_section)))
      (reader_at k (Data (h :: a :: o1 :: o2 :: n :: body) :: rest) l busy)
    = (Ok (Some (h :: a :: o1 :: o2 :: n :: body)), reader_at k rest l busy)).
  { intros k' Hk'. unfold bind at 1. rewrite read_header by assumption.
    cbn [nth]. rewrite Hhdr.
    change (len [h; a; o1; o2; n] <=? 0) with false. cbn [orb].
    change (len [h; a; o1; o2; n] =? 5) with true.
    unfold bind at 1. cbn [assert ret].
    unfold bind at 1.
    change (index [h; a; o1; o2; n] (-1)) with (@ret Z n). cbn [ret].
    unfold bind at 1. rewrite read_body by assumption.
    reflexivity. }
  unfold receive.
  destruct k; cbn [reader_at connection_type transport];
    try (apply Hsock; discriminate).
  fold (reader_at USB (Data (h :: a :: o1 :: o2 :: n :: body) :: rest) l busy).
  unfold bind at 1. rewrite read_packet.
  destruct loop_usb; [|reflexivity].
  unfold bind at 1.
  change (index (h :: a :: o1 :: o2 :: n :: body) 4) with (@ret Z n).
  cbn [ret]. unfold bind at 1, usb_loop.
  cbn [reader_at transport rx connection_type inbuf log is_inventory].
  assert (Hlen : (len (h :: a :: o1 :: o2 :: n :: body) <? 4 + n + 2) = false).
  { apply Z.ltb_ge. unfold len. simpl length. lia. }
  destruct rest as [|e rest']; cbn [usb_read_until]; rewrite Hlen; reflexivity.
Qed.

Lemma receive_silence (k : ConnectionType) (rest : list RxEvent)
    (l : list IoOp) (busy verify_header loop_usb : bool) :
  receive verify_header loop_usb (reader_at k (Silence :: rest) l busy)
  = match k with
    | SERIAL => (Ok None, reader_at k rest (l ++ [Cleared]) busy)
    | USB => (Raise USBError, reader_at k rest l busy)
    | TCP_IP => (Raise TimeoutError, reader_at k rest l busy)
    end.
Proof. destruct k; reflexivity. Qed.

Lemma framed_inv (f : bytes) :
  framed f = true -> complete_frame f = true /\ nth 0 f 0 = HEADER.
Proof.
  unfold framed. intros H. apply andb_true_iff in H. destruct H as [H1 H2].
  apply Z.eqb_eq in H2. auto.
Qed.

Lemma attempt_data (k : ConnectionType) (f : bytes) (rest : list RxEvent)
    (l : list IoOp) (busy verify_header loop_usb : bool) (request : Z) :
  framed f = true ->
  attempt request verify_header loop_usb (reader_at k (Data f :: rest) l busy)
  = (Ok (Some (f, answers request f)), reader_at k rest l busy).
Proof.
  intros Hf. destruct (framed_inv f Hf) as [Hc Hh].
  unfold attempt. unfold bind at 1. rewrite receive_data by auto.
  rewrite Hh, Z.eqb_refl. cbn [negb]. rewrite andb_false_r.
  unfold bind, ret, answers, CommandRequest. fold (frame_opcode f).
  destruct (is_CommandRequest (frame_opcode f)); reflexivity.
Qed.

Lemma attempt_silence (k : ConnectionType) (rest : list RxEvent)
    (l : list IoOp) (busy verify_header loop_usb : bool) (request : Z) :
  attempt request verify_header loop_usb (reader_at k (Silence :: rest) l busy)
  = match k with
    | SERIAL => (Ok None, reader_at k rest (l ++ [Cleared]) busy)
    | USB => (Raise USBError, reader_at k rest l busy)
    | TCP_IP => (Raise TimeoutError, reader_at k rest l busy)
    end.
Proof. destruct k; reflexivity. Qed.

Lemma stray_inv (request : Z) (f : bytes) :
  stray request f = true -> framed f = true /\ answers request f = false.
Proof.
  unfold stray. intros H. apply andb_true_iff in H. destruct H as [H1 H2].
  apply negb_true_iff in H2. auto.
Qed.

Lemma last_cons {A} (a d : A) (l : list A) : last (a :: l) d = last l a.
Proof.
  revert a d. induction l as [|b l IH]; intros a d; [reflexivity|].
  change (last (a :: b :: l) d) with (last (b :: l) d).
  rewrite (IH b d), (IH b a). reflexivity.
Qed.

(** Stray frames are read one per turn and dropped; the frame that answers
    the request ends the loop. *)
Lemma receive_loop_skips (k : ConnectionType) (request : Z)
    (verify_header loop_usb : bool) (f : bytes) (rest : list RxEvent)
    (l : list IoOp) (busy : bool) :
  framed f = true -> answers request f = true ->
  forall (pre : list bytes) (n : nat) (raw_response : option bytes),
    forallb (stray request) pre = true ->
    (length pre < n)%nat ->
    receive_loop n request verify_header loop_usb raw_response
      (reader_at k (map Data pre ++ Data f :: rest) l busy)
    = (Ok (Some f), reader_at k rest l busy).
Proof.
  intros Hf Ha. induction pre as [|g pre IH]; intros n raw_response Hpre Hn.
  - destruct n as [|n]; [simpl in Hn; lia|].
    cbn [map app receive_loop]. unfold bind at 1.
    rewrite attempt_data by assumption. rewrite Ha. reflexivity.
  - destruct n as [|n]; [simpl in Hn; lia|].
    cbn [forallb] in Hpre. apply andb_true_iff in Hpre.
    destruct Hpre as [Hg Hpre]. destruct (stray_inv _ _ Hg) as [Hg1 Hg2].
    cbn [map app receive_loop]. unfold bind at 1.
    rewrite attempt_data by assumption. rewrite Hg2.
    apply IH; [assumption | simpl in Hn; lia].
Qed.

(** When every turn meets a stray frame, the loop stops after its last turn
    and returns the frame read last. *)
Lemma receive_loop_gives_up (k : ConnectionType) (request : Z)
    (verify_header loop_usb : bool) (rest : list RxEvent)
    (l : list IoOp) (busy : bool) :
  forall (pre : list bytes) (raw_response : option bytes),
    forallb (stray request) pre = true ->
    receive_loop (length pre) request verify_header loop_usb raw_response
      (reader_at k (map Data pre ++ rest) l busy)
    = (Ok (last (map Some pre) raw_response), reader_at k rest l busy).
Proof.
  induction pre as [|g pre IH]; intros raw_response Hpre; [reflexivity|].
  cbn [forallb] in Hpre. apply andb_true_iff in Hpre.
  destruct Hpre as [Hg Hpre]. destruct (stray_inv _ _ Hg) as [Hg1 Hg2].
  cbn [map app length receive_loop]. unfold bind at 1.
  rewrite attempt_data by assumption. rewrite Hg2.
  rewrite IH by assumption. now rewrite last_cons.
Qed.

(** *** What a receive leaves of the reader *)

Lemma reads_only_refl (r : Reader) : reads_only r r.
Proof. repeat split. exists 0%nat. simpl. now rewrite app_nil_r. Qed.

Lemma reads_only_same_log (r r' : Reader) :
  is_inventory r' = is_inventory r ->
  connection_type (transport r') = connection_type (transport r) ->
  log (transport r') = log (transport r) ->
  reads_only r r'.
Proof.
  intros H1 H2 H3. repeat split; auto. exists 0%nat. simpl.
  now rewrite app_nil_r.
Qed.

Lemma reads_only_trans (r1 r2 r3 : Reader) :
  reads_only r1 r2 -> reads_only r2 r3 -> reads_only r1 r3.
Proof.
  intros (H1 & H2 & n & H3) (H4 & H5 & m & H6). repeat split; try congruence.
  exists (n + m)%nat. rewrite H6, H3, <- app_assoc, repeat_app. reflexivity.
Qed.

Lemma quiet_ret {A} (a : A) : quiet (ret a).
Proof. intros r. apply reads_only_refl. Qed.

Lemma quiet_raise {A} (e : exn) : quiet (@raise A e).
Proof. intros r. apply reads_only_refl. Qed.

Lemma quiet_bind {A B} (m : M A) (k : A -> M B) :
  quiet m -> (forall a, quiet (k a)) -> quiet (bind m k).
Proof.
  intros Hm Hk r. unfold bind. specialize (Hm r).
  destruct (m r) as [[a|e] r1]; cbn [snd] in *; [|assumption].
  eapply reads_only_trans; [eassumption | apply Hk].
Qed.

Lemma quiet_if {A} (c : bool) (m1 m2 : M A) :
  quiet m1 -> quiet m2 -> quiet (if c then m1 else m2).
Proof. destruct c; auto. Qed.

Lemma quiet_assert (c : bool) : quiet (assert c).
Proof. destruct c; [apply quiet_ret | apply quiet_raise]. Qed.

Lemma quiet_index (b : bytes) (i : Z) : quiet (index b i).
Proof.
  unfold index. destruct (py_index b i); [apply quiet_ret | apply quiet_raise].
Qed.

Lemma quiet_construct (k : response_class) (x : option bytes) :
  quiet (construct k x).
Proof.
  unfold construct.
  destruct (response_init k x); [apply quiet_ret | apply quiet_raise].
Qed.

Lemma quiet_read_bytes (n : Z) : quiet (transport_read_bytes n).
Proof.
  intros [[k b script l] busy]. unfold transport_read_bytes, read_bytes.
  cbn [transport connection_type inbuf rx log is_inventory].
  destruct k.
  - destruct (serial_read (Z.to_nat n) b script) as [[x y] z].
    cbn [snd]. now apply reads_only_same_log.
  - destruct (usb_read script) as [x y]. cbn [snd].
    now apply reads_only_same_log.
  - destruct (tcp_recv (Z.to_nat n) b script) as [[x y] z].
    cbn [snd]. now apply reads_only_same_log.
Qed.

Lemma quiet_clear_buffer : quiet transport_clear_buffer.
Proof.
  intros [[k b script l] busy]. unfold transport_clear_buffer, clear_buffer.
  cbn [transport connection_type inbuf rx log is_inventory snd].
  destruct k; (repeat split; exists 1%nat; reflexivity).
Qed.

Lemma quiet_usb_loop (all_len : Z) (raw_resp : bytes) :
  quiet (usb_loop all_len raw_resp).
Proof.
  intros [[k b script l] busy]. unfold usb_loop.
  cbn [transport connection_type inbuf rx log is_inventory].
  destruct (usb_read_until all_len raw_resp script) as [x y].
  cbn [snd]. now apply reads_only_same_log.
Qed.

Create HintDb quiet.

#[local] Hint Resolve quiet_ret quiet_raise quiet_assert quiet_index
  quiet_construct quiet_read_bytes quiet_clear_buffer quiet_usb_loop : quiet.

Ltac quiet_steps :=
  repeat first
    [ apply quiet_bind; [|intros ?]
    | apply quiet_if
    | solve [auto with quiet] ].

Lemma quiet_receive (verify_header loop_usb : bool) :
  quiet (receive verify_header loop_usb).
Proof.
  intros r. unfold receive.
  destruct (connection_type (transport r));
    match goal with |- reads_only r (snd (?m r)) => revert r; change (quiet m) end;
    quiet_steps.
Qed.

Lemma quiet_attempt (request : Z) (verify_header loop_usb : bool) :
  quiet (attempt request verify_header loop_usb).
Proof.
  unfold attempt. apply quiet_bind; [apply quiet_receive|].
  intros [raw_response|]; quiet_steps.
Qed.

Lemma quiet_receive_loop (n : nat) (request : Z) (verify_header loop_usb : bool)
    (raw_response : option bytes) :
  quiet (receive_loop n request verify_header loop_usb raw_response).
Proof.
  revert raw_response. induction n as [|n IH]; intros raw_response;
    cbn [receive_loop]; [apply quiet_ret|].
  apply quiet_bind; [apply quiet_attempt|].
  intros [[x [|]]|]; auto with quiet.
Qed.

Lemma quiet_receive_response (request : Z) (verify_header loop_usb : bool) :
  quiet (receive_response request verify_header loop_usb).
Proof. apply quiet_receive_loop. Qed.

(** What [__send_request] with [clear_buffer=True] leaves. *)
Lemma send_request_clear (opcode : Z) (data : bytes) (r : Reader) :
  exists t,
    send_request opcode data true r
    = (write_outcome (transport r), mkReader t (is_inventory r))
    /\ log t = log (transport r) ++ [Cleared; Written (serialize opcode data)]
    /\ connection_type t = connection_type (transport r)
    /\ rx t = rx (transport r)
    /\ (inbuf (transport r) = [] -> inbuf t = [])
    /\ tx t = tl (tx (transport r)).
Proof.
  destruct r as [[k b script l w] busy].
  unfold send_request, bind, transport_clear_buffer, transport_write_bytes,
    clear_buffer, write_bytes.
  cbn [transport connection_type inbuf rx log tx is_inventory].
  destruct k; cbn [transport connection_type inbuf rx log tx is_inventory];
    (eexists; split; [reflexivity|]);
    cbn [log connection_type rx inbuf tx]; rewrite <- app_assoc;
    repeat split; auto.
Qed.

Lemma send_request_at (opcode : Z) (data : bytes) (k : ConnectionType)
    (script : list RxEvent) (l : list IoOp) (busy : bool) :
  send_request opcode data true (reader_at k script l busy)
  = (Ok tt,
     reader_at k script (l ++ [Cleared; Written (serialize opcode data)]) busy).
Proof.
  unfold send_request, bind, transport_clear_buffer, transport_write_bytes,
    clear_buffer, write_bytes, reader_at.
  destruct k; cbn [transport connection_type inbuf rx log is_inventory];
    rewrite <- app_assoc; reflexivity.
Qed.

(** *** Where an attempt flushes *)

Lemma read_bytes_log (n : Z) (r r1 : Reader) (res : result bytes) :
  transport_read_bytes n r = (res, r1) ->
  log (transport r1) = log (transport r).
Proof.
  destruct r as [[k b script l w] busy]. unfold transport_read_bytes, read_bytes.
  cbn [transport connection_type inbuf rx log tx is_inventory].
  destruct k.
  - destruct (serial_read (Z.to_nat n) b script) as [[x y] z].
    intros H. inversion H. reflexivity.
  - destruct (usb_read script) as [x y]. intros H. inversion H. reflexivity.
  - destruct (tcp_recv (Z.to_nat n) b script) as [[x y] z].
    intros H. inversion H. reflexivity.
Qed.

Lemma usb_loop_log (all_len : Z) (raw_resp : bytes) (r r1 : Reader)
    (res : result bytes) :
  usb_loop all_len raw_resp r = (res, r1) ->
  log (transport r1) = log (transport r).
Proof.
  unfold usb_loop.
  destruct (usb_read_until all_len raw_resp (rx (transport r))) as [x y].
  intros H. inversion H. reflexivity.
Qed.

Lemma clear_buffer_log (t : Transport) :
  log (clear_buffer t) = log t ++ [Cleared].
Proof. unfold clear_buffer. destruct (connection_type t); reflexivity. Qed.

(** [__receive] flushes exactly when it returns [None]: the read of the
    prefix, on a serial line or a socket, returned nothing or, with
    [verify_header] off, bytes that do not start with HEADER. *)
Lemma receive_none (verify_header loop_usb : bool) (r r' : Reader) :
  receive verify_header loop_usb r = (Ok None, r') ->
  connection_type (transport r) <> USB
  /\ exists hdr r1,
       transport_read_bytes 5 r = (Ok hdr, r1)
       /\ (hdr = [] \/ (verify_header = false /\ nth 0 hdr 0 <> HEADER))
       /\ r' = mkReader (clear_buffer (transport r1)) (is_inventory r1).
Proof.
  unfold receive.
  assert (Hsock :
    (response_header_section <- transport_read_bytes 5 ;;
     if (len response_header_section <=? 0)
        || (negb verify_header
            && negb (nth 0 response_header_section 0 =? HEADER))
     then transport_clear_buffer ;;; ret None
     else
       assert (len response_header_section =? 5) ;;;
       body_length <- index response_header_section (-1) ;;
       response_body_section <- transport_read_bytes (body_length + 2) ;;
       ret (Some (response_header_section ++ response_body_section))) r
    = (Ok None, r') ->
    exists hdr r1,
      transport_read_bytes 5 r = (Ok hdr, r1)
      /\ (hdr = [] \/ (verify_header = false /\ nth 0 hdr 0 <> HEADER))
      /\ r' = mkReader (clear_buffer (transport r1)) (is_inventory r1)).
  { unfold bind at 1.
    destruct (transport_read_bytes 5 r) as [[hdr|e] r1]; [|discriminate].
    destruct ((len hdr <=? 0)
              || negb verify_header && negb (nth 0 hdr 0 =? HEADER)) eqn:Hc.
    - intros H. inversion H; subst. exists hdr, r1.
      split; [reflexivity|]. split; [|reflexivity].
      apply orb_true_iff in Hc. destruct Hc as [Hc|Hc].
      + left. apply Z.leb_le in Hc. destruct hdr; [reflexivity|].
        unfold len in Hc. cbn [length] in Hc. lia.
      + right. apply andb_true_iff in Hc. destruct Hc as [Hv Hh].
        apply negb_true_iff in Hv, Hh. apply Z.eqb_neq in Hh. auto.
    - unfold bind at 1, assert.
      destruct (len hdr =? 5); [|intros H; discriminate H].
      cbn [ret]. unfold bind at 1, index.
      destruct (py_index hdr (-1)) as [body_length|];
        [|intros H; discriminate H].
      cbn [ret]. unfold bind at 1.
      destruct (transport_read_bytes (body_length + 2) r1) as [[body|e] r2];
        intros H; discriminate H. }
  destruct (connection_type (transport r));
    try (intros H; split; [discriminate | now apply Hsock]).
  clear Hsock. unfold bind at 1.
  destruct (transport_read_bytes 0 r) as [[raw0|e] r1]; [|discriminate].
  destruct loop_usb; [|discriminate].
  unfold bind at 1, index.
  destruct (py_index raw0 4) as [length|]; [|intros H; discriminate H].
  cbn [ret]. unfold bind at 1.
  destruct (usb_loop (4 + length + 2) raw0 r1) as [[raw1|e] r2];
    intros H; discriminate H.
Qed.

Lemma receive_log (verify_header loop_usb : bool) (r r' : Reader)
    (res : result (option bytes)) :
  receive verify_header loop_usb r = (res, r') ->
  log (transport r')
  = log (transport r)
      ++ match res with Ok None => [Cleared] | _ => [] end.
Proof.
  destruct res as [[raw|]|e].
  3:{ (* an exception: some read raised, or an assertion or an index failed *)
      rewrite app_nil_r. unfold receive.
      destruct (connection_type (transport r)).
      2:{ unfold bind at 1.
          destruct (transport_read_bytes 0 r) as [[raw0|e0] r1] eqn:E0;
            [|intros H; inversion H; subst; now apply read_bytes_log in E0].
          apply read_bytes_log in E0.
          destruct loop_usb; [|discriminate].
          unfold bind at 1, index.
          destruct (py_index raw0 4) as [length|];
            [|intros H; inversion H; subst; exact E0].
          cbn [ret]. unfold bind at 1.
          destruct (usb_loop (4 + length + 2) raw0 r1) as [[raw1|e1] r2] eqn:E1;
            [discriminate|].
          apply usb_loop_log in E1. intros H. inversion H; subst. congruence. }
      all: unfold bind at 1;
        (destruct (transport_read_bytes 5 r) as [[hdr|e0] r1] eqn:E0;
         [|intros H; inversion H; subst; now apply read_bytes_log in E0]);
        apply read_bytes_log in E0;
        (destruct ((len hdr <=? 0)
                   || negb verify_header && negb (nth 0 hdr 0 =? HEADER));
         [discriminate|]);
        unfold bind at 1, assert;
        (destruct (len hdr =? 5);
         [|intros H; inversion H; subst; exact E0]);
        cbn [ret]; unfold bind at 1, index;
        (destruct (py_index hdr (-1)) as [body_length|];
         [|intros H; inversion H; subst; exact E0]);
        cbn [ret]; unfold bind at 1;
        (destruct (transport_read_bytes (body_length + 2) r1)
           as [[body|e1] r2] eqn:E1; [discriminate|]);
        apply read_bytes_log in E1; intros H; inversion H; subst; congruence. }
  - (* bytes *)
    rewrite app_nil_r. unfold receive.
    destruct (connection_type (transport r)).
    2:{ unfold bind at 1.
        destruct (transport_read_bytes 0 r) as [[raw0|e0] r1] eqn:E0;
          [|discriminate].
        apply read_bytes_log in E0.
        destruct loop_usb;
          [|intros H; inversion H; subst; exact E0].
        unfold bind at 1, index.
        destruct (py_index raw0 4) as [length|]; [|discriminate].
        cbn [ret]. unfold bind at 1.
        destruct (usb_loop (4 + length + 2) raw0 r1) as [[raw1|e1] r2] eqn:E1;
          [|discriminate].
        apply usb_loop_log in E1. intros H. inversion H; subst. congruence. }
    all: unfold bind at 1;
      (destruct (transport_read_bytes 5 r) as [[hdr|e0] r1] eqn:E0;
       [|discriminate]);
      apply read_bytes_log in E0;
      (destruct ((len hdr <=? 0)
                 || negb verify_header && negb (nth 0 hdr 0 =? HEADER));
       [discriminate|]);
      unfold bind at 1, assert;
      (destruct (len hdr =? 5); [|discriminate]);
      cbn [ret]; unfold bind at 1, index;
      (destruct (py_index hdr (-1)) as [body_length|]; [|discriminate]);
      cbn [ret]; unfold bind at 1;
      (destruct (transport_read_bytes (body_length + 2) r1)
         as [[body|e1] r2] eqn:E1; [|discriminate]);
      apply read_bytes_log in E1; intros H; inversion H; subst; congruence.
  - (* None *)
    intros H. destruct (receive_none _ _ _ _ H) as (_ & hdr & r1 & E & _ & ->).
    apply read_bytes_log in E. cbn [transport].
    now rewrite clear_buffer_log, E.
Qed.

(** One turn of the loop of [__receive_response] flushes in two cases and in
    no other: [__receive] returned [None] (it has flushed, and the loop
    ends), or it returned bytes that are not empty and do not start with
    HEADER.  A turn that raises has flushed nothing. *)
Lemma attempt_log (request : Z) (verify_header loop_usb : bool)
    (r r' : Reader) (res : result (option (bytes * bool))) :
  attempt request verify_header loop_usb r = (res, r') ->
  log (transport r')
  = log (transport r)
      ++ match res with
         | Ok (Some (raw_response, _)) =>
             if (0 <? len raw_response)
                && negb (nth 0 raw_response 0 =? HEADER)
             then [Cleared] else []
         | Ok None => [Cleared]
         | Raise _ => []
         end.
Proof.
  unfold attempt. unfold bind at 1.
  destruct (receive verify_header loop_usb r) as [[[raw|]|e] r1] eqn:Hr;
    apply receive_log in Hr.
  - unfold bind.
    destruct ((0 <? len raw) && negb (nth 0 raw 0 =? HEADER)) eqn:Hc;
      cbn [transport_clear_buffer ret]; intros H; inversion H; subst;
      cbn [transport]; rewrite Hc.
    + now rewrite clear_buffer_log, Hr, app_nil_r.
    + exact Hr.
  - cbn [ret]. intros H. inversion H; subst. exact Hr.
  - intros H. inversion H; subst. exact Hr.
Qed.

(** A command that is sent and what follows it, when that only reads and
    flushes: the flush and the call of [write_bytes] are recorded, whether the
    write returns or raises, and after them only flushes. *)
Lemma send_then_quiet {A} (opcode : Z) (data : bytes) (m : M A) (r : Reader) :
  quiet m ->
  let out := (send_request opcode data true ;;; m) r in
  is_inventory (snd out) = is_inventory r
  /\ connection_type (transport (snd out)) = connection_type (transport r)
  /\ exists n,
       log (transport (snd out))
       = log (transport r)
           ++ [Cleared; Written (serialize opcode data)] ++ repeat Cleared n.
Proof.
  intros Hm out. unfold out.
  destruct (send_request_clear opcode data r) as (t & E & Hl & Hk & _).
  unfold bind. rewrite E.
  destruct (write_outcome (transport r)) as [u|e].
  - destruct (Hm (mkReader t (is_inventory r))) as (Hi & Hc & n & Hq).
    cbn [transport is_inventory] in Hi, Hc, Hq.
    repeat split; [congruence | congruence |].
    exists n. now rewrite Hq, Hl, <- app_assoc.
  - cbn [snd transport is_inventory]. repeat split; auto.
    exists 0%nat. cbn [repeat]. now rewrite Hl, app_nil_r.
Qed.

End Receive.

(** ** One-shot operations *)

Section OneShot.

Context {C : Catalog}.

(** C2, as the code has it.  A one-shot receive makes at most 20 turns.  Each
    turn reads one frame and compares its opcode with the expected one.  A
    frame with another opcode is dropped and the next turn follows, without
    a flush.  [clear_buffer] is called in a turn in two cases and in no
    other: when the bytes read are not empty and do not start with HEADER,
    whatever their opcode; and when [__receive] returns [None], which it
    does, on a serial line or a socket, when the read of the prefix returned
    nothing (or, with [verify_header] off, bytes that do not start with
    HEADER): it has flushed, and the loop ends with [None].  A turn that
    raises has flushed nothing.  A frame with the expected
    opcode ends the loop and is returned.  So fewer than 20 stray frames
    followed by the answer give the answer (three stray frames and then the
    answer: the fourth frame), with the transport log untouched; and 20
    stray frames use up the loop, which returns the twentieth and leaves what
    follows unread.  [get_reader_settings], which flushes, writes
    GET_ALL_PARAM and receives, so returns the typed response of the first
    frame that answers GET_ALL_PARAM. *)
Theorem receive_response_retries (k : ConnectionType) (request : Z)
    (verify_header loop_usb : bool) (pre : list bytes) (f : bytes)
    (rest : list RxEvent) (l : list IoOp) (busy : bool) :
  forallb (stray request) pre = true ->
  framed f = true ->
  answers request f = true ->
  ((length pre < 20)%nat ->
   receive_response request verify_header loop_usb
     (reader_at k (map Data pre ++ Data f :: rest) l busy)
   = (Ok (Some f), reader_at k rest l busy))
  /\ (length pre = 20%nat ->
      receive_response request verify_header loop_usb
        (reader_at k (map Data pre ++ Data f :: rest) l busy)
      = (Ok (last (map Some pre) None), reader_at k (Data f :: rest) l busy))
  /\ (forall r raw matched r',
        attempt request verify_header loop_usb r = (Ok (Some (raw, matched)), r') ->
        exists r1,
          receive verify_header loop_usb r = (Ok (Some raw), r1)
          /\ r' = (if (0 <? len raw) && negb (nth 0 raw 0 =? HEADER)
                   then mkReader (clear_buffer (transport r1)) (is_inventory r1)
                   else r1))
  /\ (forall r res r',
        attempt request verify_header loop_usb r = (res, r') ->
        log (transport r')
        = log (transport r)
            ++ match res with
               | Ok (Some (raw, _)) =>
                   if (0 <? len raw) && negb (nth 0 raw 0 =? HEADER)
                   then [Cleared] else []
               | Ok None => [Cleared]
               | Raise _ => []
               end)
  /\ (forall r r',
        attempt request verify_header loop_usb r = (Ok None, r') ->
        connection_type (transport r) <> USB
        /\ receive_loop 20 request verify_header loop_usb None r = (Ok None, r')
        /\ exists hdr r1,
             transport_read_bytes 5 r = (Ok hdr, r1)
             /\ (hdr = [] \/ (verify_header = false /\ nth 0 hdr 0 <> HEADER))
             /\ r' = mkReader (clear_buffer (transport r1)) (is_inventory r1))
  /\ ((length pre < 20)%nat ->
      request = GET_ALL_PARAM ->
      forall s,
        response_init ClsReaderSettings (Some f) = Ok s ->
        get_reader_settings (reader_at k (map Data pre ++ Data f :: rest) l busy)
        = (Ok (mkResponse ClsReaderSettings (Some f) s),
           reader_at k rest
             (l ++ [Cleared; Written (serialize GET_ALL_PARAM [])]) busy)).
Proof.
  intros Hpre Hf Ha. split; [|split; [|split; [|split; [|split]]]].
  - intros Hn. unfold receive_response. now apply receive_loop_skips.
  - intros Hn. unfold receive_response. rewrite <- Hn.
    now apply receive_loop_gives_up.
  - intros r raw matched r' H. unfold attempt, bind in H.
    destruct (receive verify_header loop_usb r) as [[[raw'|]|e] r1];
      try discriminate.
    exists r1.
    destruct ((0 <? len raw') && negb (nth 0 raw' 0 =? HEADER)) eqn:Hflush;
      cbn in H; inversion H; subst; rewrite Hflush; split; reflexivity.
  - intros r res r'. apply attempt_log.
  - intros r r' H.
    assert (Hr : receive verify_header loop_usb r = (Ok None, r')).
    { unfold attempt in H. unfold bind at 1 in H.
      destruct (receive verify_header loop_usb r) as [[[raw'|]|e] r1];
        [|inversion H; reflexivity|discriminate].
      unfold bind in H.
      destruct ((0 <? len raw') && negb (nth 0 raw' 0 =? HEADER));
        cbn in H; discriminate H. }
    destruct (receive_none _ _ _ _ Hr) as (Hk & Hh).
    split; [exact Hk|]. split; [|exact Hh].
    cbn [receive_loop]. unfold bind at 1. now rewrite H.
  - intros Hn -> s Hs. unfold get_reader_settings.
    unfold bind at 1. rewrite send_request_at. unfold bind at 1.
    unfold receive_response. rewrite receive_loop_skips by assumption.
    unfold construct. now rewrite Hs.
Qed.

(** C8.  [set_power] with a power outside 0..33 raises on its assertion and
    leaves the reader as it was: nothing is flushed, written or read.  With a
    power within 0..33 (and a reserve byte of 0 or 1) the buffer is flushed
    and the SET_POWER command is written. *)
Theorem set_power_checks_before_io (power reserve : Z) (r : Reader) :
  (~ (0 <= power <= 33) ->
   set_power power reserve r = (Raise AssertionError, r))
  /\ (0 <= power <= 33 -> 0 <= reserve <= 1 ->
      exists tail,
        log (transport (snd (set_power power reserve r)))
        = log (transport r)
            ++ Cleared :: Written (serialize SET_POWER [power; reserve]) :: tail).
Proof.
  split.
  - intros H. unfold set_power. unfold bind at 1.
    assert (Hc : ((0 <=? power) && (power <=? 33))
                 && ((0 <=? reserve) && (reserve <=? 1)) = false).
    { apply andb_false_iff. left. apply andb_false_iff.
      destruct (Z.leb_spec 0 power); [right|left; reflexivity].
      apply Z.leb_gt. lia. }
    rewrite Hc. reflexivity.
  - intros Hp Hr. unfold set_power. unfold bind at 1.
    assert (Hc : ((0 <=? power) && (power <=? 33))
                 && ((0 <=? reserve) && (reserve <=? 1)) = true).
    { repeat (apply andb_true_iff; split); apply Z.leb_le; lia. }
    rewrite Hc. cbn [assert ret]. unfold bind at 1, bytearray.
    assert (Hb : forallb is_byte [power; reserve] = true).
    { cbn [forallb]. unfold is_byte.
      repeat (apply andb_true_iff; split); try reflexivity;
        try apply Z.leb_le; try apply Z.ltb_lt; lia. }
    rewrite Hb. cbn [ret].
    destruct (send_then_quiet SET_POWER [power; reserve]
                (raw_response <- receive_response SET_POWER true true ;;
                 construct ClsResponse raw_response) r)
      as (_ & _ & n & Hq).
    { apply quiet_bind; [apply quiet_receive_response|].
      intros ?. apply quiet_construct. }
    rewrite Hq. eexists. reflexivity.
Qed.

(** C9, as the code has it.  For a mask of at most 31 bytes (and a start
    address whose bit pointer fits 16 bits), the payload of [select_mask] is
    the pointer, then one byte holding 8 times the length of the mask as it
    was given, then the mask, followed by one zero byte when its length is
    odd; the buffer is flushed and the SELECT_MASK command with this payload
    is written. *)
Theorem select_mask_payload (mask : bytes) (start_address : Z) (r : Reader) :
  len mask <= 31 ->
  0 <= start_address * 8 < 65536 ->
  let data :=
    be_digits 2 (start_address * 8) ++ [8 * len mask]
      ++ (if Z.odd (len mask) then mask ++ [0] else mask) in
  select_mask_data mask start_address r = (Ok data, r)
  /\ exists tail,
       log (transport (snd (select_mask mask start_address r)))
       = log (transport r)
           ++ Cleared :: Written (serialize SELECT_MASK data) :: tail.
Proof.
  intros Hm Ha data.
  assert (Hd : select_mask_data mask start_address r = (Ok data, r)).
  { unfold select_mask_data, to_bytes, to_bytes_big, bytearray.
    assert (H1 : (0 <=? start_address * 8)
                 && (start_address * 8 <? 256 ^ Z.of_nat 2) = true).
    { apply andb_true_iff. split; [apply Z.leb_le | apply Z.ltb_lt];
        change (256 ^ Z.of_nat 2) with 65536; lia. }
    rewrite H1. unfold bind at 1. cbn [ret].
    assert (H2 : forallb is_byte [len mask * 8] = true).
    { cbn [forallb]. unfold is_byte. pose proof (len_nonneg mask).
      rewrite andb_true_r. apply andb_true_iff.
      split; [apply Z.leb_le | apply Z.ltb_lt]; lia. }
    rewrite H2. unfold bind at 1. cbn [ret]. unfold data.
    rewrite (Z.mul_comm 8). rewrite <- app_assoc.
    replace (negb (len mask mod 2 =? 0)) with (Z.odd (len mask));
      [reflexivity|].
    rewrite Zodd_mod. destruct (Z.eqb_spec (len mask mod 2) 1) as [->|Hne].
    - reflexivity.
    - pose proof (Z.mod_pos_bound (len mask) 2 ltac:(lia)).
      destruct (Z.eqb_spec (len mask mod 2) 0); [reflexivity | lia]. }
  split; [exact Hd|].
  unfold select_mask. unfold bind at 1. rewrite Hd.
  destruct (send_then_quiet SELECT_MASK data
              (raw_response <- receive_response SELECT_MASK true true ;;
               construct ClsResponse raw_response) r)
    as (_ & _ & n & Hq).
  { apply quiet_bind; [apply quiet_receive_response|].
    intros ?. apply quiet_construct. }
  rewrite Hq. eexists. reflexivity.
Qed.

End OneShot.

(** ** Streaming operations *)

Section Streaming.

Context {C : Catalog}.

Lemma holds_frame_inv (response : bytes) :
  holds_frame response = true ->
  exists h a o1 o2 n st tl,
    response = h :: a :: o1 :: o2 :: n :: st :: tl
    /\ 1 <= n /\ (Z.to_nat (n + 1) <= length tl)%nat.
Proof.
  unfold holds_frame. intros H. apply andb_true_iff in H.
  destruct H as [H1 H2]. apply Z.leb_le in H1, H2.
  destruct response as [|h [|a [|o1 [|o2 [|n [|st tl]]]]]];
    cbn [nth] in *; unfold len in H2; cbn [length] in H2; try lia.
  exists h, a, o1, o2, n, st, tl. repeat split; auto. lia.
Qed.

(** The slices [start_inventory] takes of bytes that hold a frame. *)
Lemma inventory_slices (h a o1 o2 n st : Z) (tl : bytes) :
  1 <= n -> (Z.to_nat (n + 1) <= length tl)%nat ->
  let response := h :: a :: o1 :: o2 :: n :: st :: tl in
  py_slice response 0 5 = [h; a; o1; o2; n]
  /\ py_slice response 5 (4 + n + 2 + 1) = st :: firstn (Z.to_nat (n + 1)) tl
  /\ len (st :: firstn (Z.to_nat (n + 1)) tl) - 2 = n.
Proof.
  intros Hn Hl response. unfold response. repeat split.
  - now rewrite py_slice_nonneg by lia.
  - rewrite py_slice_nonneg by lia.
    change (Z.to_nat 5) with 5%nat. cbn [skipn].
    replace (Z.to_nat (4 + n + 2 + 1 - 5)) with (S (Z.to_nat (n + 1))) by lia.
    reflexivity.
  - unfold len. cbn [length]. rewrite length_firstn. lia.
Qed.

Lemma first_frame_complete (f : bytes) :
  complete_frame f = true -> first_frame f = f.
Proof.
  intros H.
  destruct (complete_frame_inv f H) as (h & a & o1 & o2 & n & body & -> & Hn & Hb).
  unfold first_frame. cbn [nth]. rewrite !py_slice_nonneg by lia.
  change (Z.to_nat (5 - 0)) with 5%nat. change (Z.to_nat 0) with 0%nat.
  change (Z.to_nat 5) with 5%nat. cbn [skipn firstn app].
  replace (Z.to_nat (4 + n + 2 + 1 - 5)) with (length body) by lia.
  now rewrite firstn_all.
Qed.

(** A frame the inventory loop accepts is wrapped and yielded; the test that
    follows the yield breaks on NO_COUNT_LABEL. *)
Lemma inventory_frame_yields (response : bytes) (s : Z) (r : Reader) :
  inventory_frame_ok (is_usb r) response = true ->
  response_init ClsInventory (Some (first_frame response)) = Ok s ->
  inventory_frame response r
  = (Ok (Yield (Some (mkResponse ClsInventory (Some (first_frame response)) s))
           (nth 5 response 0 =? InventoryStatus_NO_COUNT_LABEL)), r).
Proof.
  unfold inventory_frame_ok. intros H Hs.
  apply andb_true_iff in H; destruct H as [H Htag].
  apply andb_true_iff in H; destruct H as [H Hst].
  apply andb_true_iff in H; destruct H as [H Hstop].
  apply andb_true_iff in H; destruct H as [H Hc].
  apply andb_true_iff in H; destruct H as [H Hf].
  apply negb_true_iff in Hstop.
  destruct (holds_frame_inv response) as (h & a & o1 & o2 & n & st & tl & -> & Hn & Hl);
    [assumption|].
  destruct (inventory_slices h a o1 o2 n st tl Hn Hl) as (S1 & S2 & S3).
  unfold tag_fits, first_frame in *. cbn [nth] in *.
  rewrite S1, S2 in *.
  unfold inventory_frame.
  assert (E0 : (len (h :: a :: o1 :: o2 :: n :: st :: tl) <=? 0) = false).
  { apply Z.leb_gt. unfold len. cbn [length]. lia. }
  rewrite E0. cbn [nth]. rewrite H. cbn [negb].
  rewrite S1.
  change (index (h :: a :: o1 :: o2 :: n :: st :: tl) 4) with (@ret Z n).
  unfold bind at 1. cbn [ret].
  replace (int_from_bytes_big (py_slice [h; a; o1; o2; n] 2 4))
    with (frame_opcode (h :: a :: o1 :: o2 :: n :: st :: tl))
    by (now rewrite frame_opcode_cons, <- (frame_opcode_cons h a o1 o2 [n])).
  unfold CommandRequest. rewrite Hc, Hstop, S2.
  change (index (st :: firstn (Z.to_nat (n + 1)) tl) 0) with (@ret Z st).
  unfold bind at 1. cbn [ret]. unfold bind at 1, InventoryStatus.
  rewrite Hst.
  cbn [ret]. rewrite S3, Z.eqb_refl. cbn [negb].
  unfold bind at 1. cbn [fst snd].
  destruct (is_usb r && (st =? InventoryStatus_SUCCESS)).
  - unfold bind at 1, index.
    destruct (py_index (py_slice (st :: firstn (Z.to_nat (n + 1)) tl) 1 (-2)) 4)
      as [tag_length|]; [|discriminate].
    unfold bind at 1. cbn [ret]. rewrite Htag.
    cbn [ret negb]. unfold bind at 1, construct. unfold bytes in *.
    rewrite Hs. reflexivity.
  - unfold bind at 1. cbn [ret]. unfold bind at 1, construct.
    unfold bytes in *. rewrite Hs. reflexivity.
Qed.

Lemma loop_yield (n : nat) (bd : M flow) (r r' : Reader)
    (item : option Response) (break_next : bool) :
  is_inventory r = true ->
  bd r = (Ok (Yield item break_next), r') ->
  loop (S n) bd r = Some (Yielded item, Suspended break_next, r').
Proof. intros Hb H. cbn [loop]. now rewrite Hb, H. Qed.

Lemma collect_yield (n : nat) (g : generator) (p p' : pc) (r r' : Reader)
    (item : option Response) :
  next (S n) g p r = Some (Yielded item, p', r') ->
  collect (S n) g p r
  = match collect n g p' r' with
    | Some (items, e, r'') => Some (item :: items, e, r'')
    | None => None
    end.
Proof. intros H. cbn [collect]. now rewrite H. Qed.

Lemma collect_same_turn (fuel : nat) (g : generator) (r1 r2 : Reader) :
  is_inventory r1 = true -> is_inventory r2 = true ->
  body g r1 = body g r2 ->
  collect fuel g (Suspended false) r1 = collect fuel g (Suspended false) r2.
Proof.
  intros Hb1 Hb2 H. destruct fuel as [|fuel]; [reflexivity|].
  cbn [collect next loop]. now rewrite Hb1, Hb2, H.
Qed.

Lemma receive_response_data (k : ConnectionType) (request : Z)
    (verify_header loop_usb : bool) (f : bytes) (rest : list RxEvent)
    (l : list IoOp) (busy : bool) :
  framed f = true -> answers request f = true ->
  receive_response request verify_header loop_usb
    (reader_at k (Data f :: rest) l busy)
  = (Ok (Some f), reader_at k rest l busy).
Proof.
  intros Hf Ha. unfold receive_response.
  now apply (receive_loop_skips k request verify_header loop_usb f rest l busy
               Hf Ha []); [|simpl; lia].
Qed.

Lemma inventory_body_received (r r1 : Reader) (response : bytes) :
  receive_response INVENTORY_ISO_CONTINUE false false r
  = (Ok (Some response), r1) ->
  inventory_body r = inventory_frame response r1.
Proof.
  intros H. unfold inventory_body. unfold bind at 1, try_except.
  unfold bind at 1. rewrite H. reflexivity.
Qed.

Lemma inventory_body_data (k : ConnectionType) (f : bytes) (st s : Z)
    (rest : list RxEvent) (l : list IoOp) (busy : bool) :
  inventory_reply k f st s ->
  inventory_body (reader_at k (Data f :: rest) l busy)
  = (Ok (Yield (Some (mkResponse ClsInventory (Some f) s))
           (st =? InventoryStatus_NO_COUNT_LABEL)),
     reader_at k rest l busy).
Proof.
  intros (Hf & Ha & Hok & Hst & Hs).
  rewrite (inventory_body_received _ (reader_at k rest l busy) f)
    by now apply receive_response_data.
  destruct (framed_inv f Hf) as [Hc _].
  pose proof (first_frame_complete f Hc) as Hff.
  rewrite (inventory_frame_yields f s).
  - now rewrite Hff, Hst.
  - destruct k; exact Hok.
  - now rewrite Hff.
Qed.

Lemma start_inventory_prologue (p : AnswerModeInventoryParameter)
    (k : ConnectionType) (script : list RxEvent) (l : list IoOp) (busy : bool) :
  is_byte (StopAfter_value (stop_after p)) = true ->
  0 <= value p < 2 ^ 32 ->
  prologue (start_inventory ANSWER_MODE (Some p)) (reader_at k script l busy)
  = (Ok tt,
     reader_at k script
       (l ++ [Cleared;
              Written (serialize INVENTORY_ISO_CONTINUE
                         ([StopAfter_value (stop_after p)]
                            ++ be_digits 4 (value p)))])
       true).
Proof.
  intros Hb Hv. cbn [prologue start_inventory].
  unfold bind at 1. cbn [set_is_inventory].
  unfold bind at 1, bytearray. cbn [forallb]. rewrite Hb. cbn [andb ret].
  unfold bind at 1, to_bytes, to_bytes_big.
  assert (H1 : (0 <=? value p) && (value p <? 256 ^ Z.of_nat 4) = true).
  { apply andb_true_iff. split; [apply Z.leb_le | apply Z.ltb_lt];
      change (256 ^ Z.of_nat 4) with (2 ^ 32); lia. }
  rewrite H1. cbn [ret].
  unfold send_request, bind, transport_clear_buffer, transport_write_bytes,
    clear_buffer, write_bytes, reader_at.
  destruct k; cbn [transport connection_type inbuf rx log is_inventory];
    rewrite <- app_assoc; reflexivity.
Qed.

(** C3.  In every streaming operation, a received frame whose status is
    NO_COUNT_LABEL is yielded, and the next resumption of the generator ends
    the sequence with [is_inventory] false.  So an inventory in answer mode
    that is fed two SUCCESS frames and then a NO_COUNT_LABEL frame, on any of
    the three transports, yields the three typed responses in order and
    stops, leaving [is_inventory] false and nothing unread. *)
Theorem terminator_ends_stream :
  (forall (c : streaming_call) (r r1 : Reader) (response : bytes) (s : Z)
          (fuel : nat),
      is_inventory r = true ->
      receive_response (request_of c) (verify_header_of c) (loop_usb_of c) r
      = (Ok (Some response), r1) ->
      terminator_received c (is_usb r1) response s ->
      next (S fuel) (generator_of c) (Suspended false) r
      = Some (Yielded (Some (item_of c response s)), Suspended true, r1)
      /\ next fuel (generator_of c) (Suspended true) r1
         = Some (StopIteration, Finished, mkReader (transport r1) false))
  /\ (forall (k : ConnectionType) (p : AnswerModeInventoryParameter)
             (f1 f2 f3 : bytes) (s1 s2 s3 : Z) (l : list IoOp) (busy : bool),
        is_byte (StopAfter_value (stop_after p)) = true ->
        0 <= value p < 2 ^ 32 ->
        InventoryStatus_SUCCESS <> InventoryStatus_NO_COUNT_LABEL ->
        inventory_reply k f1 InventoryStatus_SUCCESS s1 ->
        inventory_reply k f2 InventoryStatus_SUCCESS s2 ->
        inventory_reply k f3 InventoryStatus_NO_COUNT_LABEL s3 ->
        collect 4 (start_inventory ANSWER_MODE (Some p)) Fresh
          (reader_at k [Data f1; Data f2; Data f3] l busy)
        = Some ([Some (mkResponse ClsInventory (Some f1) s1);
                 Some (mkResponse ClsInventory (Some f2) s2);
                 Some (mkResponse ClsInventory (Some f3) s3)],
                StopIteration,
                reader_at k []
                  (l ++ [Cleared;
                         Written (serialize INVENTORY_ISO_CONTINUE
                                    ([StopAfter_value (stop_after p)]
                                       ++ be_digits 4 (value p)))])
                  false)).
Proof.
  split.
  - intros c r r1 response s fuel Hbusy Hrecv Hterm. split; [|reflexivity].
    assert (Hmem : forall k request,
      receive_response request true true r = (Ok (Some response), r1) ->
      response_init k (Some response) = Ok s /\ s = Status_NO_COUNT_LABEL ->
      (raw_response <- receive_response request true true ;;
       match raw_response with
       | None => ret Continue
       | Some _ => yield_response k raw_response
       end) r
      = (Ok (Yield (Some (mkResponse k (Some response) s)) true), r1)
      /\ (raw_response <- receive_response request true true ;;
          match raw_response with
          | None => ret (Yield None false)
          | Some _ => yield_response k raw_response
          end) r
         = (Ok (Yield (Some (mkResponse k (Some response) s)) true), r1)).
    { intros k request H [Hs ->].
      split; unfold bind at 1; rewrite H;
        unfold yield_response, bind, construct; rewrite Hs; cbn [ret status];
        rewrite Z.eqb_refl; reflexivity. }
    destruct c; cbn [next loop generator_of body start_inventory read_memory
                     write_memory lock_memory kill_tag];
      rewrite Hbusy;
      cbn [request_of verify_header_of loop_usb_of is_inventory_call negb]
        in Hrecv;
      unfold terminator_received, item_of in *;
      cbn [is_inventory_call class_of] in *.
    + destruct Hterm as (Hok & Hst & Hs).
      rewrite (inventory_body_received r r1 response Hrecv).
      rewrite (inventory_frame_yields response s r1 Hok Hs).
      now rewrite Hst, Z.eqb_refl.
    + destruct (Hmem ClsReadMemory _ Hrecv Hterm) as [_ ->]. reflexivity.
    + destruct (Hmem ClsWriteMemory _ Hrecv Hterm) as [-> _]. reflexivity.
    + destruct (Hmem ClsLockMemory _ Hrecv Hterm) as [-> _]. reflexivity.
    + destruct (Hmem ClsKillTag _ Hrecv Hterm) as [-> _]. reflexivity.
  - intros k p f1 f2 f3 s1 s2 s3 l busy Hb Hv Hne H1 H2 H3.
    assert (Hno : (InventoryStatus_SUCCESS =? InventoryStatus_NO_COUNT_LABEL)
                  = false) by now apply Z.eqb_neq.
    set (g := start_inventory ANSWER_MODE (Some p)).
    set (w := l ++ [Cleared;
                    Written (serialize INVENTORY_ISO_CONTINUE
                               ([StopAfter_value (stop_after p)]
                                  ++ be_digits 4 (value p)))]).
    rewrite (collect_yield 3 g Fresh (Suspended false) _
               (reader_at k [Data f2; Data f3] w true)
               (Some (mkResponse ClsInventory (Some f1) s1))).
    2:{ cbn [next]. unfold g.
        rewrite start_inventory_prologue by assumption. fold w.
        apply loop_yield; [reflexivity|]. cbn [body start_inventory].
        now rewrite (inventory_body_data k f1 _ s1 _ _ _ H1), Hno. }
    rewrite (collect_yield 2 g (Suspended false) (Suspended false) _
               (reader_at k [Data f3] w true)
               (Some (mkResponse ClsInventory (Some f2) s2))).
    2:{ cbn [next]. apply loop_yield; [reflexivity|].
        unfold g. cbn [body start_inventory].
        now rewrite (inventory_body_data k f2 _ s2 _ _ _ H2), Hno. }
    rewrite (collect_yield 1 g (Suspended false) (Suspended true) _
               (reader_at k [] w true)
               (Some (mkResponse ClsInventory (Some f3) s3))).
    2:{ cbn [next]. apply loop_yield; [reflexivity|].
        unfold g. cbn [body start_inventory].
        now rewrite (inventory_body_data k f3 _ s3 _ _ _ H3), Z.eqb_refl. }
    reflexivity.
Qed.

(** C10.  The first [next] on [start_inventory(ANSWER_MODE, None)] raises
    ValueError; the transport is as it was, so no command was written, and
    [is_inventory] is left true. *)
Theorem start_inventory_without_parameter (fuel : nat) (r : Reader) :
  next fuel (start_inventory ANSWER_MODE None) Fresh r
  = Some (Raised ValueError, Finished, mkReader (transport r) true).
Proof. reflexivity. Qed.

(** *** USB packets that hold more than one frame *)

Lemma attempt_usb_packet (request : Z) (verify_header : bool) (p : bytes)
    (rest : list RxEvent) (l : list IoOp) (busy : bool) :
  attempt request verify_header false (reader_at USB (Data p :: rest) l busy)
  = (Ok (Some (p, match CommandRequest (frame_opcode p) with
                  | Some c => c =? request
                  | None => false
                  end)),
     reader_at USB rest
       (if (0 <? len p) && negb (nth 0 p 0 =? HEADER)
        then l ++ [Cleared] else l) busy).
Proof.
  unfold attempt, receive, bind, reader_at.
  cbn [transport connection_type]. unfold transport_read_bytes, read_bytes.
  cbn [transport connection_type rx usb_read inbuf log is_inventory ret].
  destruct ((0 <? len p) && negb (nth 0 p 0 =? HEADER)); reflexivity.
Qed.

Lemma receive_loop_S (n : nat) (request : Z) (verify_header loop_usb : bool)
    (raw_response : option bytes) (r : Reader) :
  receive_loop (S n) request verify_header loop_usb raw_response r
  = match attempt request verify_header loop_usb r with
    | (Ok None, r') => (Ok None, r')
    | (Ok (Some (raw_response', true)), r') => (Ok (Some raw_response'), r')
    | (Ok (Some (raw_response', false)), r') =>
        receive_loop n request verify_header loop_usb (Some raw_response') r'
    | (Raise e, r') => (Raise e, r')
    end.
Proof.
  cbn [receive_loop]. unfold bind.
  destruct (attempt request verify_header loop_usb r) as [[[[x [|]]|]|e] r'];
    reflexivity.
Qed.

Lemma receive_response_usb_extra (request : Z) (verify_header : bool)
    (f extra : bytes) (rest : list RxEvent) (l : list IoOp) (busy : bool) :
  complete_frame f = true ->
  (exists r',
      receive_response request verify_header false
        (reader_at USB (Data (f ++ extra) :: rest) l busy)
      = (Ok (Some (f ++ extra)), r')
      /\ receive_response request verify_header false
           (reader_at USB (Data f :: rest) l busy)
         = (Ok (Some f), r'))
  \/ receive_response request verify_header false
       (reader_at USB (Data (f ++ extra) :: rest) l busy)
     = receive_response request verify_header false
         (reader_at USB (Data f :: rest) l busy).
Proof.
  intros Hf.
  destruct (complete_frame_inv f Hf) as (h & a & o1 & o2 & n & body & E & Hn & Hb).
  assert (Hop : frame_opcode (f ++ extra) = frame_opcode f).
  { apply frame_opcode_app. subst f. simpl. lia. }
  assert (Hh : nth 0 (f ++ extra) 0 = nth 0 f 0) by (subst f; reflexivity).
  assert (Hl : (0 <? len (f ++ extra)) = (0 <? len f)).
  { subst f. unfold len. cbn [app length].
    transitivity true; [|symmetry]; apply Z.ltb_lt; lia. }
  unfold receive_response.
  change 20%nat with (S (S 18)). rewrite !(receive_loop_S (S 18)).
  rewrite !attempt_usb_packet. rewrite Hop, Hh, Hl.
  destruct (CommandRequest (frame_opcode f)) as [c|]; [destruct (c =? request)|].
  - left. eexists. split; reflexivity.
  - right. now rewrite !(receive_loop_S 18).
  - right. now rewrite !(receive_loop_S 18).
Qed.

Lemma bind_ret_fun {A B} (a : A) (k : A -> M B) :
  bind (ret a) k = fun r => k a r.
Proof. reflexivity. Qed.

Lemma inventory_frame_app (f extra : bytes) (r : Reader) :
  complete_frame f = true ->
  inventory_frame (f ++ extra) r = inventory_frame f r.
Proof.
  intros Hf.
  destruct (complete_frame_inv f Hf) as (h & a & o1 & o2 & n & body & -> & Hn & Hb).
  assert (E1 : forall tl, py_slice (h :: a :: o1 :: o2 :: n :: tl) 0 5
                          = [h; a; o1; o2; n]).
  { intros tl. now rewrite py_slice_nonneg by lia. }
  assert (E2 : forall tl, py_slice (h :: a :: o1 :: o2 :: n :: body ++ tl) 5
                            (4 + n + 2 + 1) = body).
  { intros tl. rewrite py_slice_nonneg by lia.
    change (Z.to_nat 5) with 5%nat. cbn [skipn].
    replace (Z.to_nat (4 + n + 2 + 1 - 5)) with (length body + 0)%nat by lia.
    rewrite firstn_app_2. cbn [firstn]. now rewrite app_nil_r. }
  assert (E3 : forall tl, (len (h :: a :: o1 :: o2 :: n :: tl) <=? 0) = false).
  { intros tl. apply Z.leb_gt. unfold len. cbn [length]. lia. }
  assert (E2' : py_slice (h :: a :: o1 :: o2 :: n :: body) 5 (4 + n + 2 + 1)
                = body).
  { rewrite <- (app_nil_r body) at 1. apply E2. }
  unfold inventory_frame. cbn [app nth]. rewrite !E3, !E1.
  change (index (h :: a :: o1 :: o2 :: n :: body ++ extra) 4) with (@ret Z n).
  change (index (h :: a :: o1 :: o2 :: n :: body) 4) with (@ret Z n).
  rewrite !bind_ret_fun. cbv beta. rewrite E2, E2'. reflexivity.
Qed.

Lemma inventory_body_usb_extra (f extra : bytes) (rest : list RxEvent)
    (l : list IoOp) (busy : bool) :
  complete_frame f = true ->
  inventory_body (reader_at USB (Data (f ++ extra) :: rest) l busy)
  = inventory_body (reader_at USB (Data f :: rest) l busy).
Proof.
  intros Hf. unfold inventory_body.
  unfold bind at 1 3, try_except. unfold bind at 1 2.
  destruct (receive_response_usb_extra INVENTORY_ISO_CONTINUE false f extra
              rest l busy Hf) as [(r' & -> & ->) | ->]; [|reflexivity].
  cbn [ret]. now apply inventory_frame_app.
Qed.

(** C7.  Over USB, a packet that starts with a whole frame and goes on with
    more bytes is treated as the frame alone.  When the frame is a reply the
    inventory loop accepts, the resumption yields the response made of that
    frame and leaves the transport with the packets that follow: the bytes
    after the frame are nowhere.  And from then on the whole run, items and
    end, is the run on the packet without those bytes, so they never produce
    a response. *)
Theorem usb_packet_tail_discarded (work_mode : WorkMode)
    (p : option AnswerModeInventoryParameter) (f extra : bytes)
    (rest : list RxEvent) (l : list IoOp) :
  complete_frame f = true ->
  (forall (st s : Z) (fuel : nat),
      inventory_reply USB f st s ->
      next (S fuel) (start_inventory work_mode p) (Suspended false)
        (reader_at USB (Data (f ++ extra) :: rest) l true)
      = Some (Yielded (Some (mkResponse ClsInventory (Some f) s)),
              Suspended (st =? InventoryStatus_NO_COUNT_LABEL),
              reader_at USB rest l true))
  /\ (forall fuel : nat,
        collect fuel (start_inventory work_mode p) (Suspended false)
          (reader_at USB (Data (f ++ extra) :: rest) l true)
        = collect fuel (start_inventory work_mode p) (Suspended false)
            (reader_at USB (Data f :: rest) l true)).
Proof.
  intros Hf. split.
  - intros st s fuel Hr. cbn [next]. apply loop_yield; [reflexivity|].
    cbn [body start_inventory]. rewrite inventory_body_usb_extra by assumption.
    now apply inventory_body_data.
  - intros fuel. apply collect_same_turn; [reflexivity | reflexivity |].
    cbn [body start_inventory]. now apply inventory_body_usb_extra.
Qed.

(** *** [stop_inventory] *)

(** C5, as the code has it.  Whenever [stop_inventory] returns,
    [is_inventory] is false, whatever the receive met.  In a work mode other
    than ANSWER_MODE it does nothing else: the transport is untouched.  In
    ANSWER_MODE it writes the INVENTORY_STOP command, with no flush before
    it, only when [is_inventory] was set; then, written or not, it makes one
    receive for INVENTORY_STOP, whose USBError or TimeoutError is swallowed
    (any other exception propagates, and so does an exception of the write,
    which is outside the [try]); apart from that write the receive only
    reads and flushes. *)
Theorem stop_inventory_clears_flag (work_mode : WorkMode) (r : Reader) :
  let stop := Written (serialize INVENTORY_STOP []) in
  (fst (stop_inventory work_mode r) = Ok tt ->
   is_inventory (snd (stop_inventory work_mode r)) = false)
  /\ (work_mode <> ANSWER_MODE ->
      stop_inventory work_mode r = (Ok tt, mkReader (transport r) false))
  /\ (work_mode = ANSWER_MODE ->
      let sent := write_bytes (serialize INVENTORY_STOP []) (transport r) in
      let r0 := if is_inventory r then mkReader (snd sent) true else r in
      stop_inventory work_mode r
      = match (if is_inventory r then fst sent else Ok tt) with
        | Raise e => (Raise e, r0)
        | Ok _ =>
            match receive_response INVENTORY_STOP true true r0 with
            | (Ok _, r1) => (Ok tt, mkReader (transport r1) false)
            | (Raise e, r1) =>
                if usb_or_timeout e then (Ok tt, mkReader (transport r1) false)
                else (Raise e, r1)
            end
        end)
  /\ (work_mode = ANSWER_MODE ->
      exists n,
        log (transport (snd (stop_inventory work_mode r)))
        = log (transport r)
            ++ (if is_inventory r then [stop] else []) ++ repeat Cleared n).
Proof.
  intros stop.
  assert (Hans : work_mode = ANSWER_MODE ->
    let sent := write_bytes (serialize INVENTORY_STOP []) (transport r) in
    let r0 := if is_inventory r then mkReader (snd sent) true else r in
    stop_inventory work_mode r
    = match (if is_inventory r then fst sent else Ok tt) with
      | Raise e => (Raise e, r0)
      | Ok _ =>
          match receive_response INVENTORY_STOP true true r0 with
          | (Ok _, r1) => (Ok tt, mkReader (transport r1) false)
          | (Raise e, r1) =>
              if usb_or_timeout e then (Ok tt, mkReader (transport r1) false)
              else (Raise e, r1)
          end
      end).
  { intros -> sent r0. unfold stop_inventory. cbn [is_answer_mode].
    unfold bind at 1. unfold bind at 1.
    assert (E : (if is_inventory r
                 then send_request INVENTORY_STOP [] false
                 else ret tt) r
                = (if is_inventory r then fst sent else Ok tt, r0)).
    { unfold r0, sent. destruct r as [t [|]]; reflexivity. }
    rewrite E.
    destruct (if is_inventory r then fst sent else Ok tt) as [u|e];
      [|reflexivity].
    unfold try_except. unfold bind at 1.
    destruct (receive_response INVENTORY_STOP true true r0) as [[x|e] r1].
    - reflexivity.
    - destruct (usb_or_timeout e); reflexivity. }
  assert (Hother : work_mode <> ANSWER_MODE ->
    stop_inventory work_mode r = (Ok tt, mkReader (transport r) false)).
  { intros H. destruct work_mode; [congruence | reflexivity | reflexivity]. }
  split; [|split; [exact Hother | split; [exact Hans|]]].
  - destruct work_mode; try (intros _; reflexivity).
    rewrite (Hans eq_refl). cbv zeta.
    destruct (if is_inventory r
              then fst (write_bytes (serialize INVENTORY_STOP []) (transport r))
              else Ok tt) as [u|e]; [|discriminate].
    destruct (receive_response INVENTORY_STOP true true _) as [[x|e] r1];
      [reflexivity|].
    destruct (usb_or_timeout e); [reflexivity | discriminate].
  - intros Hw. rewrite (Hans Hw). cbv zeta.
    assert (Hr0 : log (transport
                         (if is_inventory r
                          then mkReader
                                 (snd (write_bytes (serialize INVENTORY_STOP [])
                                         (transport r))) true
                          else r))
                  = log (transport r) ++ (if is_inventory r then [stop] else [])).
    { destruct (is_inventory r); cbn [transport write_bytes snd log];
        [reflexivity | now rewrite app_nil_r]. }
    destruct (if is_inventory r
              then fst (write_bytes (serialize INVENTORY_STOP []) (transport r))
              else Ok tt) as [u|e].
    + match goal with
      | |- context [receive_response ?a ?b ?c ?x] =>
          pose proof (quiet_receive_response a b c x) as (_ & _ & n & Hq);
          destruct (receive_response a b c x) as [[y|e] r1]
      end; cbn [snd] in Hq; exists n.
      * cbn [snd transport]. rewrite Hq, Hr0. now rewrite <- app_assoc.
      * destruct (usb_or_timeout e); cbn [snd transport]; rewrite Hq, Hr0;
          now rewrite <- app_assoc.
    + exists 0%nat. cbn [snd repeat]. rewrite Hr0. now rewrite app_nil_r.
Qed.

(** *** Termination *)

Lemma pure_ret {A} (a : A) : pure (ret a).
Proof. intros r. reflexivity. Qed.

Lemma pure_raise {A} (e : exn) : pure (@raise A e).
Proof. intros r. reflexivity. Qed.

Lemma pure_bind {A B} (m : M A) (k : A -> M B) :
  pure m -> (forall a, pure (k a)) -> pure (bind m k).
Proof.
  intros Hm Hk r. unfold bind. specialize (Hm r).
  destruct (m r) as [[a|e] r1]; cbn [snd] in *; subst r1; [apply Hk|reflexivity].
Qed.

Lemma pure_if {A} (c : bool) (m1 m2 : M A) :
  pure m1 -> pure m2 -> pure (if c then m1 else m2).
Proof. destruct c; auto. Qed.

Lemma pure_index (b : bytes) (i : Z) : pure (index b i).
Proof.
  unfold index. destruct (py_index b i); [apply pure_ret | apply pure_raise].
Qed.

Lemma pure_construct (k : response_class) (x : option bytes) :
  pure (construct k x).
Proof.
  unfold construct.
  destruct (response_init k x); [apply pure_ret | apply pure_raise].
Qed.

Lemma pure_yield_response (k : response_class) (x : option bytes) :
  pure (yield_response k x).
Proof.
  unfold yield_response. apply pure_bind; [apply pure_construct|].
  intros ?. apply pure_ret.
Qed.

Lemma pure_inventory_frame (response : bytes) : pure (inventory_frame response).
Proof.
  unfold inventory_frame, InventoryStatus.
  repeat first
    [ apply pure_ret | apply pure_raise | apply pure_index
    | apply pure_construct | apply pure_if
    | apply pure_bind; [|intros ?]
    | match goal with
      | |- pure (match ?x with Some _ => _ | None => _ end) => destruct x
      | |- pure (fun r => (Ok _, r)) => intros r; reflexivity
      end ].
Qed.

(** One receive on a script that has framed events and then an answer
    [t]: it returns [t], or it has used up events before [t] only. *)
Lemma receive_loop_progress (k : ConnectionType) (request : Z)
    (verify_header loop_usb : bool) (t : bytes) (post : list RxEvent)
    (busy : bool) :
  framed t = true -> answers request t = true ->
  forall (pre : list RxEvent) (n : nat) (l : list IoOp)
         (raw_response : option bytes),
    forallb framed_event pre = true ->
    exists res script' l',
      receive_loop (S n) request verify_header loop_usb raw_response
        (reader_at k (pre ++ Data t :: post) l busy)
      = (res, reader_at k script' l' busy)
      /\ ((res = Ok (Some t) /\ script' = post)
          \/ (exists pre', script' = pre' ++ Data t :: post
                          /\ (length pre' < length pre)%nat
                          /\ forallb framed_event pre' = true)).
Proof.
  intros Ht Ha. induction pre as [|e pre IH]; intros n l raw_response Hpre.
  - rewrite receive_loop_S. cbn [app]. rewrite attempt_data by assumption.
    rewrite Ha. exists (Ok (Some t)), post, l. split; [reflexivity|]. now left.
  - cbn [forallb] in Hpre. apply andb_true_iff in Hpre.
    destruct Hpre as [He Hpre].
    assert (Hshort : (length pre < length (e :: pre))%nat) by (simpl; lia).
    rewrite receive_loop_S. cbn [app]. destruct e as [f|].
    + cbn [framed_event] in He. rewrite attempt_data by assumption.
      destruct (answers request f).
      * exists (Ok (Some f)), (pre ++ Data t :: post), l.
        split; [reflexivity|]. right. now exists pre.
      * destruct n as [|n].
        -- exists (Ok (Some f)), (pre ++ Data t :: post), l.
           split; [reflexivity|]. right. now exists pre.
        -- destruct (IH n l (Some f) Hpre) as (res & script' & l' & E & H).
           exists res, script', l'. split; [exact E|].
           destruct H as [H | (pre' & H1 & H2 & H3)]; [now left|].
           right. exists pre'. repeat split; auto. simpl. lia.
    + rewrite attempt_silence.
      destruct k;
        [ exists (Ok None), (pre ++ Data t :: post), (l ++ [Cleared])
        | exists (Raise USBError), (pre ++ Data t :: post), l
        | exists (Raise TimeoutError), (pre ++ Data t :: post), l ];
        (split; [reflexivity|]; right; now exists pre).
Qed.

Lemma is_usb_reader_at (k : ConnectionType) (script : list RxEvent)
    (l : list IoOp) (busy : bool) :
  is_usb (reader_at k script l busy) = usb_kind k.
Proof. reflexivity. Qed.

(** Every turn of every streaming loop makes progress towards a terminator
    frame in the script. *)
Lemma body_progress (c : streaming_call) (k : ConnectionType) (t : bytes)
    (s : Z) (post : list RxEvent) (busy : bool) :
  framed t = true ->
  answers (request_of c) t = true ->
  terminator_received c (usb_kind k) t s ->
  forall (pre : list RxEvent) (l : list IoOp),
    forallb framed_event pre = true ->
    progress k t post busy pre
      (body (generator_of c) (reader_at k (pre ++ Data t :: post) l busy)).
Proof.
  intros Ht Ha Hterm pre l Hpre.
  destruct (receive_loop_progress k (request_of c) (verify_header_of c)
              (loop_usb_of c) t post busy Ht Ha pre 19 l None Hpre)
    as (res & script' & l' & Hrecv & Hcase).
  change (receive_loop 20 (request_of c) (verify_header_of c) (loop_usb_of c)
            None)
    with (receive_response (request_of c) (verify_header_of c) (loop_usb_of c))
    in Hrecv.
  assert (Hmem : forall cl (none : M flow),
    is_inventory_call c = false ->
    class_of c = cl ->
    pure none ->
    progress k t post busy pre
      ((raw_response <- receive_response (request_of c) true true ;;
        match raw_response with
        | None => none
        | Some _ => yield_response cl raw_response
        end) (reader_at k (pre ++ Data t :: post) l busy))).
  { intros cl none Hc Hcl Hnone.
    unfold verify_header_of, loop_usb_of in Hrecv. rewrite Hc in Hrecv.
    cbn [negb] in Hrecv. unfold bind at 1. rewrite Hrecv.
    destruct Hcase as [[-> ->] | (pre' & -> & Hlt & Hfr)].
    - left. unfold terminator_received in Hterm. rewrite Hc, Hcl in Hterm.
      destruct Hterm as [Hs ->].
      unfold yield_response, bind, construct. rewrite Hs. cbn [ret status].
      rewrite Z.eqb_refl. do 2 eexists. reflexivity.
    - right.
      assert (Hp : forall (m : M flow), pure m ->
        exists x, m (reader_at k (pre' ++ Data t :: post) l' busy)
                  = (x, reader_at k (pre' ++ Data t :: post) l' busy)).
      { intros m Hm. specialize (Hm (reader_at k (pre' ++ Data t :: post) l' busy)).
        destruct (m _) as [x r']. cbn [snd] in Hm. subst r'. eauto. }
      destruct res as [[raw|]|e].
      + destruct (Hp _ (pure_yield_response cl (Some raw))) as [x ->].
        exists x, pre', l'. auto.
      + destruct (Hp _ Hnone) as [x ->]. exists x, pre', l'. auto.
      + exists (Raise e), pre', l'. auto. }
  destruct c; cbn [generator_of body start_inventory read_memory write_memory
                   lock_memory kill_tag];
    try (apply Hmem; [reflexivity | reflexivity | apply pure_ret]).
  (* start_inventory *)
  cbn [request_of verify_header_of loop_usb_of is_inventory_call negb] in Hrecv.
  unfold inventory_body. unfold bind at 1, try_except. unfold bind at 1.
  rewrite Hrecv.
  destruct Hcase as [[-> ->] | (pre' & -> & Hlt & Hfr)].
  - left. unfold terminator_received in Hterm. cbn [is_inventory_call] in Hterm.
    destruct Hterm as (Hok & Hst & Hs). cbn [ret].
    rewrite (inventory_frame_yields t s) by (rewrite ?is_usb_reader_at; assumption).
    rewrite Hst, Z.eqb_refl. do 2 eexists. reflexivity.
  - right.
    destruct res as [[raw|]|e].
    + cbn [ret]. pose proof (pure_inventory_frame raw
                   (reader_at k (pre' ++ Data t :: post) l' busy)) as Hp.
      destruct (inventory_frame raw _) as [x r']. cbn [snd] in Hp. subst r'.
      exists x, pre', l'. auto.
    + exists (Ok (Yield None false)), pre', l'. auto.
    + destruct (usb_or_timeout e).
      * exists (Ok (Yield None false)), pre', l'. auto.
      * exists (Raise e), pre', l'. auto.
Qed.

Lemma loop_progress (k : ConnectionType) (t : bytes) (post : list RxEvent)
    (busy : bool) (bd : M flow) :
  (forall pre l, forallb framed_event pre = true ->
     progress k t post busy pre (bd (reader_at k (pre ++ Data t :: post) l busy))) ->
  forall (n : nat) (pre : list RxEvent) (l : list IoOp),
    (length pre < n)%nat ->
    forallb framed_event pre = true ->
    exists ev p r',
      loop n bd (reader_at k (pre ++ Data t :: post) l busy) = Some (ev, p, r')
      /\ (forall item, ev = Yielded item ->
            p = Suspended true
            \/ (p = Suspended false
                /\ exists pre' l',
                     r' = reader_at k (pre' ++ Data t :: post) l' busy
                     /\ (length pre' < length pre)%nat
                     /\ forallb framed_event pre' = true)).
Proof.
  intros Hbd. induction n as [|n IH]; intros pre l Hn Hpre; [lia|].
  cbn [loop]. change (is_inventory (reader_at k (pre ++ Data t :: post) l busy))
    with busy.
  destruct busy.
  2:{ do 3 eexists. split; [reflexivity|]. discriminate. }
  destruct (Hbd pre l Hpre) as [(item & r' & ->) | (res & pre' & l' & -> & Hlt & Hfr)].
  - do 3 eexists. split; [reflexivity|]. intros ? _. now left.
  - destruct res as [[|item [|]]|e].
    + destruct (IH pre' l') as (ev & p & r' & E & H); [lia | assumption |].
      exists ev, p, r'. split; [exact E|]. intros item Hev.
      destruct (H item Hev) as [Hp | (Hp & pre'' & l'' & H1 & H2 & H3)];
        [now left|].
      right. split; [exact Hp|]. exists pre'', l''. repeat split; auto. lia.
    + do 3 eexists. split; [reflexivity|]. intros ? _. now left.
    + do 3 eexists. split; [reflexivity|]. intros ? _. right.
      split; [reflexivity|]. exists pre', l'. auto.
    + do 3 eexists. split; [reflexivity|]. discriminate.
Qed.

Lemma collect_broken (n : nat) (g : generator) (r : Reader) :
  collect (S n) g (Suspended true) r
  = Some ([], StopIteration, mkReader (transport r) false).
Proof. reflexivity. Qed.

Lemma collect_progress (k : ConnectionType) (t : bytes) (post : list RxEvent)
    (busy : bool) (g : generator) :
  (forall pre l, forallb framed_event pre = true ->
     progress k t post busy pre
       (body g (reader_at k (pre ++ Data t :: post) l busy))) ->
  forall (n : nat) (pre : list RxEvent) (l : list IoOp),
    (length pre + 2 <= n)%nat ->
    forallb framed_event pre = true ->
    exists items e r',
      collect n g (Suspended false) (reader_at k (pre ++ Data t :: post) l busy)
      = Some (items, e, r')
      /\ (length items <= length pre + 1)%nat
      /\ (e = StopIteration \/ exists x, e = Raised x).
Proof.
  intros Hbd. induction n as [|n IH]; intros pre l Hn Hpre; [lia|].
  destruct (loop_progress k t post busy (body g) Hbd (S n) pre l)
    as (ev & p & r' & E & H); [lia | assumption |].
  cbn [collect next]. rewrite E. destruct ev as [item| |x].
  - destruct (H item eq_refl) as [-> | (-> & pre' & l' & -> & Hlt & Hfr)].
    + destruct n as [|n]; [lia|]. rewrite collect_broken.
      do 3 eexists. split; [reflexivity|]. split; [simpl; lia | now left].
    + destruct (IH pre' l') as (items & e & r'' & E' & Hlen & He);
        [lia | assumption |].
      rewrite E'. do 3 eexists. split; [reflexivity|].
      split; [simpl; lia | assumption].
  - do 3 eexists. split; [reflexivity|]. split; [simpl; lia | now left].
  - do 3 eexists. split; [reflexivity|]. split; [simpl; lia | right; eauto].
Qed.

(** The first [next] of a streaming call either raises before the loop or
    enters it with the script untouched and [is_inventory] set. *)
Lemma prologue_enters (c : streaming_call) (k : ConnectionType)
    (script : list RxEvent) (l : list IoOp) (busy : bool) :
  (exists e r', prologue (generator_of c) (reader_at k script l busy)
                = (Raise e, r'))
  \/ (exists l', prologue (generator_of c) (reader_at k script l busy)
                 = (Ok tt, reader_at k script l' true)).
Proof.
  destruct c as [w p | mb sa ln pw | mb d sa ln pw | mb la pw | pw];
    cbn [generator_of prologue start_inventory read_memory write_memory
         lock_memory kill_tag];
    unfold bind, assert, bytearray, to_bytes, set_is_inventory, ret, raise;
    cbn [transport is_inventory reader_at];
    repeat match goal with
      | |- context [if ?b then _ else _] => destruct b
      | |- context [match to_bytes_big ?n ?v with _ => _ end] =>
          destruct (to_bytes_big n v)
      | |- context [match ?w with ANSWER_MODE => _ | _ => _ end] => destruct w
      | |- context [match ?p with Some _ => _ | None => _ end] => destruct p
      end;
    try (left; do 2 eexists; reflexivity);
    right; eexists; destruct k; reflexivity.
Qed.

Lemma collect_fresh (n : nat) (g : generator) (r r1 : Reader) :
  prologue g r = (Ok tt, r1) ->
  collect n g Fresh r = collect n g (Suspended false) r1.
Proof.
  intros H. destruct n as [|n]; [reflexivity|]. cbn [collect next].
  now rewrite H.
Qed.

Lemma stop_inventory_idle (work_mode : WorkMode) (r r' : Reader) :
  stop_inventory work_mode r = (Ok tt, r') -> is_inventory r' = false.
Proof.
  unfold stop_inventory. destruct work_mode; cbn [is_answer_mode].
  - unfold bind at 1.
    match goal with
    | |- context [match ?m r with _ => _ end] => destruct (m r) as [[x|e] r1]
    end; [|discriminate].
    cbn [set_is_inventory]. intros H. inversion H. reflexivity.
  - intros H. inversion H. reflexivity.
  - intros H. inversion H. reflexivity.
Qed.

(** C6, as the code has it.  A terminator frame somewhere in the input is
    not enough: it has to be read as a frame, which it is when what precedes
    it is framed, each burst a silence or one whole frame that starts with
    HEADER.  (a) When the script of the transport has a terminator frame for
    the operation after [pre], a list of silences and whole frames, the consumer
    of any streaming operation, started afresh, reaches the end of the
    sequence (StopIteration or an exception) within [length pre + 3]
    resumptions of at most that many turns each, and has seen at most
    [length pre + 1] items.  (b) Once [stop_inventory] has returned, a
    generator that was suspended ends at its next resumption, with no item
    and the reader as [stop_inventory] left it. *)
Theorem streams_terminate (c : streaming_call) (k : ConnectionType)
    (pre : list RxEvent) (t : bytes) (s : Z) (post : list RxEvent)
    (l : list IoOp) (busy : bool) :
  forallb framed_event pre = true ->
  framed t = true ->
  answers (request_of c) t = true ->
  terminator_received c (usb_kind k) t s ->
  (exists items e r',
      collect (length pre + 3) (generator_of c) Fresh
        (reader_at k (pre ++ Data t :: post) l busy)
      = Some (items, e, r')
      /\ (length items <= length pre + 1)%nat
      /\ (e = StopIteration \/ exists x, e = Raised x))
  /\ (forall (work_mode : WorkMode) (r r' : Reader) (p : pc) (fuel : nat),
        p <> Fresh ->
        stop_inventory work_mode r = (Ok tt, r') ->
        collect (S fuel) (generator_of c) p r' = Some ([], StopIteration, r')).
Proof.
  intros Hpre Ht Ha Hterm. split.
  - destruct (prologue_enters c k (pre ++ Data t :: post) l busy)
      as [(e & r' & E) | (l' & E)].
    + replace (length pre + 3)%nat with (S (length pre + 2)) by lia.
      cbn [collect next]. rewrite E. do 3 eexists.
      split; [reflexivity|]. split; [simpl; lia | right; eauto].
    + rewrite (collect_fresh _ _ _ _ E).
      apply (collect_progress k t post true (generator_of c)); [|lia|assumption].
      intros pre0 l0 Hpre0. now apply (body_progress c k t s).
  - intros work_mode r r' p fuel Hp Hstop.
    pose proof (stop_inventory_idle _ _ _ Hstop) as Hidle.
    destruct r' as [tr b]. cbn [is_inventory] in Hidle. subst b.
    destruct p as [|[|]|]; [congruence | reflexivity | | reflexivity].
    reflexivity.
Qed.

End Streaming.

(** ** The engine on concrete inputs *)

(** C1.  A reply of 65 bytes (LENGTH 58) that reaches a USB reader as a packet
    of 64 bytes and a packet of one byte: the one-shot receive waits for
    4 + 58 + 2 = 64 bytes, returns the first packet alone, one byte short of
    the frame of 5 + 58 + 2 bytes, and leaves the last byte of the checksum
    unread. *)
Theorem usb_receive_stops_one_byte_short :
  let f := sample_settings in
  len f = 5 + nth 4 f 0 + 2
  /\ len (firstn 64 f) = 4 + nth 4 f 0 + 2
  /\ receive true true
       (reader_at USB [Data (firstn 64 f); Data (skipn 64 f)] [] false)
     = (Ok (Some (firstn 64 f)), reader_at USB [Data (skipn 64 f)] [] false)
  /\ receive true true (reader_at SERIAL [Data f] [] false)
     = (Ok (Some f), reader_at SERIAL [] [] false).
Proof. vm_compute. repeat split. Qed.

(** C4.  A silent tick followed by a terminator frame.  On a serial line
    [read_memory] yields [None] for the tick and then the frame, while
    [write_memory], [lock_memory] and [kill_tag] yield the frame only: the
    tick is skipped without a yield.  Over USB the tick is a USBError, which
    [start_inventory] turns into a yielded [None], and which ends
    [read_memory] with the exception and [is_inventory] still true. *)
Theorem silent_tick_is_not_always_yielded :
  let item opcode k := Some (mkResponse k (Some (sample_end opcode)) 18) in
  let run g opcode k :=
    collect 5 g Fresh (reader_at k [Silence; Data (sample_end opcode)] [] false) in
  let items x := option_map (fun y => fst (fst y)) x in
  let ending x := option_map (fun y => snd (fst y)) x in
  let busy x := option_map (fun y => is_inventory (snd y)) x in
  items (run (read_memory 1 0 2 [0; 0; 0; 0]) 3 SERIAL)
  = Some [None; item 3 ClsReadMemory]
  /\ items (run (write_memory 1 [18; 52] 0 0 [0; 0; 0; 0]) 4 SERIAL)
     = Some [item 4 ClsWriteMemory]
  /\ items (run (lock_memory 2 1 [0; 0; 0; 0]) 5 SERIAL)
     = Some [item 5 ClsLockMemory]
  /\ items (run (kill_tag [0; 0; 0; 0]) 6 SERIAL) = Some [item 6 ClsKillTag]
  /\ items (run (start_inventory ANSWER_MODE (Some sample_parameter)) 1 USB)
     = Some [None; item 1 ClsInventory]
  /\ items (run (read_memory 1 0 2 [0; 0; 0; 0]) 3 USB) = Some []
  /\ ending (run (read_memory 1 0 2 [0; 0; 0; 0]) 3 USB)
     = Some (Raised USBError)
  /\ busy (run (read_memory 1 0 2 [0; 0; 0; 0]) 3 USB) = Some true.
Proof. vm_compute. repeat split. Qed.

(** C2, as the specification words it: a turn that meets another opcode
    flushes the transport.  It does not: the turn below meets opcode 83 while
    114 is expected, and no [clear_buffer] is in the log. *)
Lemma mismatch_does_not_flush :
  ~ (forall (C : Catalog) (request : Z) (verify_header loop_usb : bool)
            (r r' : Reader) (raw : bytes),
        attempt request verify_header loop_usb r = (Ok (Some (raw, false)), r') ->
        In Cleared (log (transport r'))).
Proof.
  intros H.
  exact (H sample_catalog 114 true true
           (reader_at SERIAL [Data (sample_frame 83 [0])] [] false)
           (reader_at SERIAL [] [] false) (sample_frame 83 [0]) eq_refl).
Qed.

(** C5, as the specification words it: in ANSWER_MODE [stop_inventory] writes
    an INVENTORY_STOP command.  On a reader that is not streaming it writes
    nothing. *)
Lemma stop_inventory_idle_writes_nothing :
  ~ (forall (C : Catalog) (r : Reader),
        In (Written (serialize INVENTORY_STOP []))
           (log (transport (snd (stop_inventory ANSWER_MODE r))))).
Proof.
  intros H. exact (H sample_catalog (reader_at USB [] [] false)).
Qed.

(** C9, as the specification words it: for every mask the length field holds
    8 times its length.  A mask of 32 bytes has no payload at all:
    [data.extend([256])] raises ValueError. *)
Lemma select_mask_length_overflows :
  ~ (forall (C : Catalog) (mask : bytes) (r : Reader),
        exists data,
          fst (select_mask_data mask 0 r) = Ok data
          /\ nth 2 data 0 = 8 * len mask).
Proof.
  intros H.
  destruct (H sample_catalog (repeat 0 32%nat) (reader_at USB [] [] false))
    as (data & E & _).
  vm_compute in E. discriminate E.
Qed.

(** An inventory on a serial line whose reader has fallen silent yields
    [None] at every resumption: the consumer that only collects never gets
    to the end. *)
Lemma silent_inventory_never_ends :
  forall (fuel : nat) (l : list IoOp),
    collect fuel (start_inventory ANSWER_MODE (Some sample_parameter))
      (Suspended false) (reader_at SERIAL [] l true)
    = None.
Proof.
  induction fuel as [|fuel IH]; intros l; [reflexivity|].
  cbn [collect].
  assert (E : next (S fuel) (start_inventory ANSWER_MODE (Some sample_parameter))
                (Suspended false) (reader_at SERIAL [] l true)
              = Some (Yielded None, Suspended false,
                      reader_at SERIAL [] (l ++ [Cleared]) true))
    by reflexivity.
  rewrite E. now rewrite IH.
Qed.

(** C6, as the specification words it: a terminator frame in the input ends
    the sequence.  On a serial line one stray byte before the terminator is
    enough to lose it: the read of the five bytes of the prefix takes the
    stray byte and the first four bytes of the frame, they do not start with
    HEADER, the flush drops the rest of the frame, and from then on the
    reader is silent and every resumption yields [None]. *)
Lemma terminator_after_stray_byte_is_lost :
  ~ (forall (C : Catalog) (c : streaming_call) (k : ConnectionType)
            (pre : list RxEvent) (t : bytes) (s : Z) (post : list RxEvent)
            (l : list IoOp) (busy : bool),
        framed t = true ->
        answers (request_of c) t = true ->
        terminator_received c (usb_kind k) t s ->
        exists fuel items e r',
          collect fuel (generator_of c) Fresh
            (reader_at k (pre ++ Data t :: post) l busy)
          = Some (items, e, r')).
Proof.
  intros H.
  destruct (H sample_catalog
              (CallStartInventory ANSWER_MODE (Some sample_parameter)) SERIAL
              [Data [0]] (sample_end 1) 18 [] [] false eq_refl eq_refl
              (conj eq_refl (conj eq_refl eq_refl)))
    as (fuel & items & e & r' & E).
  destruct fuel as [|fuel]; [discriminate E|].
  cbn [collect generator_of app] in E.
  assert (N : next (S fuel) (start_inventory ANSWER_MODE (Some sample_parameter))
                Fresh (reader_at SERIAL [Data [0]; Data (sample_end 1)] [] false)
              = Some (Yielded None, Suspended false,
                      reader_at SERIAL []
                        ([Cleared;
                          Written (serialize INVENTORY_ISO_CONTINUE
                                     [1; 0; 0; 0; 2])] ++ [Cleared])
                        true))
    by reflexivity.
  rewrite N, silent_inventory_never_ends in E. discriminate E.
Qed.

(** *** The theorems at concrete inputs *)

(** Three replies with other opcodes and then the reply to GET_ALL_PARAM, on
    a serial line: the fourth frame is returned, nothing is flushed. *)
Lemma receive_response_retries_witness :
  let pre := [sample_frame 83 [0]; sample_frame 80 [0]; sample_frame 83 [0]] in
  let f := sample_frame 114 [0; 1; 2] in
  forallb (stray 114) pre = true
  /\ framed f = true
  /\ answers 114 f = true
  /\ (length pre < 20)%nat
  /\ receive_response 114 true true
       (reader_at SERIAL (map Data pre ++ [Data f]) [] false)
     = (Ok (Some f), reader_at SERIAL [] [] false)
  /\ get_reader_settings (reader_at SERIAL (map Data pre ++ [Data f]) [] false)
     = (Ok (mkResponse ClsReaderSettings (Some f) 0),
        reader_at SERIAL []
          ([] ++ [Cleared; Written (serialize GET_ALL_PARAM [])]) false)
  /\ (let quiet_line := reader_at SERIAL [Silence; Data f] [] false in
      let flushed := reader_at SERIAL [Data f] ([] ++ [Cleared]) false in
      attempt 114 true true quiet_line = (Ok None, flushed)
      /\ log (transport flushed) = log (transport quiet_line) ++ [Cleared]
      /\ receive_loop 20 114 true true None quiet_line = (Ok None, flushed)).
Proof.
  intros pre f.
  assert (H1 : forallb (stray 114) pre = true) by reflexivity.
  assert (H2 : framed f = true) by reflexivity.
  assert (H3 : answers 114 f = true) by reflexivity.
  assert (H4 : (length pre < 20)%nat) by (simpl; lia).
  assert (H9 : attempt 114 true true
                 (reader_at SERIAL [Silence; Data f] [] false)
               = (Ok None, reader_at SERIAL [Data f] ([] ++ [Cleared]) false))
    by reflexivity.
  destruct (receive_response_retries SERIAL 114 true true pre f [] [] false
              H1 H2 H3) as (H5 & _ & _ & H7 & H8 & H6).
  exact (conj H1 (conj H2 (conj H3 (conj H4
           (conj (H5 H4) (conj (H6 H4 eq_refl 0 eq_refl)
              (conj H9 (conj (H7 _ _ _ H9)
                 (proj1 (proj2 (H8 _ _ H9))))))))))).
Defined.

Lemma terminator_ends_stream_witness :
  let c := CallKillTag [0; 0; 0; 0] in
  let r := reader_at TCP_IP [Data (sample_end 6)] [] true in
  let r1 := reader_at TCP_IP [] [] true in
  let p := sample_parameter in
  (is_inventory r = true
   /\ receive_response (request_of c) (verify_header_of c) (loop_usb_of c) r
      = (Ok (Some (sample_end 6)), r1)
   /\ terminator_received c (is_usb r1) (sample_end 6) 18
   /\ next 1 (generator_of c) (Suspended false) r
      = Some (Yielded (Some (item_of c (sample_end 6) 18)), Suspended true, r1)
   /\ next 0 (generator_of c) (Suspended true) r1
      = Some (StopIteration, Finished, mkReader (transport r1) false))
  /\ (is_byte (StopAfter_value (stop_after p)) = true
      /\ 0 <= value p < 2 ^ 32
      /\ InventoryStatus_SUCCESS <> InventoryStatus_NO_COUNT_LABEL
      /\ inventory_reply USB sample_tag_1 InventoryStatus_SUCCESS 0
      /\ inventory_reply USB sample_tag_2 InventoryStatus_SUCCESS 0
      /\ inventory_reply USB (sample_end 1) InventoryStatus_NO_COUNT_LABEL 18
      /\ collect 4 (start_inventory ANSWER_MODE (Some p)) Fresh
           (reader_at USB
              [Data sample_tag_1; Data sample_tag_2; Data (sample_end 1)]
              [] false)
         = Some ([Some (mkResponse ClsInventory (Some sample_tag_1) 0);
                  Some (mkResponse ClsInventory (Some sample_tag_2) 0);
                  Some (mkResponse ClsInventory (Some (sample_end 1)) 18)],
                 StopIteration,
                 reader_at USB []
                   ([] ++ [Cleared;
                           Written (serialize INVENTORY_ISO_CONTINUE
                                      ([StopAfter_value (stop_after p)]
                                         ++ be_digits 4 (value p)))])
                   false)).
Proof.
  intros c r r1 p. split.
  - assert (H1 : is_inventory r = true) by reflexivity.
    assert (H2 : receive_response (request_of c) (verify_header_of c)
                   (loop_usb_of c) r = (Ok (Some (sample_end 6)), r1))
      by reflexivity.
    assert (H3 : terminator_received c (is_usb r1) (sample_end 6) 18)
      by (split; reflexivity).
    destruct (proj1 terminator_ends_stream c r r1 (sample_end 6) 18 0%nat
                H1 H2 H3) as [H4 H5].
    exact (conj H1 (conj H2 (conj H3 (conj H4 H5)))).
  - assert (H1 : is_byte (StopAfter_value (stop_after p)) = true) by reflexivity.
    assert (H2 : 0 <= value p < 2 ^ 32) by (split; [discriminate | reflexivity]).
    assert (H3 : InventoryStatus_SUCCESS <> InventoryStatus_NO_COUNT_LABEL)
      by discriminate.
    assert (H4 : inventory_reply USB sample_tag_1 InventoryStatus_SUCCESS 0)
      by (repeat split; reflexivity).
    assert (H5 : inventory_reply USB sample_tag_2 InventoryStatus_SUCCESS 0)
      by (repeat split; reflexivity).
    assert (H6 : inventory_reply USB (sample_end 1)
                   InventoryStatus_NO_COUNT_LABEL 18)
      by (repeat split; reflexivity).
    pose proof (proj2 terminator_ends_stream USB p sample_tag_1 sample_tag_2
                  (sample_end 1) 0 0 18 [] false H1 H2 H3 H4 H5 H6) as H7.
    exact (conj H1 (conj H2 (conj H3 (conj H4 (conj H5 (conj H6 H7)))))).
Defined.

Lemma stop_inventory_clears_flag_witness :
  let r := reader_at SERIAL [Data (sample_frame 2 [0])] [] true in
  let stop := Written (serialize INVENTORY_STOP []) in
  (fst (stop_inventory ANSWER_MODE r) = Ok tt
   /\ is_inventory (snd (stop_inventory ANSWER_MODE r)) = false
   /\ exists n,
        log (transport (snd (stop_inventory ANSWER_MODE r)))
        = log (transport r)
            ++ (if is_inventory r then [stop] else []) ++ repeat Cleared n)
  /\ (ACTIVE_MODE <> ANSWER_MODE
      /\ stop_inventory ACTIVE_MODE r = (Ok tt, mkReader (transport r) false))
  /\ stop_inventory ANSWER_MODE (reader_on USB [] [] [Refused USBError] true)
     = (Raise USBError, reader_on USB [] ([] ++ [stop]) [] true).
Proof.
  intros r stop. split; [|split].
  - destruct (stop_inventory_clears_flag ANSWER_MODE r) as (H1 & _ & _ & H4).
    assert (H0 : fst (stop_inventory ANSWER_MODE r) = Ok tt) by reflexivity.
    exact (conj H0 (conj (H1 H0) (H4 eq_refl))).
  - destruct (stop_inventory_clears_flag ACTIVE_MODE r) as (_ & H2 & _).
    assert (H0 : ACTIVE_MODE <> ANSWER_MODE) by discriminate.
    exact (conj H0 (H2 H0)).
  - exact (proj1 (proj2 (proj2 (stop_inventory_clears_flag ANSWER_MODE
                                  (reader_on USB [] [] [Refused USBError] true))))
             eq_refl).
Defined.

Lemma streams_terminate_witness :
  let c := CallStartInventory ANSWER_MODE (Some sample_parameter) in
  let pre := [Silence; Data sample_tag_1; Data (sample_frame 2 [0])] in
  let t := sample_end 1 in
  forallb framed_event pre = true
  /\ framed t = true
  /\ answers (request_of c) t = true
  /\ terminator_received c (usb_kind SERIAL) t 18
  /\ (exists items e r',
         collect (length pre + 3) (generator_of c) Fresh
           (reader_at SERIAL (pre ++ Data t :: [Data sample_tag_2]) [] false)
         = Some (items, e, r')
         /\ (length items <= length pre + 1)%nat
         /\ (e = StopIteration \/ exists x, e = Raised x))
  /\ (forall (work_mode : WorkMode) (r r' : Reader) (p : pc) (fuel : nat),
         p <> Fresh ->
         stop_inventory work_mode r = (Ok tt, r') ->
         collect (S fuel) (generator_of c) p r' = Some ([], StopIteration, r')).
Proof.
  intros c pre t.
  assert (H1 : forallb framed_event pre = true) by reflexivity.
  assert (H2 : framed t = true) by reflexivity.
  assert (H3 : answers (request_of c) t = true) by reflexivity.
  assert (H4 : terminator_received c (usb_kind SERIAL) t 18)
    by (repeat split; reflexivity).
  destruct (streams_terminate c SERIAL pre t 18 [Data sample_tag_2] [] false
              H1 H2 H3 H4) as [H5 H6].
  exact (conj H1 (conj H2 (conj H3 (conj H4 (conj H5 H6))))).
Defined.

Lemma usb_packet_tail_discarded_witness :
  let g := start_inventory ANSWER_MODE (Some sample_parameter) in
  let rest := [Data (sample_end 1)] in
  complete_frame sample_tag_1 = true
  /\ inventory_reply USB sample_tag_1 0 0
  /\ next 1 g (Suspended false)
       (reader_at USB (Data (sample_tag_1 ++ sample_tag_2) :: rest) [] true)
     = Some (Yielded (Some (mkResponse ClsInventory (Some sample_tag_1) 0)),
             Suspended (0 =? InventoryStatus_NO_COUNT_LABEL),
             reader_at USB rest [] true)
  /\ (forall fuel : nat,
         collect fuel g (Suspended false)
           (reader_at USB (Data (sample_tag_1 ++ sample_tag_2) :: rest) [] true)
         = collect fuel g (Suspended false)
             (reader_at USB (Data sample_tag_1 :: rest) [] true)).
Proof.
  intros g rest.
  assert (H1 : complete_frame sample_tag_1 = true) by reflexivity.
  assert (H2 : inventory_reply USB sample_tag_1 0 0)
    by (repeat split; reflexivity).
  destruct (usb_packet_tail_discarded ANSWER_MODE (Some sample_parameter)
              sample_tag_1 sample_tag_2 rest [] H1) as [H3 H4].
  exact (conj H1 (conj H2 (conj (H3 0 0 0%nat H2) H4))).
Defined.

Lemma set_power_checks_before_io_witness :
  let r := reader_at USB [Data (sample_frame 83 [0])] [] false in
  (~ (0 <= 34 <= 33) /\ set_power 34 0 r = (Raise AssertionError, r))
  /\ (0 <= 30 <= 33 /\ 0 <= 0 <= 1
      /\ exists tail,
           log (transport (snd (set_power 30 0 r)))
           = log (transport r)
               ++ Cleared :: Written (serialize SET_POWER [30; 0]) :: tail).
Proof.
  intros r.
  assert (H1 : ~ (0 <= 34 <= 33)) by lia.
  assert (H2 : 0 <= 30 <= 33) by lia.
  assert (H3 : 0 <= 0 <= 1) by lia.
  exact (conj (conj H1 (proj1 (set_power_checks_before_io 34 0 r) H1))
           (conj H2 (conj H3
              (proj2 (set_power_checks_before_io 30 0 r) H2 H3)))).
Defined.

Lemma select_mask_payload_witness :
  let r := reader_at SERIAL [Data (sample_frame 7 [0])] [] false in
  let mask := [226; 0; 17] in
  len mask <= 31
  /\ 0 <= 2 * 8 < 65536
  /\ select_mask_data mask 2 r = (Ok [0; 16; 24; 226; 0; 17; 0], r)
  /\ exists tail,
       log (transport (snd (select_mask mask 2 r)))
       = log (transport r)
           ++ Cleared
              :: Written (serialize SELECT_MASK [0; 16; 24; 226; 0; 17; 0])
              :: tail.
Proof.
  intros r mask.
  assert (H1 : len mask <= 31) by (unfold len; simpl; lia).
  assert (H2 : 0 <= 2 * 8 < 65536) by lia.
  destruct (select_mask_payload mask 2 r H1 H2) as [H3 H4].
  exact (conj H1 (conj H2 (conj H3 H4))).
Defined.

(** ** The other operations *)

Section Discipline.

Context {C : Catalog} {O : Commands}.

Lemma pure_assert (c : bool) : pure (assert c).
Proof. destruct c; [apply pure_ret | apply pure_raise]. Qed.

Lemma pure_bytearray (l : list Z) : pure (bytearray l).
Proof.
  unfold bytearray. destruct (forallb is_byte l);
    [apply pure_ret | apply pure_raise].
Qed.

Lemma pure_to_bytes (n : nat) (v : Z) : pure (to_bytes n v).
Proof.
  unfold to_bytes. destruct (to_bytes_big n v);
    [apply pure_ret | apply pure_raise].
Qed.

Lemma pure_construct_reply (k : reply_class) (x : option bytes) :
  pure (construct_reply k x).
Proof.
  unfold construct_reply.
  destruct (reply_init k x); [apply pure_ret | apply pure_raise].
Qed.

Lemma pure_select_mask_data (mask : bytes) (start_address : Z) :
  pure (select_mask_data mask start_address).
Proof.
  unfold select_mask_data.
  apply pure_bind; [apply pure_to_bytes | intros ?].
  apply pure_bind; [apply pure_bytearray | intros ?]. apply pure_ret.
Qed.

Lemma sent_log (frame : bytes) (r : Reader) :
  log (transport (sent frame r)) = log (transport r) ++ [Cleared; Written frame].
Proof.
  destruct r as [[k b script l w] busy]. unfold sent, clear_buffer, write_bytes.
  destruct k; cbn [transport connection_type inbuf rx log tx snd];
    now rewrite <- app_assoc.
Qed.

Lemma send_request_sent (opcode : Z) (data : bytes) (r : Reader) :
  send_request opcode data true r
  = (write_outcome (transport r), sent (serialize opcode data) r).
Proof.
  destruct r as [[k b script l w] busy].
  unfold send_request, bind, transport_clear_buffer, transport_write_bytes,
    sent, clear_buffer, write_bytes.
  destruct k; reflexivity.
Qed.

Lemma one_command_exchange {A} (opcode : Z) (data : bytes)
    (wrap : option bytes -> M A) :
  (forall x, pure (wrap x)) -> one_command opcode (exchange opcode data wrap).
Proof.
  intros Hw r. right. exists data. cbv zeta.
  destruct (write_outcome (transport r)) as [u|e] eqn:Hout;
    unfold exchange; unfold bind at 1; rewrite send_request_sent, Hout;
    [|reflexivity].
  set (r1 := sent (serialize opcode data) r).
  pose proof (quiet_receive_response opcode true true r1) as Hq.
  unfold bind.
  destruct (receive_response opcode true true r1) as [[x|e] r2];
    cbn [snd] in *; [|exact Hq].
  now rewrite (Hw x r2).
Qed.

Lemma one_command_pure_bind {A B} (opcode : Z) (m : M A) (k : A -> M B) :
  pure m -> (forall a, one_command opcode (k a)) ->
  one_command opcode (bind m k).
Proof.
  intros Hm Hk r. unfold bind. specialize (Hm r).
  destruct (m r) as [[a|e] r1]; cbn [snd] in Hm; subst r1.
  - apply Hk.
  - left. split; [reflexivity | eexists; reflexivity].
Qed.

Lemma one_command_then_pure {A B} (opcode : Z) (m : M A) (k : A -> M B) :
  one_command opcode m -> (forall a, pure (k a)) ->
  one_command opcode (bind m k).
Proof.
  intros Hm Hk r. specialize (Hm r). unfold bind.
  destruct Hm as [[Hs (e & He)] | (data & Hm)].
  - left. destruct (m r) as [[a|e'] r1]; cbn [fst snd] in *;
      [discriminate|]. subst r1. split; [reflexivity | eexists; reflexivity].
  - right. exists data. cbv zeta in *.
    destruct (write_outcome (transport r)) as [u|e].
    + destruct (m r) as [[a|e'] r1]; cbn [snd] in *; [|exact Hm].
      now rewrite (Hk a r1).
    + rewrite Hm. reflexivity.
Qed.

Ltac one_command_steps :=
  repeat first
    [ apply one_command_exchange; intros ?
    | apply one_command_pure_bind; [|intros ?]
    | apply pure_assert | apply pure_bytearray | apply pure_to_bytes
    | apply pure_select_mask_data
    | apply pure_construct | apply pure_construct_reply | apply pure_ret
    | apply pure_bind; [|intros ?]
    | apply pure_if ].

(** X1.  Every one-shot operation of the reader (init, reset_factory,
    get_device_info, set_power, set_relay, the protocol, settings, network,
    temperature, antenna power, output control and inventory range getters
    and setters, select_mask, get_mask_inventory_permission) has one of three
    outcomes.  It raises with the reader exactly as it was, hence before any
    transport call.  Or it flushes and calls [write_bytes] with one frame,
    that of its own command, and that write raises: the exception is the
    result, and nothing is read.  Or that write returns, and after it the
    operation only reads and flushes: it writes nothing more, and changes
    neither [is_inventory] nor the kind of transport. *)
Theorem one_shot_sends_one_command (c : one_shot_call) (r : Reader) :
  (snd (perform c r) = r /\ exists e, fst (perform c r) = Raise e)
  \/ (exists data,
        let r1 := sent (serialize (command_of c) data) r in
        log (transport r1)
        = log (transport r)
            ++ [Cleared; Written (serialize (command_of c) data)]
        /\ is_inventory r1 = is_inventory r
        /\ match write_outcome (transport r) with
           | Raise e => perform c r = (Raise e, r1)
           | Ok _ =>
               is_inventory (snd (perform c r)) = is_inventory r
               /\ connection_type (transport (snd (perform c r)))
                  = connection_type (transport r)
               /\ exists n,
                    log (transport (snd (perform c r)))
                    = log (transport r1) ++ repeat Cleared n
           end).
Proof.
  assert (H : one_command (command_of c) (perform c)).
  { destruct c; cbn [perform command_of]; unfold discard;
      (apply one_command_then_pure; [|intros ?; apply pure_ret]);
      unfold init, reset_factory, get_device_info, set_relay,
        get_rfid_protocol, set_rfid_protocol, set_reader_settings,
        get_network_settings, set_network_settings,
        get_remote_network_settings, set_remote_network_settings,
        set_max_temperature, get_current_temperature, get_antenna_power,
        set_antenna_power, get_output_control, set_output_control,
        get_mask_inventory_permission, get_inventory_range,
        set_inventory_range;
      unfold set_power, select_mask, get_reader_settings;
      one_command_steps.
    (* init *)
    destruct x as [b|]; [|apply pure_ret].
    destruct (len b <=? 0); one_command_steps. }
  destruct (H r) as [Hl | (data & Hr)]; [now left | right].
  exists data. cbv zeta in *. split; [apply sent_log|].
  split; [reflexivity|].
  destruct (write_outcome (transport r)) as [u|e]; [|exact Hr].
  destruct Hr as (Hi & Hc & n & Hq). repeat split; auto.
  - rewrite Hc. destruct r as [[k b script l w] busy].
    unfold sent, clear_buffer, write_bytes. destruct k; reflexivity.
  - now exists n.
Qed.

End Discipline.

(** ** What a one-shot receive returns *)

Section OneShotReceive.

Context {C : Catalog} {O : Commands}.

Lemma py_index_4_bound (b : bytes) (v : Z) :
  py_index b 4 = Some v -> 5 <= len b.
Proof.
  unfold py_index. change (4 <? 0) with false. cbv iota.
  change (Z.to_nat 4) with 4%nat. intros H.
  assert (Hlt : (4 < length b)%nat).
  { apply nth_error_Some. intros Hn. rewrite Hn in H. discriminate H. }
  unfold len. lia.
Qed.

Lemma usb_read_until_grows (all_len : Z) :
  forall (script : list RxEvent) (raw_resp raw' : bytes) (script' : list RxEvent),
    usb_read_until all_len raw_resp script = (Ok raw', script') ->
    len raw_resp <= len raw'.
Proof.
  induction script as [|[p|] script IH]; intros raw_resp raw' script';
    cbn [usb_read_until]; destruct (len raw_resp <? all_len);
    intros H; try discriminate; try (inversion H; subst; lia).
  apply IH in H. unfold len in *. rewrite length_app in H. lia.
Qed.

Lemma receive_prefix (verify_header : bool) (r r' : Reader) (raw_resp : bytes) :
  receive verify_header true r = (Ok (Some raw_resp), r') -> 5 <= len raw_resp.
Proof.
  unfold receive.
  assert (Hsock :
    (response_header_section <- transport_read_bytes 5 ;;
     if (len response_header_section <=? 0)
        || (negb verify_header
            && negb (nth 0 response_header_section 0 =? HEADER))
     then transport_clear_buffer ;;; ret None
     else
       assert (len response_header_section =? 5) ;;;
       body_length <- index response_header_section (-1) ;;
       response_body_section <- transport_read_bytes (body_length + 2) ;;
       ret (Some (response_header_section ++ response_body_section))) r
    = (Ok (Some raw_resp), r') -> 5 <= len raw_resp).
  { unfold bind at 1.
    destruct (transport_read_bytes 5 r) as [[hdr|e] r1]; [|discriminate].
    destruct ((len hdr <=? 0)
              || negb verify_header && negb (nth 0 hdr 0 =? HEADER));
      [intros H; discriminate H|].
    unfold bind at 1, assert.
    destruct (Z.eqb_spec (len hdr) 5) as [Hh|_]; [|intros H; discriminate H].
    cbn [ret]. unfold bind at 1, index.
    destruct (py_index hdr (-1)) as [body_length|]; [|intros H; discriminate H].
    cbn [ret]. unfold bind at 1.
    destruct (transport_read_bytes (body_length + 2) r1) as [[body|e] r2];
      [|intros H; discriminate H].
    intros H. inversion H; subst. unfold len in *. rewrite length_app. lia. }
  destruct (connection_type (transport r)); try exact Hsock.
  clear Hsock. unfold bind at 1.
  destruct (transport_read_bytes 0 r) as [[raw0|e] r1]; [|discriminate].
  unfold bind at 1, index.
  destruct (py_index raw0 4) as [length|] eqn:Hi; [|intros H; discriminate H].
  apply py_index_4_bound in Hi. cbn [ret]. unfold bind at 1, usb_loop.
  destruct (usb_read_until (4 + length + 2) raw0 (rx (transport r1)))
    as [[raw1|e] script'] eqn:Hu; [|intros H; discriminate H].
  apply usb_read_until_grows in Hu. intros H. inversion H; subst. lia.
Qed.

Lemma attempt_prefix (request : Z) (verify_header : bool) (r r' : Reader)
    (raw_resp : bytes) (matched : bool) :
  attempt request verify_header true r = (Ok (Some (raw_resp, matched)), r') ->
  5 <= len raw_resp.
Proof.
  unfold attempt. unfold bind at 1.
  destruct (receive verify_header true r) as [[[raw0|]|e] r1] eqn:Hr;
    try discriminate.
  apply receive_prefix in Hr. unfold bind.
  destruct ((0 <? len raw0) && negb (nth 0 raw0 0 =? HEADER));
    cbn; intros H; inversion H; subst; exact Hr.
Qed.

Lemma receive_loop_prefix (request : Z) (verify_header : bool) :
  forall (n : nat) (before : option bytes) (r r' : Reader) (raw_resp : bytes),
    (forall b, before = Some b -> 5 <= len b) ->
    receive_loop n request verify_header true before r
    = (Ok (Some raw_resp), r') ->
    5 <= len raw_resp.
Proof.
  induction n as [|n IH]; intros before r r' raw_resp Hb.
  - cbn. intros H. inversion H; subst. now apply Hb.
  - rewrite receive_loop_S.
    destruct (attempt request verify_header true r)
      as [[[[raw0 [|]]|]|e] r1] eqn:Ha; try discriminate.
    + intros H. inversion H; subst. now apply attempt_prefix in Ha.
    + apply IH. intros b Hbb. inversion Hbb; subst.
      now apply attempt_prefix in Ha.
Qed.

(** X2.  Whatever bytes a one-shot receive ([loop_usb=True]) returns, on any
    transport and from any input, they are at least the five bytes of the
    frame prefix: [raw_response[2:4]] is a whole opcode, and the result is
    never an empty byte string. *)
Theorem one_shot_response_has_prefix (request : Z) (verify_header : bool)
    (r r' : Reader) (raw_resp : bytes) :
  receive_response request verify_header true r = (Ok (Some raw_resp), r') ->
  5 <= len raw_resp /\ length (py_slice raw_resp 2 4) = 2%nat.
Proof.
  intros H. unfold receive_response in H.
  apply receive_loop_prefix in H; [|discriminate].
  split; [exact H|]. rewrite py_slice_nonneg by lia.
  change (Z.to_nat (4 - 2)) with 2%nat. change (Z.to_nat 2) with 2%nat.
  rewrite length_firstn, length_skipn. unfold len in H. lia.
Qed.

Lemma receive_response_silent_serial (request : Z)
    (verify_header loop_usb : bool) (script : list RxEvent) (l : list IoOp)
    (busy : bool) :
  hd Silence script = Silence ->
  receive_response request verify_header loop_usb (reader_at SERIAL script l busy)
  = (Ok None, reader_at SERIAL (tl script) (l ++ [Cleared]) busy).
Proof.
  intros H. destruct script as [|[p|] rest]; cbn in H; try discriminate;
    reflexivity.
Qed.

(** X3.  [init] hands the constructor of [Response] only bytes that hold a
    frame prefix; and against a reader that stays silent on a serial line it
    returns [None], having flushed, written MODULE_INIT and flushed again,
    where [reset_factory], which has no such test, goes on to
    [Response(None)]. *)
Theorem init_tolerates_silence :
  (forall (r r' : Reader) (response : Response),
      init r = (Ok (Some response), r') ->
      exists b, raw response = Some b /\ 5 <= len b)
  /\ (forall (script : list RxEvent) (l : list IoOp) (busy : bool),
        hd Silence script = Silence ->
        let r' := reader_at SERIAL (tl script)
                    (l ++ [Cleared; Written (serialize MODULE_INIT []); Cleared])
                    busy in
        let r'' := reader_at SERIAL (tl script)
                     (l ++ [Cleared; Written (serialize REBOOT []); Cleared])
                     busy in
        init (reader_at SERIAL script l busy) = (Ok None, r')
        /\ reset_factory (reader_at SERIAL script l busy)
           = construct ClsResponse None r'').
Proof.
  split.
  - intros r r' response. unfold init, exchange. unfold bind at 1.
    destruct (send_request MODULE_INIT [] true r) as [[u|e] r1];
      [|discriminate].
    unfold bind at 1.
    destruct (receive_response MODULE_INIT true true r1) as [[[b|]|e] r2] eqn:Hr;
      try discriminate.
    apply receive_loop_prefix in Hr; [|discriminate].
    destruct (len b <=? 0); [discriminate|].
    unfold bind, construct.
    destruct (response_init ClsResponse (Some b)) as [s|e]; [|discriminate].
    cbn. intros H. inversion H; subst. exists b. auto.
  - intros script l busy Hs r' r''. subst r' r''.
    split; unfold init, reset_factory, exchange; unfold bind at 1;
      rewrite send_request_at; unfold bind at 1;
      rewrite receive_response_silent_serial by assumption;
      rewrite <- app_assoc; reflexivity.
Qed.

End OneShotReceive.

(** ** Setters: checks and payloads *)

Section Setters.

Context {C : Catalog} {O : Commands}.

Lemma exchange_shape (opcode : Z) (data : bytes) (k : response_class)
    (r : Reader) :
  exists (res : result Response) (r' : Reader) (n : nat),
    exchange opcode data (construct k) r = (res, r')
    /\ is_inventory r' = is_inventory r
    /\ log (transport r')
       = log (transport r)
           ++ [Cleared; Written (serialize opcode data)] ++ repeat Cleared n
    /\ (forall response, res = Ok response -> cls response = k).
Proof.
  destruct (send_then_quiet opcode data
              (raw_response <- receive_response opcode true true ;;
               construct k raw_response) r) as (Hi & _ & n & Hq).
  { apply quiet_bind; [apply quiet_receive_response|].
    intros ?. apply quiet_construct. }
  exists (fst (exchange opcode data (construct k) r)),
    (snd (exchange opcode data (construct k) r)), n.
  split; [apply surjective_pairing|]. split; [exact Hi|]. split; [exact Hq|].
  unfold exchange, bind.
  destruct (send_request opcode data true r) as [[u|e] r1]; [|discriminate].
  destruct (receive_response opcode true true r1) as [[x|e] r2];
    [|discriminate].
  unfold construct. destruct (response_init k x) as [s|e]; [|discriminate].
  cbn. intros ? H. inversion H. reflexivity.
Qed.

Lemma bytearray_ok (l : list Z) (r : Reader) :
  forallb is_byte l = true -> bytearray l r = (Ok l, r).
Proof. intros H. unfold bytearray. now rewrite H. Qed.

Lemma is_byte_range (v : Z) : 0 <= v <= 255 -> is_byte v = true.
Proof.
  intros H. unfold is_byte. apply andb_true_iff.
  split; [apply Z.leb_le | apply Z.ltb_lt]; lia.
Qed.

Lemma in_range_true (v hi : Z) :
  0 <= v <= hi -> (0 <=? v) && (v <=? hi) = true.
Proof. intros H. apply andb_true_iff. split; apply Z.leb_le; lia. Qed.

Lemma in_range_false (v hi : Z) :
  ~ (0 <= v <= hi) -> (0 <=? v) && (v <=? hi) = false.
Proof.
  intros H. apply andb_false_iff.
  destruct (Z.leb_spec 0 v); [right; apply Z.leb_gt; lia | now left].
Qed.

(** X4.  [set_relay] with a valid time outside 0..255 raises on its
    assertion with the reader as it was; otherwise it flushes and writes
    RELEASE_CLOSE_RELAY with the two payload bytes [1, valid_time] to release
    the relay and [2, valid_time] to close it, and then only reads. *)
Theorem set_relay_checks_and_encodes (release : bool) (valid_time : Z)
    (r : Reader) :
  (~ (0 <= valid_time <= 255) ->
   set_relay release valid_time r = (Raise AssertionError, r))
  /\ (0 <= valid_time <= 255 ->
      exists n,
        log (transport (snd (set_relay release valid_time r)))
        = log (transport r)
            ++ [Cleared;
                Written (serialize RELEASE_CLOSE_RELAY
                           [if release then 1 else 2; valid_time])]
            ++ repeat Cleared n).
Proof.
  split; intros H; unfold set_relay; unfold bind at 1.
  - rewrite in_range_false by assumption. reflexivity.
  - rewrite in_range_true by assumption. cbn [assert ret]. unfold bind at 1.
    rewrite bytearray_ok.
    2:{ cbn [forallb]. rewrite (is_byte_range valid_time) by assumption.
        destruct release; reflexivity. }
    destruct (exchange_shape RELEASE_CLOSE_RELAY
                [if release then 1 else 2; valid_time] ClsResponse r)
      as (res & r' & n & -> & _ & Hl & _).
    exists n. exact Hl.
Qed.

(** X5.  [set_inventory_range] raises on its assertions, with the reader as
    it was, unless both the start address and the length lie in 0..255; with
    both in range (SET being a byte) it flushes and writes INVENTORY_RANGE
    with the payload [SET, start_address, length, 0, 0], the last two being
    the reserve bytes, and then only reads. *)
Theorem set_inventory_range_checks_and_encodes (start_address length : Z)
    (r : Reader) :
  (~ (0 <= start_address <= 255 /\ 0 <= length <= 255) ->
   set_inventory_range start_address length r = (Raise AssertionError, r))
  /\ (0 <= start_address <= 255 -> 0 <= length <= 255 ->
      is_byte CommandOption_SET = true ->
      exists n,
        log (transport (snd (set_inventory_range start_address length r)))
        = log (transport r)
            ++ [Cleared;
                Written (serialize INVENTORY_RANGE
                           [CommandOption_SET; start_address; length; 0; 0])]
            ++ repeat Cleared n).
Proof.
  split.
  - intros H. unfold set_inventory_range. unfold bind at 1.
    destruct (Z_le_dec 0 start_address) as [H1|H1];
      [destruct (Z_le_dec start_address 255) as [H2|H2]|].
    + rewrite in_range_true by lia. cbn [assert ret]. unfold bind at 1.
      rewrite in_range_false by lia. reflexivity.
    + rewrite in_range_false by lia. reflexivity.
    + rewrite in_range_false by lia. reflexivity.
  - intros Ha Hl Hset. unfold set_inventory_range. unfold bind at 1.
    rewrite in_range_true by assumption. cbn [assert ret]. unfold bind at 1.
    rewrite in_range_true by assumption. cbn [assert ret]. unfold bind at 1.
    rewrite bytearray_ok by (cbn [forallb]; now rewrite Hset).
    unfold bind at 1.
    rewrite bytearray_ok
      by (cbn [forallb]; now rewrite !is_byte_range by assumption).
    unfold bind at 1. rewrite bytearray_ok by reflexivity.
    destruct (exchange_shape INVENTORY_RANGE
                (([CommandOption_SET] ++ [start_address; length]) ++ [0; 0])
                ClsResponse r)
      as (res & r' & n & -> & _ & Hlog & _).
    exists n. exact Hlog.
Qed.

(** X6.  [set_mask_inventory_permission] (SET and the value of
    StopAfter.NUMBER being bytes) never changes [is_inventory].  When the
    exchange of the setting raises, that is the outcome and nothing more is
    done.  When it gives a response, the call flushes, writes an
    INVENTORY_ISO_CONTINUE for two cycles and, with no flush and no read in
    between or after, an INVENTORY_STOP; it returns the response to the
    setting unless one of the two writes raises.  So with the reply to the
    setting at hand the call returns it, the three commands have been
    written, and what the reader sends after that reply is left unread: the
    inventory that was started is not tracked. *)
Theorem set_mask_inventory_permission_kicks_inventory (command_data : bytes) :
  is_byte CommandOption_SET = true ->
  is_byte (StopAfter_value NUMBER) = true ->
  let setting := serialize SET_GET_PERMISSION
                   ([CommandOption_SET] ++ command_data) in
  let start := serialize INVENTORY_ISO_CONTINUE
                 ([StopAfter_value NUMBER] ++ [0; 0; 0; 2]) in
  let stop := serialize INVENTORY_STOP [] in
  (forall r : Reader,
      let out := set_mask_inventory_permission command_data r in
      is_inventory (snd out) = is_inventory r
      /\ out
         = match exchange SET_GET_PERMISSION
                   ([CommandOption_SET] ++ command_data)
                   (construct ClsResponse) r with
           | (Raise e, r1) => (Raise e, r1)
           | (Ok response, r1) =>
               let r2 := sent start r1 in
               let r3 := mkReader (snd (write_bytes stop (transport r2)))
                           (is_inventory r2) in
               match write_outcome (transport r1) with
               | Raise e => (Raise e, r2)
               | Ok _ =>
                   match write_outcome (transport r2) with
                   | Raise e => (Raise e, r3)
                   | Ok _ => (Ok response, r3)
                   end
               end
           end)
  /\ (forall (k : ConnectionType) (f : bytes) (s : Z) (rest : list RxEvent)
        (l : list IoOp) (busy : bool),
        framed f = true ->
        answers SET_GET_PERMISSION f = true ->
        response_init ClsResponse (Some f) = Ok s ->
        set_mask_inventory_permission command_data
          (reader_at k (Data f :: rest) l busy)
        = (Ok (mkResponse ClsResponse (Some f) s),
           reader_at k rest
             (l ++ [Cleared; Written setting;
                    Cleared; Written start; Written stop])
             busy)).
Proof.
  intros Hset Hnum setting start stop.
  assert (Heq : forall r : Reader,
    set_mask_inventory_permission command_data r
    = match exchange SET_GET_PERMISSION
              ([CommandOption_SET] ++ command_data)
              (construct ClsResponse) r with
      | (Raise e, r1) => (Raise e, r1)
      | (Ok response, r1) =>
          let r2 := sent start r1 in
          let r3 := mkReader (snd (write_bytes stop (transport r2)))
                      (is_inventory r2) in
          match write_outcome (transport r1) with
          | Raise e => (Raise e, r2)
          | Ok _ =>
              match write_outcome (transport r2) with
              | Raise e => (Raise e, r3)
              | Ok _ => (Ok response, r3)
              end
          end
      end).
  { intros r. unfold set_mask_inventory_permission. unfold bind at 1.
    rewrite bytearray_ok by (cbn [forallb]; now rewrite Hset).
    unfold bind at 1.
    destruct (exchange SET_GET_PERMISSION ([CommandOption_SET] ++ command_data)
                (construct ClsResponse) r) as [[response|e] r1];
      [|reflexivity].
    unfold bind at 1.
    rewrite bytearray_ok by (cbn [forallb]; now rewrite Hnum).
    unfold bind at 1. change (to_bytes 4 2 r1) with (Ok [0; 0; 0; 2], r1).
    cbv iota beta zeta. unfold bind at 1. rewrite send_request_sent.
    fold start.
    destruct (write_outcome (transport r1)) as [u|e]; [|reflexivity].
    unfold bind at 1.
    change (send_request INVENTORY_STOP [] false (sent start r1))
      with (write_outcome (transport (sent start r1)),
            mkReader (snd (write_bytes stop (transport (sent start r1))))
              (is_inventory (sent start r1))).
    destruct (write_outcome (transport (sent start r1))); reflexivity. }
  split.
  - intros r out. split; [|apply Heq].
    unfold out. rewrite Heq.
    destruct (exchange_shape SET_GET_PERMISSION
                ([CommandOption_SET] ++ command_data) ClsResponse r)
      as (res & r1 & n & -> & Hf & _).
    destruct res as [response|e]; [|exact Hf]. cbv zeta.
    destruct (write_outcome (transport r1)); [|exact Hf].
    destruct (write_outcome (transport (sent start r1))); exact Hf.
  - intros k f s rest l busy Hf Ha Hs. rewrite Heq.
    unfold exchange. unfold bind at 1. rewrite send_request_at.
    unfold bind at 1. rewrite receive_response_data by assumption.
    unfold construct. rewrite Hs. cbn [ret]. cbv zeta.
    unfold sent, reader_at, write_outcome, write_bytes, clear_buffer.
    destruct k; cbn [transport connection_type inbuf rx log tx is_inventory
                     snd tl];
      rewrite <- !app_assoc; reflexivity.
Qed.

End Setters.

(** ** The first resumption of a streaming call *)

Section Prologues.

Context {C : Catalog}.

Lemma to_bytes_2_ok (v : Z) (r : Reader) :
  0 <= v <= 65535 -> to_bytes 2 v r = (Ok (be_digits 2 v), r).
Proof.
  intros H. unfold to_bytes, to_bytes_big.
  assert (E : (0 <=? v) && (v <? 256 ^ Z.of_nat 2) = true).
  { apply andb_true_iff. split; [apply Z.leb_le | apply Z.ltb_lt];
      change (256 ^ Z.of_nat 2) with 65536; lia. }
  now rewrite E.
Qed.

(** X7.  [write_memory] checks its arguments on the first resumption, before
    it sets [is_inventory] and before any transport call: empty data, a start
    address outside 0..65535 or a word count outside 1..255 raise
    AssertionError with the reader as it was.  A [length] of 0 stands for the
    length of the data.  With valid arguments (and a bank value that is a
    byte) the command written is WRITE_ISO_TAG with the payload option 0,
    password, bank, start address on two bytes, word count, data. *)
Theorem write_memory_first_resumption (memory_bank : Z) (data : bytes)
    (start_address length : Z) (access_password : bytes) :
  let count := if length =? 0 then len data else length in
  let valid := 0 < len data /\ 0 <= start_address <= 65535
               /\ 0 < count <= 255 in
  let g := write_memory memory_bank data start_address length access_password in
  (~ valid ->
   forall fuel r, next fuel g Fresh r = Some (Raised AssertionError, Finished, r))
  /\ (valid -> is_byte memory_bank = true ->
      forall k script l busy,
        prologue g (reader_at k script l busy)
        = (Ok tt,
           reader_at k script
             (l ++ [Cleared;
                    Written (serialize WRITE_ISO_TAG
                               ([0] ++ access_password ++ [memory_bank]
                                  ++ be_digits 2 start_address ++ [count]
                                  ++ data))])
             true)).
Proof.
  intros count valid g. subst valid g. split.
  - intros H fuel r. cbn [next prologue write_memory]. fold count.
    unfold bind at 1, assert.
    destruct (Z.ltb_spec 0 (len data)) as [H1|H1]; [|reflexivity].
    cbn [ret]. unfold bind at 1.
    assert (E : ((0 <=? start_address) && (start_address <=? 65535))
                && ((0 <? count) && (count <=? 255)) = false).
    { apply andb_false_iff.
      destruct (Z_le_dec 0 start_address);
        [destruct (Z_le_dec start_address 65535)|].
      - right. apply andb_false_iff.
        destruct (Z.ltb_spec 0 count); [right; apply Z.leb_gt; lia | now left].
      - left. apply in_range_false. lia.
      - left. apply in_range_false. lia. }
    rewrite E. reflexivity.
  - intros (H1 & H2 & H3) Hb k script l busy.
    cbn [prologue write_memory]. fold count.
    unfold bind at 1, assert.
    destruct (Z.ltb_spec 0 (len data)) as [_|?]; [|lia].
    cbn [ret]. unfold bind at 1.
    assert (E : ((0 <=? start_address) && (start_address <=? 65535))
                && ((0 <? count) && (count <=? 255)) = true).
    { rewrite in_range_true by assumption. cbn [andb]. apply andb_true_iff.
      split; [apply Z.ltb_lt | apply Z.leb_le]; lia. }
    rewrite E. cbn [ret]. unfold bind at 1. cbn [set_is_inventory].
    unfold bind at 1. rewrite bytearray_ok by (cbn [forallb]; now rewrite Hb).
    unfold bind at 1. rewrite to_bytes_2_ok by assumption.
    unfold bind at 1.
    rewrite bytearray_ok
      by (cbn [forallb]; rewrite is_byte_range by lia; reflexivity).
    apply (send_request_at WRITE_ISO_TAG _ k script l true).
Qed.

(** X8.  [read_memory] likewise: a start address outside 0..65535 or a
    length outside 0..255 raises AssertionError on the first resumption with
    the reader as it was, [is_inventory] included; with valid arguments the
    command written is READ_ISO_TAG with the payload option 0, password,
    bank, start address on two bytes, length, and [is_inventory] is set. *)
Theorem read_memory_first_resumption (memory_bank start_address length : Z)
    (access_password : bytes) :
  let valid := 0 <= start_address <= 65535 /\ 0 <= length <= 255 in
  let g := read_memory memory_bank start_address length access_password in
  (~ valid ->
   forall fuel r, next fuel g Fresh r = Some (Raised AssertionError, Finished, r))
  /\ (valid -> is_byte memory_bank = true ->
      forall k script l busy,
        prologue g (reader_at k script l busy)
        = (Ok tt,
           reader_at k script
             (l ++ [Cleared;
                    Written (serialize READ_ISO_TAG
                               ([0] ++ access_password ++ [memory_bank]
                                  ++ be_digits 2 start_address ++ [length]))])
             true)).
Proof.
  intros valid g. subst valid g. split.
  - intros H fuel r. cbn [next prologue read_memory]. unfold bind at 1.
    assert (E : ((0 <=? start_address) && (start_address <=? 65535))
                && ((0 <=? length) && (length <=? 255)) = false).
    { apply andb_false_iff.
      destruct (Z_le_dec 0 start_address);
        [destruct (Z_le_dec start_address 65535)|].
      - right. apply in_range_false. lia.
      - left. apply in_range_false. lia.
      - left. apply in_range_false. lia. }
    rewrite E. reflexivity.
  - intros (H1 & H2) Hb k script l busy. cbn [prologue read_memory].
    unfold bind at 1. rewrite !in_range_true by assumption.
    cbn [andb assert ret]. unfold bind at 1. cbn [set_is_inventory].
    unfold bind at 1. rewrite bytearray_ok by (cbn [forallb]; now rewrite Hb).
    unfold bind at 1. rewrite to_bytes_2_ok by assumption.
    unfold bind at 1.
    rewrite bytearray_ok
      by (cbn [forallb]; rewrite is_byte_range by lia; reflexivity).
    apply (send_request_at READ_ISO_TAG _ k script l true).
Qed.

Lemma quiet_pure {A} (m : M A) : pure m -> quiet m.
Proof. intros H r. rewrite (H r). apply reads_only_refl. Qed.

Lemma quiet_try_except {A} (m : M A) (caught : exn -> bool) (h : M A) :
  quiet m -> quiet h -> quiet (try_except m caught h).
Proof.
  intros Hm Hh r. unfold try_except. specialize (Hm r).
  destruct (m r) as [[a|e] r1]; cbn [snd] in *; [exact Hm|].
  destruct (caught e); [|exact Hm].
  eapply reads_only_trans; [exact Hm | apply Hh].
Qed.

Lemma quiet_inventory_body : quiet inventory_body.
Proof.
  unfold inventory_body. apply quiet_bind.
  - apply quiet_try_except; [|apply quiet_ret].
    apply quiet_bind; [apply quiet_receive_response | intros ?; apply quiet_ret].
  - intros [[response|]|]; try apply quiet_ret.
    apply quiet_pure, pure_inventory_frame.
Qed.

(** A loop whose turns only read and flush writes nothing, however it ends. *)
Lemma loop_quiet (bd : M flow) :
  quiet bd ->
  forall (fuel : nat) (r r' : Reader) (ev : gen_event) (p' : pc),
    loop fuel bd r = Some (ev, p', r') ->
    connection_type (transport r') = connection_type (transport r)
    /\ exists n, log (transport r') = log (transport r) ++ repeat Cleared n.
Proof.
  intros Hq. induction fuel as [|fuel IH]; intros r r' ev p'; [discriminate|].
  cbn [loop]. destruct (is_inventory r).
  - destruct (Hq r) as (_ & Hc & n & Hl).
    destruct (bd r) as [[[|item b]|e] r1]; cbn [snd] in *.
    + intros H. destruct (IH _ _ _ _ H) as (Hc' & m & Hl').
      split; [congruence|]. exists (n + m)%nat.
      now rewrite Hl', Hl, <- app_assoc, repeat_app.
    + intros H. inversion H; subst. split; [exact Hc | now exists n].
    + intros H. inversion H; subst. split; [exact Hc | now exists n].
  - unfold leave_loop. intros H. inversion H; subst. cbn [transport].
    split; [reflexivity|]. exists 0%nat. now rewrite app_nil_r.
Qed.

(** X9.  Outside ANSWER_MODE [start_inventory] sends nothing.  Whatever the
    parameter, what precedes the loop only sets [is_inventory]; the first
    resumption, however it ends, has called [write_bytes] not once: it has
    read, and flushed only where the receive does (a read that returned
    nothing, bytes that do not start with HEADER).  A reply that is there is
    yielded at once, with nothing flushed. *)
Theorem start_inventory_listens (work_mode : WorkMode)
    (p : option AnswerModeInventoryParameter) :
  work_mode <> ANSWER_MODE ->
  (forall r : Reader,
      prologue (start_inventory work_mode p) r
      = (Ok tt, mkReader (transport r) true))
  /\ (forall (fuel : nat) (r r' : Reader) (ev : gen_event) (p' : pc),
        next fuel (start_inventory work_mode p) Fresh r = Some (ev, p', r') ->
        connection_type (transport r') = connection_type (transport r)
        /\ exists n,
             log (transport r') = log (transport r) ++ repeat Cleared n)
  /\ (forall (k : ConnectionType) (f : bytes) (st s : Z)
        (rest : list RxEvent) (l : list IoOp) (busy : bool) (fuel : nat),
        inventory_reply k f st s ->
        next (S fuel) (start_inventory work_mode p) Fresh
          (reader_at k (Data f :: rest) l busy)
        = Some (Yielded (Some (mkResponse ClsInventory (Some f) s)),
                Suspended (st =? InventoryStatus_NO_COUNT_LABEL),
                reader_at k rest l true)).
Proof.
  intros Hw.
  assert (E : forall r : Reader,
    prologue (start_inventory work_mode p) r
    = (Ok tt, mkReader (transport r) true)).
  { intros r. destruct work_mode; [congruence | reflexivity | reflexivity]. }
  split; [exact E|]. split.
  - intros fuel r r' ev p'. cbn [next]. rewrite E. cbn [body start_inventory].
    intros H. apply (loop_quiet _ quiet_inventory_body) in H. exact H.
  - intros k f st s rest l busy fuel Hf. cbn [next]. rewrite E.
    apply loop_yield; [reflexivity|].
    cbn [body start_inventory]. now apply inventory_body_data.
Qed.

(** X10.  When the first resumption of a streaming call raises before the
    loop, one of two things has happened.  Either it raised on its arguments
    (an assertion, a value that is no byte, a count that does not fit, a
    missing parameter) and the transport has not been touched: nothing was
    flushed, written or read; [kill_tag], which checks nothing, never ends
    so.  Or the write of its command raised: the buffer was flushed,
    [write_bytes] called with the frame of the command, nothing read, and
    [is_inventory] is set.  For [start_inventory] and [kill_tag] the flag
    has been set in either case, and it stays set. *)
Theorem prologue_failure_precedes_io (c : streaming_call) (r r' : Reader)
    (e : exn) :
  prologue (generator_of c) r = (Raise e, r') ->
  (match c with
   | CallStartInventory _ _ | CallKillTag _ => is_inventory r' = true
   | _ => True
   end)
  /\ ((transport r' = transport r /\ forall pw, c <> CallKillTag pw)
      \/ (exists data,
             write_outcome (transport r) = Raise e
             /\ r' = sent (serialize (request_of c) data)
                       (mkReader (transport r) true))).
Proof.
  destruct r as [t b].
  destruct c as [w p | mb sa ln pw | mb d sa ln pw | mb la pw | pw];
    cbn [generator_of prologue start_inventory read_memory write_memory
         lock_memory kill_tag request_of];
    unfold bind, assert, bytearray, to_bytes, set_is_inventory, ret, raise;
    cbn [transport is_inventory];
    repeat match goal with
      | |- context [if ?b then _ else _] => destruct b
      | |- context [match to_bytes_big ?n ?v with _ => _ end] =>
          destruct (to_bytes_big n v)
      | |- context [match ?w with ANSWER_MODE => _ | _ => _ end] => destruct w
      | |- context [match ?p with Some _ => _ | None => _ end] => destruct p
      end;
    try rewrite send_request_sent;
    intros H; inversion H; subst;
    (split; [first [reflexivity | exact I]|]);
    first [ left; split; [reflexivity | intros ?; discriminate]
          | right; eexists; split;
              [first [eassumption | reflexivity] | reflexivity] ].
Qed.

End Prologues.

(** ** The inventory loop on input that is not one reply per read *)

Section InventoryInput.

Context {C : Catalog}.

Lemma py_index_0_cons (b : bytes) (v : Z) :
  py_index b 0 = Some v -> exists tl, b = v :: tl.
Proof.
  destruct b as [|x tl]; [discriminate|]. cbn. intros H. inversion H. eauto.
Qed.

Lemma py_index_4_cons (b : bytes) (v : Z) :
  py_index b 4 = Some v ->
  exists h a o1 o2 tl, b = h :: a :: o1 :: o2 :: v :: tl.
Proof.
  destruct b as [|h [|a [|o1 [|o2 [|n tl]]]]]; try discriminate.
  cbn. intros H. inversion H. eauto 6.
Qed.

(** What the loop yields is a frame: the converse of
    [inventory_frame_yields]. *)
Lemma inventory_frame_yield_inv (response : bytes) (r r' : Reader)
    (item : Response) (b : bool) :
  inventory_frame response r = (Ok (Yield (Some item) b), r') ->
  exists frame,
    frame = first_frame response
    /\ raw item = Some frame
    /\ cls item = ClsInventory
    /\ nth 0 frame 0 = HEADER
    /\ len frame = 5 + nth 4 frame 0 + 2
    /\ is_CommandRequest (frame_opcode frame) = true
    /\ frame_opcode frame <> INVENTORY_STOP
    /\ is_InventoryStatus (nth 5 frame 0) = true
    /\ b = (nth 5 frame 0 =? InventoryStatus_NO_COUNT_LABEL).
Proof.
  unfold inventory_frame.
  destruct (len response <=? 0); [discriminate|].
  destruct (Z.eqb_spec (nth 0 response 0) HEADER) as [Hh|_]; [|discriminate].
  cbn [negb]. unfold bind at 1, index.
  destruct (py_index response 4) as [n|] eqn:H4; [|discriminate].
  destruct (py_index_4_cons _ _ H4) as (h & a & o1 & o2 & tl & ->).
  cbn [nth] in Hh. subst h. cbn [ret].
  assert (S1 : py_slice (HEADER :: a :: o1 :: o2 :: n :: tl) 0 5
               = [HEADER; a; o1; o2; n]) by now rewrite py_slice_nonneg by lia.
  rewrite S1.
  replace (int_from_bytes_big (py_slice [HEADER; a; o1; o2; n] 2 4))
    with (o1 * 256 + o2)
    by (now rewrite <- (frame_opcode_cons HEADER a o1 o2 [n])).
  unfold CommandRequest.
  destruct (is_CommandRequest (o1 * 256 + o2)) eqn:Hc; [|discriminate].
  destruct (Z.eqb_spec (o1 * 256 + o2) INVENTORY_STOP) as [|Hstop];
    [discriminate|].
  remember (py_slice (HEADER :: a :: o1 :: o2 :: n :: tl) 5 (4 + n + 2 + 1))
    as bnc eqn:Ebnc.
  unfold bind at 1, index.
  destruct (py_index bnc 0) as [st|] eqn:H0; [|discriminate].
  destruct (py_index_0_cons _ _ H0) as (btl & Hbnc).
  cbn [ret]. unfold bind at 1, InventoryStatus.
  destruct (is_InventoryStatus st) eqn:Hst; [|discriminate].
  cbn [ret].
  destruct (Z.eqb_spec (len bnc - 2) n) as [Hlen|_]; [|discriminate].
  cbn [negb]. unfold bind at 1. cbn [fst snd].
  assert (Hfin : forall r0,
    (response_inventory <-
       construct ClsInventory (Some ([HEADER; a; o1; o2; n] ++ bnc)) ;;
     ret (Yield (Some response_inventory)
            (st =? InventoryStatus_NO_COUNT_LABEL))) r0
    = (Ok (Yield (Some item) b), r') ->
    raw item = Some ([HEADER; a; o1; o2; n] ++ bnc)
    /\ cls item = ClsInventory
    /\ b = (st =? InventoryStatus_NO_COUNT_LABEL)).
  { intros r0. unfold bind, construct.
    destruct (response_init ClsInventory
                (Some ([HEADER; a; o1; o2; n] ++ bnc))) as [s|e];
      [|discriminate].
    cbn. intros H. inversion H; subst. auto. }
  assert (Hdone :
    raw item = Some ([HEADER; a; o1; o2; n] ++ bnc)
    /\ cls item = ClsInventory
    /\ b = (st =? InventoryStatus_NO_COUNT_LABEL) ->
    exists frame,
      frame = first_frame (HEADER :: a :: o1 :: o2 :: n :: tl)
      /\ raw item = Some frame
      /\ cls item = ClsInventory
      /\ nth 0 frame 0 = HEADER
      /\ len frame = 5 + nth 4 frame 0 + 2
      /\ is_CommandRequest (frame_opcode frame) = true
      /\ frame_opcode frame <> INVENTORY_STOP
      /\ is_InventoryStatus (nth 5 frame 0) = true
      /\ b = (nth 5 frame 0 =? InventoryStatus_NO_COUNT_LABEL)).
  { intros (Hraw & Hcls & Hb).
    exists ([HEADER; a; o1; o2; n] ++ bnc).
    unfold first_frame. cbn [nth]. rewrite S1, <- Ebnc.
    clear Ebnc. subst bnc. cbn [app nth].
    rewrite frame_opcode_cons.
    repeat split; auto.
    unfold len in *. cbn [length] in *. lia. }
  destruct (is_usb r && (st =? InventoryStatus_SUCCESS)).
  - unfold bind at 1, index.
    destruct (py_index (py_slice bnc 1 (-2)) 4) as [tag_length|];
      [|discriminate].
    unfold bind at 1. cbn [ret].
    destruct (negb (len (py_slice (py_slice bnc 1 (-2)) 0 tag_length)
                    =? tag_length)); [discriminate|].
    intros H. apply Hdone. eapply Hfin. exact H.
  - unfold bind at 1. cbn [ret].
    intros H. apply Hdone. eapply Hfin. exact H.
Qed.

Lemma inventory_body_yield_inv (r r' : Reader) (item : Response) (b : bool) :
  inventory_body r = (Ok (Yield (Some item) b), r') ->
  exists response r1, inventory_frame response r1
                      = (Ok (Yield (Some item) b), r').
Proof.
  unfold inventory_body. unfold bind at 1, try_except. unfold bind at 1.
  destruct (receive_response INVENTORY_ISO_CONTINUE false false r)
    as [[[response|]|e] r1]; cbn [ret].
  - intros H. eauto.
  - discriminate.
  - destruct (usb_or_timeout e); discriminate.
Qed.

Lemma loop_inventory_yield_inv :
  forall (fuel : nat) (r r' : Reader) (item : Response) (p : pc),
    loop fuel inventory_body r = Some (Yielded (Some item), p, r') ->
    exists response r1 b, inventory_frame response r1
                          = (Ok (Yield (Some item) b), r').
Proof.
  induction fuel as [|fuel IH]; intros r r' item p; [discriminate|].
  cbn [loop]. destruct (is_inventory r); [|discriminate].
  destruct (inventory_body r) as [[[|it b]|e] r1] eqn:Hb.
  - apply IH.
  - intros H. inversion H; subst.
    destruct (inventory_body_yield_inv _ _ _ _ Hb) as (response & r0 & E).
    eauto.
  - discriminate.
Qed.

(** X11.  Every typed response that [start_inventory] yields, at any
    resumption, from any input and on any transport, is made of one whole
    frame: it starts with HEADER, is exactly 5 + LENGTH + 2 bytes long, its
    opcode is a member of [CommandRequest] other than INVENTORY_STOP and its
    status byte a member of [InventoryStatus]. *)
Theorem inventory_yields_whole_frames (work_mode : WorkMode)
    (p : option AnswerModeInventoryParameter) (fuel : nat) (at_pc next_pc : pc)
    (r r' : Reader) (item : Response) :
  next fuel (start_inventory work_mode p) at_pc r
  = Some (Yielded (Some item), next_pc, r') ->
  exists frame,
    raw item = Some frame
    /\ cls item = ClsInventory
    /\ nth 0 frame 0 = HEADER
    /\ len frame = 5 + nth 4 frame 0 + 2
    /\ is_CommandRequest (frame_opcode frame) = true
    /\ frame_opcode frame <> INVENTORY_STOP
    /\ is_InventoryStatus (nth 5 frame 0) = true.
Proof.
  intros H.
  assert (Hl : exists fuel' r0 p0,
    loop fuel' inventory_body r0 = Some (Yielded (Some item), p0, r')).
  { destruct at_pc as [|[|]|]; cbn [next body start_inventory] in H.
    - destruct (prologue (start_inventory work_mode p) r) as [[u|e] r1];
        [eauto | discriminate].
    - discriminate.
    - eauto.
    - discriminate. }
  destruct Hl as (fuel' & r0 & p0 & Hl).
  destruct (loop_inventory_yield_inv _ _ _ _ _ Hl) as (response & r1 & b & E).
  destruct (inventory_frame_yield_inv _ _ _ _ _ E)
    as (frame & _ & H1 & H2 & H3 & H4 & H5 & H6 & H7 & _).
  exists frame. repeat split; assumption.
Qed.

End InventoryInput.

Section StrayInput.

Context {C : Catalog}.

Lemma serial_read_short (g : bytes) (rest : list RxEvent) :
  (length g < 5)%nat ->
  serial_read 5 [] (Data g :: Silence :: rest) = (g, [], rest).
Proof.
  intros H.
  destruct g as [|a [|b [|c [|d [|e g']]]]]; cbn [length] in H; try lia;
    reflexivity.
Qed.

Lemma inventory_body_stray_serial (g : bytes) (rest : list RxEvent)
    (l : list IoOp) (busy : bool) :
  0 < len g < 5 -> nth 0 g 0 <> HEADER ->
  inventory_body (reader_at SERIAL (Data g :: Silence :: rest) l busy)
  = (Ok (Yield None false), reader_at SERIAL rest (l ++ [Cleared]) busy).
Proof.
  intros Hg Hh.
  assert (Hr : receive false false
                 (reader_at SERIAL (Data g :: Silence :: rest) l busy)
               = (Ok None, reader_at SERIAL rest (l ++ [Cleared]) busy)).
  { unfold receive, reader_at. cbn [transport connection_type].
    unfold bind at 1, transport_read_bytes, read_bytes.
    cbn [transport connection_type inbuf rx log is_inventory].
    change (Z.to_nat 5) with 5%nat.
    rewrite serial_read_short by (unfold len in Hg; lia).
    destruct (Z.leb_spec (len g) 0) as [?|_]; [lia|].
    destruct (Z.eqb_spec (nth 0 g 0) HEADER) as [?|_]; [contradiction|].
    reflexivity. }
  unfold inventory_body. unfold bind at 1, try_except. unfold bind at 1.
  unfold receive_response. rewrite receive_loop_S.
  unfold attempt. unfold bind at 1. rewrite Hr. reflexivity.
Qed.

Lemma first_items_yield (n fuel : nat) (g : generator) (p p' : pc)
    (r r' : Reader) (item : option Response) :
  next fuel g p r = Some (Yielded item, p', r') ->
  first_items (S n) fuel g p r = item :: first_items n fuel g p' r'.
Proof. intros H. cbn [first_items]. now rewrite H. Qed.

(** X12.  Stray bytes on a serial line, fewer than five, not starting with
    HEADER and followed by a pause: the inventory loop reads them, flushes,
    yields [None], and at the next resumption yields the reply that follows,
    untouched. *)
Theorem inventory_recovers_from_stray_bytes (work_mode : WorkMode)
    (p : option AnswerModeInventoryParameter) (g f : bytes) (st s : Z)
    (rest : list RxEvent) (l : list IoOp) :
  0 < len g < 5 ->
  nth 0 g 0 <> HEADER ->
  inventory_reply SERIAL f st s ->
  first_items 2 1 (start_inventory work_mode p) (Suspended false)
    (reader_at SERIAL (Data g :: Silence :: Data f :: rest) l true)
  = [None; Some (mkResponse ClsInventory (Some f) s)].
Proof.
  intros Hg Hh Hf.
  rewrite (first_items_yield 1 1 (start_inventory work_mode p)
             (Suspended false) (Suspended false)
             (reader_at SERIAL (Data g :: Silence :: Data f :: rest) l true)
             (reader_at SERIAL (Data f :: rest) (l ++ [Cleared]) true) None).
  2:{ cbn [next]. apply loop_yield; [reflexivity|].
      cbn [body start_inventory]. now apply inventory_body_stray_serial. }
  rewrite (first_items_yield 0 1 (start_inventory work_mode p)
             (Suspended false)
             (Suspended (st =? InventoryStatus_NO_COUNT_LABEL))
             (reader_at SERIAL (Data f :: rest) (l ++ [Cleared]) true)
             (reader_at SERIAL rest (l ++ [Cleared]) true)
             (Some (mkResponse ClsInventory (Some f) s))).
  2:{ cbn [next]. apply loop_yield; [reflexivity|].
      cbn [body start_inventory]. now apply inventory_body_data. }
  reflexivity.
Qed.

(** X13.  Frames with another opcode that precede a reply, fewer than 20 of
    them (acknowledgements of INVENTORY_STOP, replies to an earlier command),
    cost no resumption and produce no item: one turn of the inventory loop
    reads them all, drops them and yields the reply. *)
Theorem inventory_drops_foreign_frames (work_mode : WorkMode)
    (p : option AnswerModeInventoryParameter) (k : ConnectionType)
    (pre : list bytes) (f : bytes) (st s : Z) (rest : list RxEvent)
    (l : list IoOp) (fuel : nat) :
  forallb (stray INVENTORY_ISO_CONTINUE) pre = true ->
  (length pre < 20)%nat ->
  inventory_reply k f st s ->
  next (S fuel) (start_inventory work_mode p) (Suspended false)
    (reader_at k (map Data pre ++ Data f :: rest) l true)
  = Some (Yielded (Some (mkResponse ClsInventory (Some f) s)),
          Suspended (st =? InventoryStatus_NO_COUNT_LABEL),
          reader_at k rest l true).
Proof.
  intros Hpre Hn (Hf & Ha & Hok & Hst & Hs).
  cbn [next]. apply loop_yield; [reflexivity|].
  cbn [body start_inventory].
  rewrite (inventory_body_received _ (reader_at k rest l true) f).
  2:{ unfold receive_response. now apply receive_loop_skips. }
  destruct (framed_inv f Hf) as [Hc _].
  pose proof (first_frame_complete f Hc) as Hff.
  rewrite (inventory_frame_yields f s).
  - now rewrite Hff, Hst.
  - destruct k; exact Hok.
  - now rewrite Hff.
Qed.

(** X14.  The opcode filter of the inventory loop gives up after 20 frames:
    when 20 frames with other opcodes arrive in a row, the twentieth is
    handed to the loop, which checks it for INVENTORY_STOP only; if it is
    otherwise acceptable it is yielded as an inventory response although its
    opcode is not INVENTORY_ISO_CONTINUE, and what follows stays unread. *)
Theorem inventory_yields_twentieth_foreign_frame (work_mode : WorkMode)
    (p : option AnswerModeInventoryParameter) (k : ConnectionType)
    (pre : list bytes) (g : bytes) (st s : Z) (rest : list RxEvent)
    (l : list IoOp) (fuel : nat) :
  forallb (stray INVENTORY_ISO_CONTINUE) (pre ++ [g]) = true ->
  length pre = 19%nat ->
  inventory_frame_ok (usb_kind k) g = true ->
  nth 5 g 0 = st ->
  response_init ClsInventory (Some g) = Ok s ->
  frame_opcode g <> INVENTORY_ISO_CONTINUE
  /\ next (S fuel) (start_inventory work_mode p) (Suspended false)
       (reader_at k (map Data (pre ++ [g]) ++ rest) l true)
     = Some (Yielded (Some (mkResponse ClsInventory (Some g) s)),
             Suspended (st =? InventoryStatus_NO_COUNT_LABEL),
             reader_at k rest l true).
Proof.
  intros Hpre Hn Hok Hst Hs.
  assert (Hg : stray INVENTORY_ISO_CONTINUE g = true).
  { rewrite forallb_app in Hpre. apply andb_true_iff in Hpre.
    destruct Hpre as [_ Hg]. cbn [forallb] in Hg. now rewrite andb_true_r in Hg. }
  destruct (stray_inv _ _ Hg) as [Hf Ha].
  split.
  - intros E. unfold answers in Ha. rewrite E, Z.eqb_refl, andb_true_r in Ha.
    unfold inventory_frame_ok in Hok. rewrite E, Ha in Hok.
    rewrite !andb_false_r in Hok. cbn in Hok. discriminate Hok.
  - cbn [next]. apply loop_yield; [reflexivity|].
    cbn [body start_inventory].
    rewrite (inventory_body_received _ (reader_at k rest l true) g).
    2:{ unfold receive_response.
        replace 20%nat with (length (pre ++ [g]))
          by (rewrite length_app; simpl; lia).
        rewrite receive_loop_gives_up by assumption.
        rewrite map_app. cbn [map]. now rewrite last_last. }
    destruct (framed_inv g Hf) as [Hc _].
    pose proof (first_frame_complete g Hc) as Hff.
    rewrite (inventory_frame_yields g s).
    + now rewrite Hff, Hst.
    + destruct k; exact Hok.
    + now rewrite Hff.
Qed.

End StrayInput.

(** ** A reader that stays silent *)

Section Silent.

Context {C : Catalog} {O : Commands}.

Lemma receive_response_silent_raises (k : ConnectionType) (request : Z)
    (verify_header loop_usb : bool) (script : list RxEvent) (l : list IoOp)
    (busy : bool) :
  k <> SERIAL ->
  hd Silence script = Silence ->
  receive_response request verify_header loop_usb (reader_at k script l busy)
  = (Raise (timeout_error k), reader_at k (tl script) l busy).
Proof.
  intros Hk H.
  destruct script as [|[p|] rest]; cbn in H; try discriminate;
    destruct k; try congruence; reflexivity.
Qed.

Lemma memory_turn_silent_serial (request : Z) (k : response_class)
    (none : M flow) (l : list IoOp) :
  (raw_response <- receive_response request true true ;;
   match raw_response with
   | None => none
   | Some _ => yield_response k raw_response
   end) (reader_at SERIAL [] l true)
  = none (reader_at SERIAL [] (l ++ [Cleared]) true).
Proof.
  unfold bind at 1.
  now rewrite (receive_response_silent_serial request true true [] l true).
Qed.

Lemma loop_never_yields (request : Z) (k : response_class) :
  forall (fuel : nat) (l : list IoOp),
    loop fuel
      (raw_response <- receive_response request true true ;;
       match raw_response with
       | None => ret Continue
       | Some _ => yield_response k raw_response
       end) (reader_at SERIAL [] l true)
    = None.
Proof.
  induction fuel as [|fuel IH]; intros l; [reflexivity|].
  cbn [loop reader_at is_inventory].
  fold (reader_at SERIAL [] l true).
  rewrite memory_turn_silent_serial. cbn [ret]. apply IH.
Qed.

(** X15.  On a serial line whose reader sends nothing, a resumed
    [write_memory], [lock_memory] or [kill_tag] never comes back: however
    many turns the loop is given, it reaches neither a yield nor its end, so
    the consumer gets no chance to call [stop_inventory]. *)
Theorem silent_serial_line_blocks_the_consumer :
  (forall memory_bank data start_address length access_password fuel l,
      next fuel
        (write_memory memory_bank data start_address length access_password)
        (Suspended false) (reader_at SERIAL [] l true) = None)
  /\ (forall lock_memory_bank lock_action access_password fuel l,
        next fuel (lock_memory lock_memory_bank lock_action access_password)
          (Suspended false) (reader_at SERIAL [] l true) = None)
  /\ (forall kill_password fuel l,
        next fuel (kill_tag kill_password) (Suspended false)
          (reader_at SERIAL [] l true) = None).
Proof.
  repeat split; intros; cbn [next body write_memory lock_memory kill_tag];
    apply loop_never_yields.
Qed.

Lemma inventory_turn_silent (k : ConnectionType) (l : list IoOp) :
  inventory_body (reader_at k [] l true)
  = (Ok (Yield None false),
     reader_at k [] (match k with SERIAL => l ++ [Cleared] | _ => l end) true).
Proof.
  unfold inventory_body. unfold bind at 1, try_except. unfold bind at 1.
  destruct k.
  - now rewrite (receive_response_silent_serial _ false false [] l true).
  - now rewrite (receive_response_silent_raises USB _ false false [] l true).
  - now rewrite (receive_response_silent_raises TCP_IP _ false false [] l true).
Qed.

(** X16.  With a reader that sends nothing and a consumer that never calls
    [stop_inventory], [start_inventory] on any transport, and [read_memory]
    on a serial line, go on for ever: every resumption yields [None], as
    many times as the consumer asks. *)
Theorem silent_reader_yields_none_for_ever :
  (forall work_mode p k n fuel l,
      first_items n (S fuel) (start_inventory work_mode p) (Suspended false)
        (reader_at k [] l true) = repeat None n)
  /\ (forall memory_bank start_address length access_password n fuel l,
        first_items n (S fuel)
          (read_memory memory_bank start_address length access_password)
          (Suspended false) (reader_at SERIAL [] l true) = repeat None n).
Proof.
  split.
  - intros work_mode p k n fuel. induction n as [|n IH]; intros l;
      [reflexivity|].
    rewrite (first_items_yield n (S fuel) _ (Suspended false) (Suspended false)
               (reader_at k [] l true)
               (reader_at k []
                  (match k with SERIAL => l ++ [Cleared] | _ => l end) true)
               None).
    + cbn [repeat]. now rewrite IH.
    + cbn [next]. apply loop_yield; [reflexivity|].
      cbn [body start_inventory]. apply inventory_turn_silent.
  - intros memory_bank start_address length access_password n fuel.
    induction n as [|n IH]; intros l; [reflexivity|].
    rewrite (first_items_yield n (S fuel) _ (Suspended false) (Suspended false)
               (reader_at SERIAL [] l true)
               (reader_at SERIAL [] (l ++ [Cleared]) true) None).
    + cbn [repeat]. now rewrite IH.
    + cbn [next]. apply loop_yield; [reflexivity|].
      cbn [body read_memory]. now rewrite memory_turn_silent_serial.
Qed.

Lemma send_request_on (opcode : Z) (data : bytes) (k : ConnectionType)
    (script : list RxEvent) (l : list IoOp) (w : list TxEvent) (busy : bool) :
  send_request opcode data true (reader_on k script l w busy)
  = (write_outcome (transport (reader_on k script l w busy)),
     reader_on k script (l ++ [Cleared; Written (serialize opcode data)])
       (tl w) busy).
Proof.
  unfold send_request, bind, transport_clear_buffer, transport_write_bytes,
    clear_buffer, write_bytes, reader_on.
  destruct k; cbn [transport connection_type inbuf rx log tx is_inventory];
    rewrite <- app_assoc; reflexivity.
Qed.

Lemma receive_response_silent_on (k : ConnectionType) (request : Z)
    (verify_header loop_usb : bool) (script : list RxEvent) (l : list IoOp)
    (w : list TxEvent) (busy : bool) :
  k <> SERIAL ->
  hd Silence script = Silence ->
  receive_response request verify_header loop_usb (reader_on k script l w busy)
  = (Raise (timeout_error k), reader_on k (tl script) l w busy).
Proof.
  intros Hk H.
  destruct script as [|[p|] rest]; cbn in H; try discriminate;
    destruct k; try congruence; reflexivity.
Qed.

Lemma times_out_exchange {A} (k : ConnectionType) (script : list RxEvent)
    (l : list IoOp) (w : list TxEvent) (busy : bool) (opcode : Z)
    (data : bytes) (wrap : option bytes -> M A) :
  k <> SERIAL -> hd Silence script = Silence ->
  times_out k script l w busy opcode (exchange opcode data wrap).
Proof.
  intros Hk Hs. right. exists data. cbv zeta. unfold exchange.
  destruct (write_outcome (transport (reader_on k script l w busy)))
    as [u|e] eqn:Hout;
    unfold bind at 1; rewrite send_request_on, Hout; [|reflexivity].
  unfold bind at 1. now rewrite receive_response_silent_on.
Qed.

Lemma times_out_pure_bind {A B} (k : ConnectionType) (script : list RxEvent)
    (l : list IoOp) (w : list TxEvent) (busy : bool) (opcode : Z) (m : M A)
    (f : A -> M B) :
  pure m -> (forall a, times_out k script l w busy opcode (f a)) ->
  times_out k script l w busy opcode (bind m f).
Proof.
  intros Hm Hf. unfold times_out, bind.
  specialize (Hm (reader_on k script l w busy)).
  destruct (m (reader_on k script l w busy)) as [[a|e] r1];
    cbn [snd] in Hm; subst r1.
  - apply Hf.
  - left. eauto.
Qed.

Lemma times_out_discard {A} (k : ConnectionType) (script : list RxEvent)
    (l : list IoOp) (w : list TxEvent) (busy : bool) (opcode : Z) (m : M A) :
  times_out k script l w busy opcode m ->
  times_out k script l w busy opcode (discard m).
Proof.
  unfold times_out, discard, bind.
  intros [(e & ->) | (data & H)]; [left; eauto | right].
  exists data. cbv zeta in *.
  destruct (write_outcome (transport (reader_on k script l w busy)));
    now rewrite H.
Qed.

Ltac times_out_steps Hk Hs :=
  repeat first
    [ apply times_out_exchange; [exact Hk | exact Hs]
    | apply times_out_pure_bind; [|intros ?]
    | apply pure_assert | apply pure_bytearray | apply pure_to_bytes
    | apply pure_select_mask_data ].

(** X17.  No one-shot operation catches an exception of the transport.
    Against a reader that sends nothing, over USB or TCP, every one of them
    raises, in one of three ways: on its own arguments, with the reader as
    it was; with the exception of the write of its command, after the flush
    and with nothing read; or, that write taken, with the USBError or
    TimeoutError of the read (the command has gone out, no response object
    is made). *)
Theorem one_shot_timeout_propagates (c : one_shot_call) (k : ConnectionType)
    (script : list RxEvent) (l : list IoOp) (w : list TxEvent) (busy : bool) :
  k <> SERIAL ->
  hd Silence script = Silence ->
  let r := reader_on k script l w busy in
  (exists e, perform c r = (Raise e, r))
  \/ (exists data,
         let l' := l ++ [Cleared; Written (serialize (command_of c) data)] in
         match write_outcome (transport r) with
         | Raise e => perform c r = (Raise e, reader_on k script l' (tl w) busy)
         | Ok _ =>
             perform c r
             = (Raise (timeout_error k),
                reader_on k (tl script) l' (tl w) busy)
         end).
Proof.
  intros Hk Hs.
  change (times_out k script l w busy (command_of c) (perform c)).
  destruct c; cbn [perform command_of]; apply times_out_discard;
    unfold init, reset_factory, get_device_info, set_relay, get_rfid_protocol,
      set_rfid_protocol, set_reader_settings, get_network_settings,
      set_network_settings, get_remote_network_settings,
      set_remote_network_settings, set_max_temperature,
      get_current_temperature, get_antenna_power, set_antenna_power,
      get_output_control, set_output_control, get_mask_inventory_permission,
      get_inventory_range, set_inventory_range, set_power, select_mask,
      get_reader_settings;
    times_out_steps Hk Hs.
Qed.

End Silent.

(** ** A frame that arrives in two pieces *)

Section Fragments.

Context {C : Catalog}.

Lemma split_frame_inv (a b : bytes) :
  complete_frame (a ++ b) = true -> 5 < len a -> 0 < len b ->
  exists h x o1 o2 n a',
    a = h :: x :: o1 :: o2 :: n :: a'
    /\ 0 <= n
    /\ a' <> []
    /\ (length a' < Z.to_nat (n + 2))%nat
    /\ length (a' ++ b) = Z.to_nat (n + 2).
Proof.
  intros Hf Ha Hb.
  destruct (complete_frame_inv _ Hf) as (h & x & o1 & o2 & n & body & E & Hn & Hl).
  destruct a as [|h' [|x' [|o1' [|o2' [|n' a']]]]];
    unfold len in Ha; cbn [length] in Ha; try lia.
  cbn [app] in E. inversion E; subst.
  exists h, x, o1, o2, n, a'. repeat split; auto.
  - destruct a'; [cbn [length] in Ha; lia | discriminate].
  - rewrite length_app in Hl. unfold len in Hb. lia.
Qed.

(** X18.  A frame that reaches the driver in two bursts, the first one longer
    than the five bytes of the prefix.  On a serial line the second read of
    [__receive] waits for the missing bytes and the whole frame is returned.
    On a socket [recv] returns what has arrived: [__receive] returns the
    first burst alone, a truncated frame, and the second burst stays in the
    stream for the next read. *)
Theorem frame_in_two_bursts (verify_header loop_usb : bool) (a b : bytes)
    (rest : list RxEvent) (l : list IoOp) (busy : bool) :
  complete_frame (a ++ b) = true ->
  5 < len a ->
  0 < len b ->
  verify_header = true \/ nth 0 a 0 = HEADER ->
  receive verify_header loop_usb
    (reader_at SERIAL (Data a :: Data b :: rest) l busy)
  = (Ok (Some (a ++ b)), reader_at SERIAL rest l busy)
  /\ receive verify_header loop_usb
       (reader_at TCP_IP (Data a :: Data b :: rest) l busy)
     = (Ok (Some a), reader_at TCP_IP (Data b :: rest) l busy).
Proof.
  intros Hf Ha Hb Hh.
  destruct (split_frame_inv a b Hf Ha Hb)
    as (h & x & o1 & o2 & n & a' & -> & Hn & Hne & Hlt & Hl).
  assert (Hhdr : negb verify_header && negb (h =? HEADER) = false).
  { destruct Hh as [->|Hh]; [reflexivity|]. cbn [nth] in Hh. subst h.
    rewrite Z.eqb_refl. now rewrite andb_false_r. }
  assert (Hstep : forall k body' r1,
    k <> USB ->
    transport_read_bytes (n + 2) (mkReader (mkTransport k a' (Data b :: rest) l) busy)
    = (Ok body', r1) ->
    receive verify_header loop_usb
      (reader_at k (Data (h :: x :: o1 :: o2 :: n :: a') :: Data b :: rest) l busy)
    = (Ok (Some (h :: x :: o1 :: o2 :: n :: body')), r1)).
  { intros k body' r1 Hk Hbody.
    assert (E : forall r0, connection_type (transport r0) = k ->
      receive verify_header loop_usb r0
      = (response_header_section <- transport_read_bytes 5 ;;
         if (len response_header_section <=? 0)
            || (negb verify_header
                && negb (nth 0 response_header_section 0 =? HEADER))
         then transport_clear_buffer ;;; ret None
         else
           assert (len response_header_section =? 5) ;;;
           body_length <- index response_header_section (-1) ;;
           response_body_section <- transport_read_bytes (body_length + 2) ;;
           ret (Some (response_header_section ++ response_body_section))) r0).
    { intros r0 Hr0. unfold receive. rewrite Hr0.
      destruct k; [reflexivity | congruence | reflexivity]. }
    rewrite E by reflexivity. unfold bind at 1.
    rewrite read_header by assumption. cbn [nth]. rewrite Hhdr.
    change (len [h; x; o1; o2; n] <=? 0) with false. cbn [orb].
    change (len [h; x; o1; o2; n] =? 5) with true.
    unfold bind at 1. cbn [assert ret]. unfold bind at 1.
    change (index [h; x; o1; o2; n] (-1)) with (@ret Z n). cbn [ret].
    unfold bind at 1. rewrite Hbody. reflexivity. }
  split.
  - apply Hstep; [discriminate|].
    unfold transport_read_bytes, read_bytes, reader_at.
    cbn [transport connection_type inbuf rx log is_inventory serial_read].
    destruct (Nat.leb_spec (Z.to_nat (n + 2)) (length a')) as [?|_]; [lia|].
    rewrite <- Hl, serial_read_exact. reflexivity.
  - apply Hstep; [discriminate|].
    unfold transport_read_bytes, read_bytes, reader_at.
    cbn [transport connection_type inbuf rx log is_inventory].
    unfold tcp_recv. destruct a' as [|y a'']; [congruence|].
    rewrite firstn_all2, skipn_all2 by lia. reflexivity.
Qed.

(** X19.  Over USB the inventory loop reads one packet per turn and does not
    join packets: when a reply arrives cut in two, the first packet (at
    least the prefix and the status byte) fails the length check and is
    passed over without a yield; the turn ends with that packet consumed and
    the loop goes on with the next one. *)
Theorem usb_inventory_skips_cut_reply (a b : bytes) (st s : Z)
    (rest : list RxEvent) (l : list IoOp) (busy : bool) :
  inventory_reply USB (a ++ b) st s ->
  5 < len a ->
  0 < len b ->
  inventory_body (reader_at USB (Data a :: rest) l busy)
  = (Ok Continue, reader_at USB rest l busy).
Proof.
  intros (Hf & Ha & Hok & Hst & _) Hla Hlb.
  destruct (framed_inv _ Hf) as [Hc Hh].
  destruct (split_frame_inv a b Hc Hla Hlb)
    as (h & x & o1 & o2 & n & a' & -> & Hn & Hne & Hlt & Hl).
  cbn [app nth] in Hh, Hst. subst h.
  unfold answers in Ha. cbn [app] in Ha. rewrite frame_opcode_cons in Ha.
  apply andb_true_iff in Ha. destruct Ha as [Hcr Heq]. apply Z.eqb_eq in Heq.
  unfold inventory_frame_ok in Hok. cbn [app nth] in Hok.
  rewrite frame_opcode_cons in Hok.
  apply andb_true_iff in Hok; destruct Hok as [Hok _].
  apply andb_true_iff in Hok; destruct Hok as [Hok Hstat].
  apply andb_true_iff in Hok; destruct Hok as [_ Hstop].
  apply negb_true_iff in Hstop.
  destruct a' as [|y a'']; [congruence|]. cbn [app nth] in Hstat, Hst. subst y.
  assert (Hrecv : receive_response INVENTORY_ISO_CONTINUE false false
                    (reader_at USB
                       (Data (HEADER :: x :: o1 :: o2 :: n :: st :: a'') :: rest)
                       l busy)
                  = (Ok (Some (HEADER :: x :: o1 :: o2 :: n :: st :: a'')),
                     reader_at USB rest l busy)).
  { unfold receive_response. rewrite receive_loop_S, attempt_usb_packet.
    rewrite frame_opcode_cons. unfold CommandRequest. rewrite Hcr, Heq.
    rewrite Z.eqb_refl. cbn [nth]. rewrite Z.eqb_refl. cbn [negb].
    now rewrite andb_false_r. }
  rewrite (inventory_body_received _ _ _ Hrecv).
  unfold inventory_frame.
  assert (E0 : (len (HEADER :: x :: o1 :: o2 :: n :: st :: a'') <=? 0) = false).
  { apply Z.leb_gt. unfold len. cbn [length]. lia. }
  rewrite E0. cbn [nth]. rewrite Z.eqb_refl. cbn [negb].
  assert (S1 : py_slice (HEADER :: x :: o1 :: o2 :: n :: st :: a'') 0 5
               = [HEADER; x; o1; o2; n]) by now rewrite py_slice_nonneg by lia.
  assert (S2 : py_slice (HEADER :: x :: o1 :: o2 :: n :: st :: a'') 5
                 (4 + n + 2 + 1) = st :: a'').
  { rewrite py_slice_nonneg by lia. change (Z.to_nat 5) with 5%nat.
    cbn [skipn]. apply firstn_all2. cbn [length] in *. lia. }
  rewrite S1.
  change (index (HEADER :: x :: o1 :: o2 :: n :: st :: a'') 4) with (@ret Z n).
  rewrite bind_ret_fun. cbv beta.
  replace (int_from_bytes_big (py_slice [HEADER; x; o1; o2; n] 2 4))
    with (o1 * 256 + o2)
    by (now rewrite <- (frame_opcode_cons HEADER x o1 o2 [n])).
  unfold CommandRequest. rewrite Hcr, Hstop, S2.
  change (index (st :: a'') 0) with (@ret Z st).
  rewrite bind_ret_fun. cbv beta. unfold bind at 1, InventoryStatus.
  rewrite Hstat. cbn [ret].
  destruct (Z.eqb_spec (len (st :: a'') - 2) n) as [E|_]; [|reflexivity].
  unfold len in E. cbn [length] in *. lia.
Qed.

End Fragments.

(** ** Input that was there before the command *)

Section StaleInput.

Context {C : Catalog}.

Lemma receive_buffered (f : bytes) (script : list RxEvent) (l : list IoOp)
    (busy loop_usb : bool) :
  complete_frame f = true ->
  receive true loop_usb (mkReader (mkTransport TCP_IP f script l) busy)
  = (Ok (Some f), reader_at TCP_IP script l busy).
Proof.
  intros Hf.
  destruct (complete_frame_inv f Hf)
    as (h & a & o1 & o2 & n & body & -> & Hn & Hb).
  unfold receive. cbn [transport connection_type].
  unfold bind at 1.
  assert (E : transport_read_bytes 5
                (mkReader (mkTransport TCP_IP (h :: a :: o1 :: o2 :: n :: body)
                             script l) busy)
              = (Ok [h; a; o1; o2; n],
                 mkReader (mkTransport TCP_IP body script l) busy))
    by reflexivity.
  rewrite E. cbn [negb andb orb].
  change (len [h; a; o1; o2; n] <=? 0) with false. cbn [orb].
  change (len [h; a; o1; o2; n] =? 5) with true.
  unfold bind at 1. cbn [assert ret]. unfold bind at 1.
  change (index [h; a; o1; o2; n] (-1)) with (@ret Z n). cbn [ret].
  unfold bind at 1. rewrite read_body by (assumption || discriminate).
  reflexivity.
Qed.

(** X22.  The flush that precedes a command empties the input buffer of a
    serial line and does nothing on a socket ([clear_buffer] is [pass]
    there).  So with a reply to an earlier command of the same opcode still
    in the input, the exchange on a serial line returns the reply that the
    reader sends now, and the exchange on a socket returns the old one and
    leaves the new one in the stream, for the next exchange to find. *)
Theorem flush_discards_only_on_serial (opcode : Z) (data stale f : bytes)
    (rest : list RxEvent) (l : list IoOp) (busy : bool) :
  framed f = true ->
  answers opcode f = true ->
  let sent := l ++ [Cleared; Written (serialize opcode data)] in
  exchange opcode data ret
    (mkReader (mkTransport SERIAL stale (Data f :: rest) l) busy)
  = (Ok (Some f), reader_at SERIAL rest sent busy)
  /\ (framed stale = true ->
      answers opcode stale = true ->
      exchange opcode data ret
        (mkReader (mkTransport TCP_IP stale (Data f :: rest) l) busy)
      = (Ok (Some stale), reader_at TCP_IP (Data f :: rest) sent busy)).
Proof.
  intros Hf Ha sent. split.
  - unfold exchange. unfold bind at 1.
    assert (E : send_request opcode data true
                  (mkReader (mkTransport SERIAL stale (Data f :: rest) l) busy)
                = (Ok tt, reader_at SERIAL (Data f :: rest) sent busy)).
    { unfold send_request, bind, transport_clear_buffer,
        transport_write_bytes, clear_buffer, write_bytes, reader_at, sent.
      cbn [transport connection_type inbuf rx log is_inventory].
      rewrite <- app_assoc. reflexivity. }
    rewrite E. unfold bind at 1.
    rewrite receive_response_data by assumption. reflexivity.
  - intros Hs Hsa. destruct (framed_inv stale Hs) as [Hc Hh].
    unfold exchange. unfold bind at 1.
    assert (E : send_request opcode data true
                  (mkReader (mkTransport TCP_IP stale (Data f :: rest) l) busy)
                = (Ok tt,
                   mkReader (mkTransport TCP_IP stale (Data f :: rest) sent)
                     busy)).
    { unfold send_request, bind, transport_clear_buffer,
        transport_write_bytes, clear_buffer, write_bytes, sent.
      cbn [transport connection_type inbuf rx log is_inventory].
      rewrite <- app_assoc. reflexivity. }
    rewrite E. unfold bind at 1.
    unfold receive_response. rewrite receive_loop_S.
    unfold attempt. unfold bind at 1. rewrite receive_buffered by assumption.
    rewrite Hh, Z.eqb_refl. cbn [negb]. rewrite andb_false_r.
    unfold bind at 1. cbn [ret].
    unfold answers in Hsa. apply andb_true_iff in Hsa.
    destruct Hsa as [Hcr Heq]. unfold CommandRequest.
    fold (frame_opcode stale). rewrite Hcr, Heq. reflexivity.
Qed.

End StaleInput.

(** ** Names and endpoints *)

Module EndpointFacts.

Import String.
Import Endpoint.
#[local] Open Scope string_scope.

(** X20.  [ConnectionType.from_str] undoes [str]: the string of a connection
    type is found and names it back, and a string that [from_str] accepts is
    the string of the member it returns; any other string gives [None]. *)
Theorem from_str_inverts_str (c : ConnectionType) (value : string) :
  from_str value = Some c <-> str c = Some value.
Proof.
  split.
  - unfold from_str, members. cbn [find str value_of nth_error DISPLAY_STRINGS].
    destruct (String.eqb_spec "Serial" value) as [<-|_];
      [intros H; inversion H; reflexivity|].
    destruct (String.eqb_spec "USB" value) as [<-|_];
      [intros H; inversion H; reflexivity|].
    destruct (String.eqb_spec "TCP/IP" value) as [<-|_];
      [intros H; inversion H; reflexivity | discriminate].
  - destruct c; cbn; intros H; inversion H; reflexivity.
Qed.

(** X21.  [TcpTransport.reconnect] on a connected transport closes the
    socket and connects again to the port the transport already had: the
    [port] argument is never used.  The address is replaced by a non-empty
    argument and the timeout by a non-zero one; with no arguments the same
    endpoint is dialled again.  On a transport that was never connected
    there is no socket to close and the call fails. *)
Theorem tcp_reconnect_keeps_port (ip : option string) (p tm : option Z)
    (t : TcpTransport) :
  (socket t = false -> tcp_reconnect ip p tm t = None)
  /\ (socket t = true ->
      exists t',
        tcp_reconnect ip p tm t = Some t'
        /\ port t' = port t
        /\ ip_address t' = or_else_string ip (ip_address t)
        /\ timeout t' = or_else_number tm (timeout t)
        /\ calls t'
           = (calls t ++ [SockClose; SockTimeout (timeout t');
                          SockConnect (ip_address t') (port t)])%list
        /\ tcp_reconnect ip p tm t = tcp_reconnect ip None tm t).
Proof.
  split; intros H; unfold tcp_reconnect; rewrite H; [reflexivity|].
  eexists. split; [reflexivity|].
  cbn [port ip_address timeout calls tcp_connect].
  rewrite <- app_assoc. repeat split.
Qed.

Lemma tcp_reconnect_keeps_port_witness :
  let fresh := tcp_new "192.168.1.190" 6000 6 in
  let t := tcp_connect fresh in
  (socket fresh = false
   /\ tcp_reconnect (Some "10.0.0.2") (Some 7000) None fresh = None)
  /\ (socket t = true
      /\ exists t',
           tcp_reconnect (Some "10.0.0.2") (Some 7000) None t = Some t'
           /\ port t' = port t
           /\ ip_address t' = or_else_string (Some "10.0.0.2") (ip_address t)
           /\ timeout t' = or_else_number None (timeout t)
           /\ calls t'
              = (calls t ++ [SockClose; SockTimeout (timeout t');
                             SockConnect (ip_address t') (port t)])%list
           /\ tcp_reconnect (Some "10.0.0.2") (Some 7000) None t
              = tcp_reconnect (Some "10.0.0.2") None None t).
Proof.
  intros fresh t.
  assert (H1 : socket fresh = false) by reflexivity.
  assert (H2 : socket t = true) by reflexivity.
  exact (conj
           (conj H1 (proj1 (tcp_reconnect_keeps_port (Some "10.0.0.2")
                              (Some 7000) None fresh) H1))
           (conj H2 (proj2 (tcp_reconnect_keeps_port (Some "10.0.0.2")
                              (Some 7000) None t) H2))).
Defined.

End EndpointFacts.

(** ** The other operations on concrete inputs *)

Lemma one_shot_sends_one_command_witness :
  let c := CallSetRelay false 5 in
  let r := reader_at SERIAL [Data (sample_frame 119 [0])] [] false in
  let broken := reader_on SERIAL [] [] [Refused SerialException] false in
  let frame := serialize RELEASE_CLOSE_RELAY [2; 5] in
  perform (CallSetRelay false 300) r = (Raise AssertionError, r)
  /\ perform c broken
     = (Raise SerialException,
        reader_on SERIAL [] ([] ++ [Cleared; Written frame]) [] false)
  /\ perform c r
     = (Ok tt, reader_at SERIAL [] ([] ++ [Cleared; Written frame]) false)
  /\ ((snd (perform c broken) = broken
       /\ exists e, fst (perform c broken) = Raise e)
      \/ (exists data,
            let r1 := sent (serialize (command_of c) data) broken in
            log (transport r1)
            = log (transport broken)
                ++ [Cleared; Written (serialize (command_of c) data)]
            /\ is_inventory r1 = is_inventory broken
            /\ match write_outcome (transport broken) with
               | Raise e => perform c broken = (Raise e, r1)
               | Ok _ =>
                   is_inventory (snd (perform c broken)) = is_inventory broken
                   /\ connection_type (transport (snd (perform c broken)))
                      = connection_type (transport broken)
                   /\ exists n,
                        log (transport (snd (perform c broken)))
                        = log (transport r1) ++ repeat Cleared n
               end)).
Proof.
  intros c r broken frame.
  split; [reflexivity|]. split; [reflexivity|]. split; [reflexivity|].
  exact (one_shot_sends_one_command c broken).
Defined.

Lemma one_shot_response_has_prefix_witness :
  let r := reader_at SERIAL [Data sample_settings] [] false in
  receive_response 114 true true r
  = (Ok (Some sample_settings), reader_at SERIAL [] [] false)
  /\ 5 <= len sample_settings
  /\ length (py_slice sample_settings 2 4) = 2%nat.
Proof.
  intros r.
  assert (H : receive_response 114 true true r
              = (Ok (Some sample_settings), reader_at SERIAL [] [] false))
    by reflexivity.
  exact (conj H (one_shot_response_has_prefix 114 true r
                   (reader_at SERIAL [] [] false) sample_settings H)).
Defined.

Lemma init_tolerates_silence_witness :
  let f := sample_frame 80 [0] in
  let response := mkResponse ClsResponse (Some f) 0 in
  let r := reader_at TCP_IP [Data f] [] false in
  let r1 := reader_at TCP_IP []
              ([] ++ [Cleared; Written (serialize MODULE_INIT [])]) false in
  let quiet_line := reader_at SERIAL [Silence; Data f] [] false in
  (init r = (Ok (Some response), r1)
   /\ exists b, raw response = Some b /\ 5 <= len b)
  /\ (hd Silence [Silence; Data f] = Silence
      /\ init quiet_line
         = (Ok None,
            reader_at SERIAL (tl [Silence; Data f])
              ([] ++ [Cleared; Written (serialize MODULE_INIT []); Cleared])
              false)
      /\ reset_factory quiet_line
         = construct ClsResponse None
             (reader_at SERIAL (tl [Silence; Data f])
                ([] ++ [Cleared; Written (serialize REBOOT []); Cleared])
                false)).
Proof.
  intros f response r r1 quiet_line.
  assert (H1 : init r = (Ok (Some response), r1)) by reflexivity.
  assert (H2 : hd Silence [Silence; Data f] = Silence) by reflexivity.
  exact (conj
           (conj H1 (proj1 init_tolerates_silence r r1 response H1))
           (conj H2 (proj2 init_tolerates_silence [Silence; Data f] [] false
                       H2))).
Defined.

Lemma set_relay_checks_and_encodes_witness :
  let r := reader_at SERIAL [Data (sample_frame 119 [0])] [] false in
  (~ (0 <= 256 <= 255)
   /\ set_relay true 256 r = (Raise AssertionError, r))
  /\ (0 <= 5 <= 255
      /\ exists n,
           log (transport (snd (set_relay false 5 r)))
           = log (transport r)
               ++ [Cleared; Written (serialize RELEASE_CLOSE_RELAY [2; 5])]
               ++ repeat Cleared n).
Proof.
  intros r.
  assert (H1 : ~ (0 <= 256 <= 255)) by lia.
  assert (H2 : 0 <= 5 <= 255) by lia.
  exact (conj
           (conj H1 (proj1 (set_relay_checks_and_encodes true 256 r) H1))
           (conj H2 (proj2 (set_relay_checks_and_encodes false 5 r) H2))).
Defined.

Lemma set_inventory_range_checks_and_encodes_witness :
  let r := reader_at TCP_IP [Data (sample_frame 8 [0])] [] false in
  (~ (0 <= 4 <= 255 /\ 0 <= 300 <= 255)
   /\ set_inventory_range 4 300 r = (Raise AssertionError, r))
  /\ (0 <= 4 <= 255
      /\ 0 <= 12 <= 255
      /\ is_byte CommandOption_SET = true
      /\ exists n,
           log (transport (snd (set_inventory_range 4 12 r)))
           = log (transport r)
               ++ [Cleared;
                   Written (serialize INVENTORY_RANGE
                              [CommandOption_SET; 4; 12; 0; 0])]
               ++ repeat Cleared n).
Proof.
  intros r.
  assert (H1 : ~ (0 <= 4 <= 255 /\ 0 <= 300 <= 255)) by lia.
  assert (H2 : 0 <= 4 <= 255) by lia.
  assert (H3 : 0 <= 12 <= 255) by lia.
  assert (H4 : is_byte CommandOption_SET = true) by reflexivity.
  exact (conj
           (conj H1 (proj1 (set_inventory_range_checks_and_encodes 4 300 r) H1))
           (conj H2 (conj H3 (conj H4
              (proj2 (set_inventory_range_checks_and_encodes 4 12 r)
                 H2 H3 H4))))).
Defined.

Lemma set_mask_inventory_permission_kicks_inventory_witness :
  let command_data := [1; 0; 2; 226; 0] in
  let f := sample_frame 117 [0] in
  let setting := serialize SET_GET_PERMISSION
                   ([CommandOption_SET] ++ command_data) in
  let start := serialize INVENTORY_ISO_CONTINUE
                 ([StopAfter_value NUMBER] ++ [0; 0; 0; 2]) in
  let stop := serialize INVENTORY_STOP [] in
  is_byte CommandOption_SET = true
  /\ is_byte (StopAfter_value NUMBER) = true
  /\ framed f = true
  /\ answers SET_GET_PERMISSION f = true
  /\ response_init ClsResponse (Some f) = Ok 0
  /\ set_mask_inventory_permission command_data
       (reader_at SERIAL [Data f; Data sample_tag_1] [] false)
     = (Ok (mkResponse ClsResponse (Some f) 0),
        reader_at SERIAL [Data sample_tag_1]
          ([] ++ [Cleared; Written setting;
                  Cleared; Written start; Written stop])
          false).
Proof.
  intros command_data f setting start stop.
  assert (H1 : is_byte CommandOption_SET = true) by reflexivity.
  assert (H2 : is_byte (StopAfter_value NUMBER) = true) by reflexivity.
  assert (H3 : framed f = true) by reflexivity.
  assert (H4 : answers SET_GET_PERMISSION f = true) by reflexivity.
  assert (H5 : response_init ClsResponse (Some f) = Ok 0) by reflexivity.
  exact (conj H1 (conj H2 (conj H3 (conj H4 (conj H5
           (proj2 (set_mask_inventory_permission_kicks_inventory command_data
                     H1 H2)
              SERIAL f 0 [Data sample_tag_1] [] false H3 H4 H5)))))).
Defined.

Lemma write_memory_first_resumption_witness :
  let password := [0; 0; 0; 0] in
  let r := reader_at USB [] [] false in
  (~ (0 < len [] /\ 0 <= 2 <= 65535
      /\ 0 < (if 0 =? 0 then len [] else 0) <= 255)
   /\ next 1 (write_memory 1 [] 2 0 password) Fresh r
      = Some (Raised AssertionError, Finished, r))
  /\ ((0 < len [18; 52] /\ 0 <= 2 <= 65535
       /\ 0 < (if 0 =? 0 then len [18; 52] else 0) <= 255)
      /\ is_byte 1 = true
      /\ prologue (write_memory 1 [18; 52] 2 0 password) r
         = (Ok tt,
            reader_at USB []
              ([] ++ [Cleared;
                      Written (serialize WRITE_ISO_TAG
                                 ([0] ++ password ++ [1] ++ be_digits 2 2
                                    ++ [if 0 =? 0 then len [18; 52] else 0]
                                    ++ [18; 52]))])
              true)).
Proof.
  intros password r.
  assert (H1 : ~ (0 < len [] /\ 0 <= 2 <= 65535
                  /\ 0 < (if 0 =? 0 then len [] else 0) <= 255))
    by (intros [H _]; discriminate H).
  assert (H2 : 0 < len [18; 52] /\ 0 <= 2 <= 65535
               /\ 0 < (if 0 =? 0 then len [18; 52] else 0) <= 255)
    by (repeat split; discriminate).
  assert (H3 : is_byte 1 = true) by reflexivity.
  exact (conj
           (conj H1 (proj1 (write_memory_first_resumption 1 [] 2 0 password)
                       H1 1%nat r))
           (conj H2 (conj H3
              (proj2 (write_memory_first_resumption 1 [18; 52] 2 0 password)
                 H2 H3 USB [] [] false)))).
Defined.

Lemma read_memory_first_resumption_witness :
  let password := [0; 0; 0; 0] in
  let r := reader_at SERIAL [] [] false in
  (~ (0 <= 70000 <= 65535 /\ 0 <= 4 <= 255)
   /\ next 1 (read_memory 3 70000 4 password) Fresh r
      = Some (Raised AssertionError, Finished, r))
  /\ ((0 <= 2 <= 65535 /\ 0 <= 4 <= 255)
      /\ is_byte 3 = true
      /\ prologue (read_memory 3 2 4 password) r
         = (Ok tt,
            reader_at SERIAL []
              ([] ++ [Cleared;
                      Written (serialize READ_ISO_TAG
                                 ([0] ++ password ++ [3] ++ be_digits 2 2
                                    ++ [4]))])
              true)).
Proof.
  intros password r.
  assert (H1 : ~ (0 <= 70000 <= 65535 /\ 0 <= 4 <= 255)) by lia.
  assert (H2 : 0 <= 2 <= 65535 /\ 0 <= 4 <= 255) by lia.
  assert (H3 : is_byte 3 = true) by reflexivity.
  exact (conj
           (conj H1 (proj1 (read_memory_first_resumption 3 70000 4 password)
                       H1 1%nat r))
           (conj H2 (conj H3
              (proj2 (read_memory_first_resumption 3 2 4 password)
                 H2 H3 SERIAL [] [] false)))).
Defined.

Lemma start_inventory_listens_witness :
  let g := start_inventory ACTIVE_MODE None in
  let quiet_line := reader_at SERIAL [Silence; Data sample_tag_1] [] false in
  let after := reader_at SERIAL [Data sample_tag_1] ([] ++ [Cleared]) true in
  ACTIVE_MODE <> ANSWER_MODE
  /\ prologue g quiet_line = (Ok tt, mkReader (transport quiet_line) true)
  /\ next 1 g Fresh quiet_line = Some (Yielded None, Suspended false, after)
  /\ (connection_type (transport after) = connection_type (transport quiet_line)
      /\ exists n,
           log (transport after)
           = log (transport quiet_line) ++ repeat Cleared n)
  /\ inventory_reply TCP_IP sample_tag_1 0 0
  /\ next 1 g Fresh
       (reader_at TCP_IP [Data sample_tag_1; Data sample_tag_2] [] false)
     = Some (Yielded (Some (mkResponse ClsInventory (Some sample_tag_1) 0)),
             Suspended (0 =? InventoryStatus_NO_COUNT_LABEL),
             reader_at TCP_IP [Data sample_tag_2] [] true).
Proof.
  intros g quiet_line after.
  assert (H1 : ACTIVE_MODE <> ANSWER_MODE) by discriminate.
  assert (H2 : next 1 g Fresh quiet_line
               = Some (Yielded None, Suspended false, after)) by reflexivity.
  assert (H3 : inventory_reply TCP_IP sample_tag_1 0 0)
    by (repeat split; reflexivity).
  destruct (start_inventory_listens ACTIVE_MODE None H1) as (H4 & H5 & H6).
  exact (conj H1 (conj (H4 quiet_line) (conj H2
           (conj (H5 1%nat quiet_line after (Yielded None) (Suspended false) H2)
              (conj H3
                 (H6 TCP_IP sample_tag_1 0 0 [Data sample_tag_2] [] false
                    0%nat H3)))))).
Defined.

Lemma prologue_failure_precedes_io_witness :
  let c := CallStartInventory ANSWER_MODE None in
  let r := reader_at USB [Data sample_tag_1] [] false in
  let r' := reader_at USB [Data sample_tag_1] [] true in
  let kill := CallKillTag [0; 0; 0; 0] in
  let broken := reader_on USB [] [] [Refused USBError] false in
  let left_at := reader_on USB []
                   ([] ++ [Cleared; Written (serialize KILL_ISO_TAG [0; 0; 0; 0])])
                   [] true in
  (prologue (generator_of c) r = (Raise ValueError, r')
   /\ is_inventory r' = true
   /\ (transport r' = transport r /\ (forall pw, c <> CallKillTag pw)
       \/ exists data,
            write_outcome (transport r) = Raise ValueError
            /\ r' = sent (serialize (request_of c) data)
                      (mkReader (transport r) true)))
  /\ (prologue (generator_of kill) broken = (Raise USBError, left_at)
      /\ is_inventory left_at = true
      /\ (transport left_at = transport broken
          /\ (forall pw, kill <> CallKillTag pw)
          \/ exists data,
               write_outcome (transport broken) = Raise USBError
               /\ left_at = sent (serialize (request_of kill) data)
                              (mkReader (transport broken) true))).
Proof.
  intros c r r' kill broken left_at.
  assert (H1 : prologue (generator_of c) r = (Raise ValueError, r'))
    by reflexivity.
  assert (H2 : prologue (generator_of kill) broken = (Raise USBError, left_at))
    by reflexivity.
  exact (conj
           (conj H1 (prologue_failure_precedes_io c r r' ValueError H1))
           (conj H2 (prologue_failure_precedes_io kill broken left_at
                       USBError H2))).
Defined.

Lemma inventory_yields_whole_frames_witness :
  let g := start_inventory ANSWER_MODE (Some sample_parameter) in
  let item := mkResponse ClsInventory (Some sample_tag_1) 0 in
  let r := reader_at USB [Data (sample_tag_1 ++ sample_tag_2)] [] true in
  next 1 g (Suspended false) r
  = Some (Yielded (Some item), Suspended false, reader_at USB [] [] true)
  /\ exists frame,
       raw item = Some frame
       /\ cls item = ClsInventory
       /\ nth 0 frame 0 = HEADER
       /\ len frame = 5 + nth 4 frame 0 + 2
       /\ is_CommandRequest (frame_opcode frame) = true
       /\ frame_opcode frame <> INVENTORY_STOP
       /\ is_InventoryStatus (nth 5 frame 0) = true.
Proof.
  intros g item r.
  assert (H : next 1 g (Suspended false) r
              = Some (Yielded (Some item), Suspended false,
                      reader_at USB [] [] true)) by reflexivity.
  exact (conj H (inventory_yields_whole_frames ANSWER_MODE
                   (Some sample_parameter) 1 (Suspended false)
                   (Suspended false) r (reader_at USB [] [] true) item H)).
Defined.

Lemma inventory_recovers_from_stray_bytes_witness :
  let g := [1; 2; 3] in
  0 < len g < 5
  /\ nth 0 g 0 <> HEADER
  /\ inventory_reply SERIAL sample_tag_1 0 0
  /\ first_items 2 1 (start_inventory ANSWER_MODE (Some sample_parameter))
       (Suspended false)
       (reader_at SERIAL [Data g; Silence; Data sample_tag_1] [] true)
     = [None; Some (mkResponse ClsInventory (Some sample_tag_1) 0)].
Proof.
  intros g.
  assert (H1 : 0 < len g < 5) by (split; reflexivity).
  assert (H2 : nth 0 g 0 <> HEADER) by discriminate.
  assert (H3 : inventory_reply SERIAL sample_tag_1 0 0)
    by (repeat split; reflexivity).
  exact (conj H1 (conj H2 (conj H3
           (inventory_recovers_from_stray_bytes ANSWER_MODE
              (Some sample_parameter) g sample_tag_1 0 0 [] [] H1 H2 H3)))).
Defined.

Lemma inventory_drops_foreign_frames_witness :
  let pre := [sample_frame 2 [0]; sample_frame 83 [0]] in
  forallb (stray INVENTORY_ISO_CONTINUE) pre = true
  /\ (length pre < 20)%nat
  /\ inventory_reply USB (sample_end 1) 18 18
  /\ next 1 (start_inventory ANSWER_MODE (Some sample_parameter))
       (Suspended false)
       (reader_at USB (map Data pre ++ Data (sample_end 1) :: []) [] true)
     = Some (Yielded (Some (mkResponse ClsInventory (Some (sample_end 1)) 18)),
             Suspended (18 =? InventoryStatus_NO_COUNT_LABEL),
             reader_at USB [] [] true).
Proof.
  intros pre.
  assert (H1 : forallb (stray INVENTORY_ISO_CONTINUE) pre = true)
    by reflexivity.
  assert (H2 : (length pre < 20)%nat) by (simpl; lia).
  assert (H3 : inventory_reply USB (sample_end 1) 18 18)
    by (repeat split; reflexivity).
  exact (conj H1 (conj H2 (conj H3
           (inventory_drops_foreign_frames ANSWER_MODE (Some sample_parameter)
              USB pre (sample_end 1) 18 18 [] [] 0%nat H1 H2 H3)))).
Defined.

Lemma inventory_yields_twentieth_foreign_frame_witness :
  let pre := repeat (sample_frame 2 [0]) 19 in
  let g := sample_frame 83 [0] in
  forallb (stray INVENTORY_ISO_CONTINUE) (pre ++ [g]) = true
  /\ length pre = 19%nat
  /\ inventory_frame_ok (usb_kind SERIAL) g = true
  /\ nth 5 g 0 = 0
  /\ response_init ClsInventory (Some g) = Ok 0
  /\ frame_opcode g <> INVENTORY_ISO_CONTINUE
  /\ next 1 (start_inventory ANSWER_MODE (Some sample_parameter))
       (Suspended false)
       (reader_at SERIAL (map Data (pre ++ [g]) ++ [Data sample_tag_1]) [] true)
     = Some (Yielded (Some (mkResponse ClsInventory (Some g) 0)),
             Suspended (0 =? InventoryStatus_NO_COUNT_LABEL),
             reader_at SERIAL [Data sample_tag_1] [] true).
Proof.
  intros pre g.
  assert (H1 : forallb (stray INVENTORY_ISO_CONTINUE) (pre ++ [g]) = true)
    by reflexivity.
  assert (H2 : length pre = 19%nat) by reflexivity.
  assert (H3 : inventory_frame_ok (usb_kind SERIAL) g = true) by reflexivity.
  assert (H4 : nth 5 g 0 = 0) by reflexivity.
  assert (H5 : response_init ClsInventory (Some g) = Ok 0) by reflexivity.
  exact (conj H1 (conj H2 (conj H3 (conj H4 (conj H5
           (inventory_yields_twentieth_foreign_frame ANSWER_MODE
              (Some sample_parameter) SERIAL pre g 0 0 [Data sample_tag_1] []
              0%nat H1 H2 H3 H4 H5)))))).
Defined.

Lemma one_shot_timeout_propagates_witness :
  let c := CallGetDeviceInfo in
  let r := reader_on TCP_IP [Silence; Data (sample_frame 112 [0])] [] [] false in
  let broken := reader_on USB [] [] [Refused AssertionError] false in
  let asked := [] ++ [Cleared; Written (serialize GET_DEVICE_INFO [])] in
  perform c r
  = (Raise TimeoutError,
     reader_on TCP_IP [Data (sample_frame 112 [0])] asked [] false)
  /\ perform c broken
     = (Raise AssertionError, reader_on USB [] asked [] false)
  /\ (TCP_IP <> SERIAL
   /\ hd Silence [Silence; Data (sample_frame 112 [0])] = Silence
   /\ ((exists e, perform c r = (Raise e, r))
       \/ (exists data,
              let l' := [] ++ [Cleared;
                               Written (serialize (command_of c) data)] in
              match write_outcome (transport r) with
              | Raise e =>
                  perform c r
                  = (Raise e,
                     reader_on TCP_IP [Silence; Data (sample_frame 112 [0])]
                       l' (tl []) false)
              | Ok _ =>
                  perform c r
                  = (Raise (timeout_error TCP_IP),
                     reader_on TCP_IP
                       (tl [Silence; Data (sample_frame 112 [0])]) l' (tl [])
                       false)
              end)))
  /\ (USB <> SERIAL
      /\ hd Silence [] = Silence
      /\ ((exists e, perform c broken = (Raise e, broken))
          \/ (exists data,
                 let l' := [] ++ [Cleared;
                                  Written (serialize (command_of c) data)] in
                 match write_outcome (transport broken) with
                 | Raise e =>
                     perform c broken
                     = (Raise e,
                        reader_on USB [] l' (tl [Refused AssertionError])
                          false)
                 | Ok _ =>
                     perform c broken
                     = (Raise (timeout_error USB),
                        reader_on USB (tl []) l' (tl [Refused AssertionError])
                          false)
                 end))).
Proof.
  intros c r broken asked.
  assert (H1 : TCP_IP <> SERIAL) by discriminate.
  assert (H2 : hd Silence [Silence; Data (sample_frame 112 [0])] = Silence)
    by reflexivity.
  assert (H3 : USB <> SERIAL) by discriminate.
  assert (H4 : hd Silence (@nil RxEvent) = Silence) by reflexivity.
  split; [reflexivity|]. split; [reflexivity|].
  exact (conj
           (conj H1 (conj H2
              (one_shot_timeout_propagates c TCP_IP
                 [Silence; Data (sample_frame 112 [0])] [] [] false H1 H2)))
           (conj H3 (conj H4
              (one_shot_timeout_propagates c USB [] [] [Refused AssertionError]
                 false H3 H4)))).
Defined.

Lemma frame_in_two_bursts_witness :
  let a := firstn 8 sample_tag_1 in
  let b := skipn 8 sample_tag_1 in
  complete_frame (a ++ b) = true
  /\ 5 < len a
  /\ 0 < len b
  /\ (false = true \/ nth 0 a 0 = HEADER)
  /\ receive false false
       (reader_at SERIAL (Data a :: Data b :: [Data (sample_end 1)]) [] true)
     = (Ok (Some (a ++ b)), reader_at SERIAL [Data (sample_end 1)] [] true)
  /\ receive false false
       (reader_at TCP_IP (Data a :: Data b :: [Data (sample_end 1)]) [] true)
     = (Ok (Some a), reader_at TCP_IP (Data b :: [Data (sample_end 1)]) [] true).
Proof.
  intros a b.
  assert (H1 : complete_frame (a ++ b) = true) by reflexivity.
  assert (H2 : 5 < len a) by reflexivity.
  assert (H3 : 0 < len b) by reflexivity.
  assert (H4 : false = true \/ nth 0 a 0 = HEADER) by (right; reflexivity).
  exact (conj H1 (conj H2 (conj H3 (conj H4
           (frame_in_two_bursts false false a b [Data (sample_end 1)] [] true
              H1 H2 H3 H4))))).
Defined.

Lemma usb_inventory_skips_cut_reply_witness :
  let a := firstn 8 sample_tag_1 in
  let b := skipn 8 sample_tag_1 in
  inventory_reply USB (a ++ b) 0 0
  /\ 5 < len a
  /\ 0 < len b
  /\ inventory_body (reader_at USB (Data a :: [Data b]) [] true)
     = (Ok Continue, reader_at USB [Data b] [] true).
Proof.
  intros a b.
  assert (H1 : inventory_reply USB (a ++ b) 0 0)
    by (repeat split; reflexivity).
  assert (H2 : 5 < len a) by reflexivity.
  assert (H3 : 0 < len b) by reflexivity.
  exact (conj H1 (conj H2 (conj H3
           (usb_inventory_skips_cut_reply a b 0 0 [Data b] [] true
              H1 H2 H3)))).
Defined.

Lemma flush_discards_only_on_serial_witness :
  let stale := sample_frame 112 [0; 1] in
  let f := sample_frame 112 [0; 2] in
  let sent := [] ++ [Cleared; Written (serialize 112 [])] in
  framed f = true
  /\ answers 112 f = true
  /\ exchange 112 [] ret
       (mkReader (mkTransport SERIAL stale [Data f] []) false)
     = (Ok (Some f), reader_at SERIAL [] sent false)
  /\ framed stale = true
  /\ answers 112 stale = true
  /\ exchange 112 [] ret
       (mkReader (mkTransport TCP_IP stale [Data f] []) false)
     = (Ok (Some stale), reader_at TCP_IP [Data f] sent false).
Proof.
  intros stale f sent.
  assert (H1 : framed f = true) by reflexivity.
  assert (H2 : answers 112 f = true) by reflexivity.
  assert (H3 : framed stale = true) by reflexivity.
  assert (H4 : answers 112 stale = true) by reflexivity.
  destruct (flush_discards_only_on_serial 112 [] stale f [] [] false H1 H2)
    as [H5 H6].
  exact (conj H1 (conj H2 (conj H5 (conj H3 (conj H4 (H6 H3 H4)))))).
Defined.
